(** * cloudflare-go: a shallow embedding of the client, the IP discovery and
      the reconciliation flow, with the properties of the specification.

    Go strings are byte strings: they are modelled by [string] (a list of
    [ascii], one per byte).  Go's [int] values are modelled by [Z]; the only
    arithmetic on them is bounded well inside the machine range.  A Go result
    pair [(T, error)] is a value of [outcome T]; the callers in this
    repository always test the error first, so the zero value that
    accompanies a non-nil error is never observed. *)

From Stdlib Require Import ZArith List Bool Lia String Ascii.
Import ListNotations.

Open Scope string_scope.
Open Scope Z_scope.

(** ** Bytes *)

Definition byte_val (c : ascii) : Z := Z.of_N (N_of_ascii c).

Definition between (lo hi c : ascii) : bool :=
  (byte_val lo <=? byte_val c) && (byte_val c <=? byte_val hi).

Definition isDigit (c : ascii) : bool := between "0" "9" c.
Definition isLower (c : ascii) : bool := between "a" "z" c.
Definition isUpper (c : ascii) : bool := between "A" "Z" c.
Definition isAlnum (c : ascii) : bool := isLower c || isUpper c || isDigit c.

Definition byte_in (c : ascii) (l : list ascii) : bool :=
  existsb (Ascii.eqb c) l.

(** ** Package strings (the functions the program and its libraries use) *)

Module strings.

Fixpoint HasPrefix (s p : string) : bool :=
  match p, s with
  | EmptyString, _ => true
  | String a p', String b s' => Ascii.eqb a b && HasPrefix s' p'
  | String _ _, EmptyString => false
  end.

Fixpoint drop (n : nat) (s : string) : string :=
  match n, s with
  | O, _ => s
  | S n', String _ s' => drop n' s'
  | S _, EmptyString => EmptyString
  end.

Fixpoint take (n : nat) (s : string) : string :=
  match n, s with
  | O, _ => EmptyString
  | S n', String c s' => String c (take n' s')
  | S _, EmptyString => EmptyString
  end.

Definition HasSuffix (s p : string) : bool :=
  (String.length p <=? String.length s)%nat
  && String.eqb (drop (String.length s - String.length p) s) p.

(** [Index s sep]: the byte offset of the first occurrence of [sep]. *)
Fixpoint Index (s sep : string) : option nat :=
  if HasPrefix s sep then Some O
  else match s with
       | EmptyString => None
       | String _ s' => option_map S (Index s' sep)
       end.

(** [LastIndex s sep]: the byte offset of the last occurrence of [sep]. *)
Fixpoint LastIndex (s sep : string) : option nat :=
  match s with
  | EmptyString => if HasPrefix s sep then Some O else None
  | String _ s' =>
      match LastIndex s' sep with
      | Some i => Some (S i)
      | None => if HasPrefix s sep then Some O else None
      end
  end.

Definition Contains (s sep : string) : bool :=
  match Index s sep with Some _ => true | None => false end.

(** [Cut s sep] returns [(before, after, found)]. *)
Definition Cut (s sep : string) : string * string * bool :=
  match Index s sep with
  | Some i => (take i s, drop (i + String.length sep) s, true)
  | None => (s, EmptyString, false)
  end.

(** [CountByte s c] is [strings.Count(s, string(c))]. *)
Fixpoint CountByte (s : string) (c : ascii) : nat :=
  match s with
  | EmptyString => O
  | String b s' => ((if Ascii.eqb b c then 1 else 0) + CountByte s' c)%nat
  end.

Definition TrimSuffix (s p : string) : string :=
  if HasSuffix s p then take (String.length s - String.length p) s else s.

Definition lowerByte (c : ascii) : ascii :=
  if isUpper c then ascii_of_N (N_of_ascii c + 32) else c.

(** [ToLower] on the ASCII range; bytes of multi-byte runes are kept. *)
Fixpoint ToLower (s : string) : string :=
  match s with
  | EmptyString => EmptyString
  | String c s' => String (lowerByte c) (ToLower s')
  end.

Definition rev (s : string) : string :=
  string_of_list_ascii (List.rev (list_ascii_of_string s)).

(** The UTF-8 encodings of the runes for which [unicode.IsSpace] holds:
    the six ASCII ones, U+0085, U+00A0, U+1680, U+2000..U+200A, U+2028,
    U+2029, U+202F, U+205F and U+3000. *)
Definition b (n : N) : ascii := ascii_of_N n.

Definition spaces : list string :=
  map (fun c => String c EmptyString)
      [b 9; b 10; b 11; b 12; b 13; b 32]
  ++ map string_of_list_ascii
      [ [b 194; b 133]; [b 194; b 160]; [b 225; b 154; b 128];
        [b 226; b 128; b 128]; [b 226; b 128; b 129]; [b 226; b 128; b 130];
        [b 226; b 128; b 131]; [b 226; b 128; b 132]; [b 226; b 128; b 133];
        [b 226; b 128; b 134]; [b 226; b 128; b 135]; [b 226; b 128; b 136];
        [b 226; b 128; b 137]; [b 226; b 128; b 138]; [b 226; b 128; b 168];
        [b 226; b 128; b 169]; [b 226; b 128; b 175]; [b 226; b 129; b 159];
        [b 227; b 128; b 128] ].

(** The length of the white-space rune that starts [s], if any. *)
Definition leadingSpace (s : string) : option nat :=
  option_map String.length (find (HasPrefix s) spaces).

(** [TrimLeft] removes leading white-space runes.  The fuel is the length
    of the string: every step removes at least one byte. *)
Fixpoint trimLeft (fuel : nat) (s : string) : string :=
  match fuel with
  | O => s
  | S fuel' =>
      match leadingSpace s with
      | Some n => trimLeft fuel' (drop n s)
      | None => s
      end
  end.

Definition trailingSpace (s : string) : option nat :=
  option_map String.length (find (HasSuffix s) spaces).

Fixpoint trimRight (fuel : nat) (s : string) : string :=
  match fuel with
  | O => s
  | S fuel' =>
      match trailingSpace s with
      | Some n => trimRight fuel' (take (String.length s - n) s)
      | None => s
      end
  end.

Definition TrimSpace (s : string) : string :=
  let l := trimLeft (String.length s) s in
  trimRight (String.length l) l.

End strings.

(** ** Packages net/netip and net: parsing and printing IP addresses

    [net.ParseIP] is [netip.ParseAddr] followed by the rejection of zoned
    addresses and by [As16]; the failure of a parser is [None] (the Go
    functions return an error whose text the program never reads). *)

Module netip.

(** Arrays of bytes ([[4]uint8], [[16]byte]) are lists of [Z]; [upd i v a]
    is the assignment [a[i] = v] (indices are in range wherever the
    parsers assign). *)
Fixpoint upd (i : nat) (v : Z) (a : list Z) : list Z :=
  match a, i with
  | [], _ => []
  | _ :: a', O => v :: a'
  | x :: a', S i' => x :: upd i' v a'
  end.

(** The loop of [parseIPv4Fields(in, off, end, fields)] over [s = in[off:end]].
    [prev] is [s[i-1]] ([None] when [i = 0]); [fields] is the array the
    caller passes with [base] the offset of the slice in it. *)
Fixpoint parseIPv4Fields_loop (s : string) (prev : option ascii)
    (val : Z) (pos : nat) (digLen : Z) (base : nat) (fields : list Z)
    : option (list Z) :=
  match s with
  | EmptyString =>
      if (pos <? 3)%nat then None                      (* too short *)
      else Some (upd (base + 3) val fields)
  | String c s' =>
      if isDigit c then
        if (digLen =? 1) && (val =? 0) then None       (* leading zero *)
        else
          let val' := val * 10 + (byte_val c - byte_val "0") in
          if val' >? 255 then None                     (* value > 255 *)
          else parseIPv4Fields_loop s' (Some c) val' pos (digLen + 1) base fields
      else if Ascii.eqb c "." then
        if match prev with None => true | Some p => Ascii.eqb p "." end
           || match s' with EmptyString => true | _ => false end
        then None                                      (* empty octet *)
        else if (pos =? 3)%nat then None               (* too long *)
        else parseIPv4Fields_loop s' (Some c) 0 (S pos) 0 base
                                  (upd (base + pos) val fields)
      else None                                        (* unexpected byte *)
  end.

Definition parseIPv4Fields (s : string) (base : nat) (fields : list Z)
    : option (list Z) :=
  parseIPv4Fields_loop s None 0 0 0 base fields.

(** An address: its sixteen bytes, whether it is an IPv4 address (Go's
    [z4] marker) and its zone. *)
Record Addr := { bytes16 : list Z; is4 : bool; zone : string }.

Definition v4prefix : list Z := [0;0;0;0;0;0;0;0;0;0;255;255].

Definition parseIPv4 (s : string) : option Addr :=
  match parseIPv4Fields s 0 [0;0;0;0] with
  | Some fields => Some {| bytes16 := v4prefix ++ fields; is4 := true; zone := "" |}
  | None => None
  end.

Definition hexval (c : ascii) : option Z :=
  if isDigit c then Some (byte_val c - byte_val "0")
  else if between "a" "f" c then Some (byte_val c - byte_val "a" + 10)
  else if between "A" "F" c then Some (byte_val c - byte_val "A" + 10)
  else None.

(** The inner loop of [parseIPv6]: accumulate hexadecimal digits in the
    [uint32] [acc]; the result is [(off, acc, s[off:])]. *)
Fixpoint hexField (s : string) (off : nat) (acc : Z) : option (nat * Z * string) :=
  match s with
  | EmptyString => Some (off, acc, s)
  | String c s' =>
      match hexval c with
      | Some d =>
          let acc' := (Z.shiftl acc 4 + d) mod 2 ^ 32 in
          if (3 <? off)%nat then None            (* more than 4 digits *)
          else if acc' >? 65535 then None        (* overflow *)
          else hexField s' (S off) acc'
      | None => Some (off, acc, s)
      end
  end.

(** [off < len(s) && s[off] == '.'], on [s[off:]]. *)
Definition HasDot (s : string) : bool :=
  match s with String "." _ => true | _ => false end.

(** The state with which the main loop of [parseIPv6] is left. *)
Record v6state := { rest : string; idx : nat; ellipsis : option nat; ip : list Z }.

(** The main loop, [for i < 16].  Every iteration that does not leave the
    loop adds 2 to [i], so eight iterations are enough; [fuel] counts them. *)
Fixpoint parseIPv6_loop (fuel : nat) (s : string) (i : nat)
    (ell : option nat) (a : list Z) {struct fuel} : option v6state :=
  if (16 <=? i)%nat then Some {| rest := s; idx := i; ellipsis := ell; ip := a |}
  else
    match fuel with
    | O => None
    | S fuel' =>
        match hexField s 0 0 with
        | None => None
        | Some (off, acc, s1) =>
            if (off =? 0)%nat then None          (* no digit in the field *)
            else if HasDot s1 then
              (* trailing dotted IPv4 *)
              if match ell with None => negb (i =? 12)%nat | Some _ => false end
              then None
              else if (16 <? i + 4)%nat then None
              else
                match parseIPv4Fields s i a with
                | None => None
                | Some a' =>
                    Some {| rest := ""; idx := (i + 4)%nat; ellipsis := ell; ip := a' |}
                end
            else
              let a1 := upd (S i) (acc mod 256) (upd i (Z.shiftr acc 8 mod 256) a) in
              let i1 := (i + 2)%nat in
              match s1 with
              | EmptyString => Some {| rest := s1; idx := i1; ellipsis := ell; ip := a1 |}
              | String c s2 =>
                  if negb (Ascii.eqb c ":") then None     (* want colon *)
                  else
                    match s2 with
                    | EmptyString => None                 (* colon at the end *)
                    | String c2 s3 =>
                        if Ascii.eqb c2 ":" then
                          match ell with
                          | Some _ => None                (* a second "::" *)
                          | None =>
                              match s3 with
                              | EmptyString =>
                                  Some {| rest := s3; idx := i1;
                                          ellipsis := Some i1; ip := a1 |}
                              | _ => parseIPv6_loop fuel' s3 i1 (Some i1) a1
                              end
                          end
                        else parseIPv6_loop fuel' s2 i1 ell a1
                    end
              end
        end
    end.

(** The expansion of the ellipsis: [for j := i-1; j >= ellipsis; j--
    { ip[j+n] = ip[j] }], with [k] the number of iterations left. *)
Fixpoint shiftUp (a : list Z) (n e k : nat) : list Z :=
  match k with
  | O => a
  | S k' => let j := (e + k')%nat in shiftUp (upd (j + n) (nth j a 0) a) n e k'
  end.

(** [clear(ip[e : e+n])]. *)
Fixpoint clear (a : list Z) (e n : nat) : list Z :=
  match n with
  | O => a
  | S n' => clear (upd (e + n') 0 a) e n'
  end.

Definition zero16 : list Z := repeat 0 16.

Definition parseIPv6 (input : string) : option Addr :=
  let '(s, z, hasZone) := strings.Cut input "%" in
  if hasZone && String.eqb z "" then None          (* empty zone *)
  else
    let '(s, ell) :=
      if strings.HasPrefix s "::" then (strings.drop 2 s, Some O) else (s, None) in
    if match ell with Some _ => String.eqb s "" | None => false end
    then Some {| bytes16 := zero16; is4 := false; zone := z |}
    else
      match parseIPv6_loop 8 s 0 ell zero16 with
      | None => None
      | Some st =>
          if negb (String.eqb (rest st) "") then None   (* trailing garbage *)
          else if (idx st <? 16)%nat then
            match ellipsis st with
            | None => None                              (* too short *)
            | Some e =>
                let n := (16 - idx st)%nat in
                Some {| bytes16 := clear (shiftUp (ip st) n e (idx st - e)) e n;
                        is4 := false; zone := z |}
            end
          else
            match ellipsis st with
            | Some _ => None                 (* "::" must stand for a group *)
            | None => Some {| bytes16 := ip st; is4 := false; zone := z |}
            end
      end.

(** [ParseAddr]: the first of ['.'], [':'] and ['%'] picks the parser. *)
Fixpoint ParseAddr_scan (input s : string) : option Addr :=
  match s with
  | EmptyString => None                                 (* unable to parse *)
  | String c s' =>
      if Ascii.eqb c "." then parseIPv4 input
      else if Ascii.eqb c ":" then parseIPv6 input
      else if Ascii.eqb c "%" then None                 (* missing address *)
      else ParseAddr_scan input s'
  end.

Definition ParseAddr (s : string) : option Addr := ParseAddr_scan s s.

(** [appendDecimal]: the decimal digits of a byte. *)
Definition digit (n : Z) : ascii := ascii_of_N (Z.to_N (48 + n)).

Definition appendDecimal (x : Z) : string :=
  (if 100 <=? x then String (digit (x / 100)) "" else "")
  ++ (if 10 <=? x then String (digit (x / 10 mod 10)) "" else "")
  ++ String (digit (x mod 10)) "".

(** [Addr.string4], on the four bytes of an IPv4 address. *)
Definition string4 (p : list Z) : string :=
  appendDecimal (nth 0 p 0) ++ "." ++ appendDecimal (nth 1 p 0) ++ "."
  ++ appendDecimal (nth 2 p 0) ++ "." ++ appendDecimal (nth 3 p 0).

End netip.

Module net.

(** A [net.IP] is a byte slice; [nil] is [None] where a function may
    return it. *)
Definition IP := list Z.

Definition ParseIP (s : string) : option IP :=
  match netip.ParseAddr s with
  | Some a => if String.eqb (netip.zone a) "" then Some (netip.bytes16 a) else None
  | None => None
  end.

Definition isZeros (p : list Z) : bool := forallb (Z.eqb 0) p.

Definition To4 (ip : IP) : option IP :=
  if (List.length ip =? 4)%nat then Some ip
  else if (List.length ip =? 16)%nat
          && isZeros (firstn 10 ip)
          && (nth 10 ip 0 =? 255) && (nth 11 ip 0 =? 255)
       then Some (skipn 12 ip)
       else None.

(** [IP.String] where [To4] is not nil: the dotted form of the four bytes.
    The program prints an address only under that condition. *)
Definition String4 (p4 : IP) : string := netip.string4 p4.

End net.

(** ** Package net/url

    [Parse], [ResolveReference] (RFC 3986, section 5.2) and [String], with
    the escaping rules they rest on.  A parse error is [None]. *)

Module url.

Import strings.

Inductive encoding :=
| encodePath | encodePathSegment | encodeHost | encodeZone
| encodeUserPassword | encodeQueryComponent | encodeFragment.

Definition isHostMode (m : encoding) : bool :=
  match m with encodeHost | encodeZone => true | _ => false end.

Definition isQueryMode (m : encoding) : bool :=
  match m with encodeQueryComponent => true | _ => false end.

Definition dquote : ascii := b 34.

(** [shouldEscape c mode]: must byte [c] be percent-encoded in [mode]? *)
Definition shouldEscape (c : ascii) (mode : encoding) : bool :=
  if isAlnum c then false
  else if isHostMode mode
          && byte_in c ["!"; "$"; "&"; "'"; "("; ")"; "*"; "+"; ","; ";"; "=";
                        ":"; "["; "]"; "<"; ">"; dquote]%char
  then false
  else if byte_in c ["-"; "_"; "."; "~"]%char then false
  else if byte_in c ["$"; "&"; "+"; ","; "/"; ":"; ";"; "="; "?"; "@"]%char
          && match mode with
             | encodePath | encodePathSegment | encodeUserPassword
             | encodeQueryComponent | encodeFragment => true
             | _ => false
             end
  then
    match mode with
    | encodePath => Ascii.eqb c "?"
    | encodePathSegment => byte_in c ["/"; ";"; ","; "?"]%char
    | encodeUserPassword => byte_in c ["@"; "/"; "?"; ":"]%char
    | encodeQueryComponent => true
    | _ => false
    end
  else if match mode with encodeFragment => byte_in c ["!"; "("; ")"; "*"]%char
                     | _ => false end
  then false
  else true.

Definition ishex (c : ascii) : bool :=
  isDigit c || between "a" "f" c || between "A" "F" c.

Definition unhex (c : ascii) : Z :=
  if isDigit c then byte_val c - byte_val "0"
  else if between "a" "f" c then byte_val c - byte_val "a" + 10
  else if between "A" "F" c then byte_val c - byte_val "A" + 10
  else 0.

Definition upperhex (n : Z) : ascii :=
  if n <? 10 then ascii_of_N (Z.to_N (48 + n)) else ascii_of_N (Z.to_N (55 + n)).

Definition unhex2 (h l : ascii) : ascii :=
  ascii_of_N (Z.to_N (Z.lor (Z.shiftl (unhex h) 4) (unhex l))).

(** The first pass of [unescape]: are the escapes of [s] well formed (and,
    in a host, are its bytes allowed)? *)
Fixpoint unescape_ok (s : string) (mode : encoding) : bool :=
  match s with
  | EmptyString => true
  | String "%" s1 =>
      match s1 with
      | String h (String l s3) =>
          ishex h && ishex l
          && negb (match mode with encodeHost => true | _ => false end
                   && (unhex h <? 8)
                   && negb (Ascii.eqb h "2" && Ascii.eqb l "5"))
          && negb (match mode with encodeZone => true | _ => false end
                   && negb (Ascii.eqb h "2" && Ascii.eqb l "5")
                   && negb (Ascii.eqb (unhex2 h l) " ")
                   && shouldEscape (unhex2 h l) encodeHost)
          && unescape_ok s3 mode
      | _ => false
      end
  | String "+" s1 => unescape_ok s1 mode
  | String c s1 =>
      negb (isHostMode mode && (byte_val c <? 128) && shouldEscape c encodeHost)
      && unescape_ok s1 mode
  end.

(** The second pass: decode. *)
Fixpoint unescape_decode (s : string) (mode : encoding) : string :=
  match s with
  | EmptyString => EmptyString
  | String "%" (String h (String l s3)) =>
      String (unhex2 h l) (unescape_decode s3 mode)
  | String "+" s1 =>
      String (if isQueryMode mode then " "%char else "+"%char) (unescape_decode s1 mode)
  | String c s1 => String c (unescape_decode s1 mode)
  end.

Definition unescape (s : string) (mode : encoding) : option string :=
  if unescape_ok s mode then Some (unescape_decode s mode) else None.

Fixpoint escape (s : string) (mode : encoding) : string :=
  match s with
  | EmptyString => EmptyString
  | String c s' =>
      if Ascii.eqb c " " && isQueryMode mode then String "+" (escape s' mode)
      else if shouldEscape c mode then
        String "%" (String (upperhex (Z.shiftr (byte_val c) 4))
                   (String (upperhex (Z.land (byte_val c) 15)) (escape s' mode)))
      else String c (escape s' mode)
  end.

Definition QueryEscape (s : string) : string := escape s encodeQueryComponent.

(** [url.Values]: a map from keys to lists of values, kept as an
    association list; [Encode] visits the keys in sorted order. *)
Definition Values := list (string * list string).

Fixpoint Values_Set (v : Values) (key value : string) : Values :=
  match v with
  | [] => [(key, [value])]
  | (k, vs) :: v' =>
      if String.eqb k key then (k, [value]) :: v' else (k, vs) :: Values_Set v' key value
  end.

Fixpoint insertSorted (e : string * list string) (v : Values) : Values :=
  match v with
  | [] => [e]
  | e' :: v' => if String.leb (fst e) (fst e') then e :: v else e' :: insertSorted e v'
  end.

Definition sortedByKey (v : Values) : Values := fold_right insertSorted [] v.

Definition Values_Encode (v : Values) : string :=
  String.concat "&"
    (flat_map (fun '(k, vs) =>
                 map (fun x => QueryEscape k ++ "=" ++ QueryEscape x) vs)
              (sortedByKey v)).

Record Userinfo := { username : string; password : string; passwordSet : bool }.

Record URL := {
  Scheme : string;
  Opaque : string;
  User : option Userinfo;
  Host : string;
  Path : string;
  RawPath : string;
  OmitHost : bool;
  ForceQuery : bool;
  RawQuery : string;
  Fragment : string;
  RawFragment : string
}.

Definition emptyURL : URL :=
  {| Scheme := ""; Opaque := ""; User := None; Host := ""; Path := "";
     RawPath := ""; OmitHost := false; ForceQuery := false; RawQuery := "";
     Fragment := ""; RawFragment := "" |}.

Definition stringContainsCTLByte (s : string) : bool :=
  existsb (fun c => (byte_val c <? 32) || (byte_val c =? 127)) (list_ascii_of_string s).

(** [getScheme]: [Some (scheme, rest)], or [None] for "missing protocol
    scheme". *)
Fixpoint getScheme_loop (rawURL s : string) (i : nat) : option (string * string) :=
  match s with
  | EmptyString => Some ("", rawURL)
  | String c s' =>
      if isLower c || isUpper c then getScheme_loop rawURL s' (S i)
      else if isDigit c || byte_in c ["+"; "-"; "."]%char then
        if (i =? 0)%nat then Some ("", rawURL) else getScheme_loop rawURL s' (S i)
      else if Ascii.eqb c ":" then
        if (i =? 0)%nat then None else Some (take i rawURL, s')
      else Some ("", rawURL)
  end.

Definition getScheme (rawURL : string) : option (string * string) :=
  getScheme_loop rawURL rawURL 0.

Definition validOptionalPort (port : string) : bool :=
  match port with
  | EmptyString => true
  | String c digits => Ascii.eqb c ":" && forallb isDigit (list_ascii_of_string digits)
  end.

Definition parseHost (host : string) : option string :=
  let plain := unescape host encodeHost in
  if HasPrefix host "[" then
    match LastIndex host "]" with
    | None => None
    | Some i =>
        if negb (validOptionalPort (drop (S i) host)) then None
        else
          match Index (take i host) "%25" with
          | Some z =>
              match unescape (take z host) encodeHost,
                    unescape (take (i - z) (drop z host)) encodeZone,
                    unescape (drop i host) encodeHost with
              | Some h1, Some h2, Some h3 => Some (h1 ++ h2 ++ h3)
              | _, _, _ => None
              end
          | None => plain
          end
    end
  else
    match LastIndex host ":" with
    | Some i => if validOptionalPort (drop i host) then plain else None
    | None => plain
    end.

Definition validUserinfo (s : string) : bool :=
  forallb (fun c => isAlnum c
                    || byte_in c ["-"; "."; "_"; ":"; "~"; "!"; "$"; "&"; "'"; "(";
                                  ")"; "*"; "+"; ","; ";"; "="; "%"; "@"]%char)
          (list_ascii_of_string s).

Definition parseAuthority (authority : string) : option (option Userinfo * string) :=
  match LastIndex authority "@" with
  | None =>
      match parseHost authority with
      | Some host => Some (None, host)
      | None => None
      end
  | Some i =>
      match parseHost (drop (S i) authority) with
      | None => None
      | Some host =>
          let userinfo := take i authority in
          if negb (validUserinfo userinfo) then None
          else if negb (Contains userinfo ":") then
            match unescape userinfo encodeUserPassword with
            | Some u =>
                Some (Some {| username := u; password := ""; passwordSet := false |}, host)
            | None => None
            end
          else
            let '(uname, pass, _) := Cut userinfo ":" in
            match unescape uname encodeUserPassword, unescape pass encodeUserPassword with
            | Some u, Some p =>
                Some (Some {| username := u; password := p; passwordSet := true |}, host)
            | _, _ => None
            end
      end
  end.

Definition setPath (u : URL) (p : string) : option URL :=
  match unescape p encodePath with
  | None => None
  | Some path =>
      Some {| Scheme := Scheme u; Opaque := Opaque u; User := User u; Host := Host u;
              Path := path;
              RawPath := if String.eqb p (escape path encodePath) then "" else p;
              OmitHost := OmitHost u; ForceQuery := ForceQuery u;
              RawQuery := RawQuery u; Fragment := Fragment u;
              RawFragment := RawFragment u |}
  end.

Definition setFragment (u : URL) (f : string) : option URL :=
  match unescape f encodeFragment with
  | None => None
  | Some frag =>
      Some {| Scheme := Scheme u; Opaque := Opaque u; User := User u; Host := Host u;
              Path := Path u; RawPath := RawPath u;
              OmitHost := OmitHost u; ForceQuery := ForceQuery u;
              RawQuery := RawQuery u; Fragment := frag;
              RawFragment := if String.eqb f (escape frag encodeFragment) then "" else f |}
  end.

Definition withQuery (u : URL) (force : bool) (q : string) : URL :=
  {| Scheme := Scheme u; Opaque := Opaque u; User := User u; Host := Host u;
     Path := Path u; RawPath := RawPath u; OmitHost := OmitHost u;
     ForceQuery := force; RawQuery := q; Fragment := Fragment u;
     RawFragment := RawFragment u |}.

Definition withAuthority (u : URL) (usr : option Userinfo) (host : string)
    (omit : bool) : URL :=
  {| Scheme := Scheme u; Opaque := Opaque u; User := usr; Host := host;
     Path := Path u; RawPath := RawPath u; OmitHost := omit;
     ForceQuery := ForceQuery u; RawQuery := RawQuery u; Fragment := Fragment u;
     RawFragment := RawFragment u |}.

Definition withScheme (u : URL) (scheme : string) : URL :=
  {| Scheme := scheme; Opaque := Opaque u; User := User u; Host := Host u;
     Path := Path u; RawPath := RawPath u; OmitHost := OmitHost u;
     ForceQuery := ForceQuery u; RawQuery := RawQuery u; Fragment := Fragment u;
     RawFragment := RawFragment u |}.

Definition withOpaque (u : URL) (opaque : string) : URL :=
  {| Scheme := Scheme u; Opaque := opaque; User := None; Host := "";
     Path := ""; RawPath := RawPath u; OmitHost := OmitHost u;
     ForceQuery := ForceQuery u; RawQuery := RawQuery u; Fragment := Fragment u;
     RawFragment := RawFragment u |}.

Definition withFragment (u : URL) (frag rawFrag : string) : URL :=
  {| Scheme := Scheme u; Opaque := Opaque u; User := User u; Host := Host u;
     Path := Path u; RawPath := RawPath u; OmitHost := OmitHost u;
     ForceQuery := ForceQuery u; RawQuery := RawQuery u; Fragment := frag;
     RawFragment := rawFrag |}.

(** [parse(rawURL, viaRequest)] at [viaRequest = false], the only way
    [Parse] calls it. *)
Definition parse (rawURL : string) : option URL :=
  if stringContainsCTLByte rawURL then None
  else if String.eqb rawURL "*" then
    Some {| Scheme := ""; Opaque := ""; User := None; Host := ""; Path := "*";
            RawPath := ""; OmitHost := false; ForceQuery := false; RawQuery := "";
            Fragment := ""; RawFragment := "" |}
  else
    match getScheme rawURL with
    | None => None
    | Some (scheme, rest) =>
        let u := withScheme emptyURL (ToLower scheme) in
        let '(rest, u) :=
          if HasSuffix rest "?" && (CountByte rest "?" =? 1)%nat
          then (take (String.length rest - 1) rest, withQuery u true "")
          else let '(before, q, _) := Cut rest "?" in (before, withQuery u false q) in
        if negb (HasPrefix rest "/") && negb (String.eqb (Scheme u) "") then
          (* a rootless path after a scheme is opaque *)
          Some {| Scheme := Scheme u; Opaque := rest; User := None; Host := "";
                  Path := ""; RawPath := ""; OmitHost := false;
                  ForceQuery := ForceQuery u; RawQuery := RawQuery u;
                  Fragment := ""; RawFragment := "" |}
        else if negb (HasPrefix rest "/")
                && Contains (fst (fst (Cut rest "/"))) ":"
        then None       (* first path segment in URL cannot contain colon *)
        else if (negb (String.eqb (Scheme u) "") || negb (HasPrefix rest "///"))
                && HasPrefix rest "//"
        then
          let authority := drop 2 rest in
          let '(authority, rest) :=
            match Index authority "/" with
            | Some i => (take i authority, drop i authority)
            | None => (authority, "")
            end in
          match parseAuthority authority with
          | None => None
          | Some (usr, host) => setPath (withAuthority u usr host false) rest
          end
        else if negb (String.eqb (Scheme u) "") && HasPrefix rest "/" then
          setPath (withAuthority u None "" true) rest
        else setPath u rest
    end.

Definition Parse (rawURL : string) : option URL :=
  let '(u, frag, _) := Cut rawURL "#" in
  match parse u with
  | None => None
  | Some url => if String.eqb frag "" then Some url else setFragment url frag
  end.

Definition validEncoded (s : string) (mode : encoding) : bool :=
  forallb (fun c =>
             byte_in c ["!"; "$"; "&"; "'"; "("; ")"; "*"; "+"; ","; ";"; "="; ":";
                        "@"; "["; "]"; "%"]%char
             || negb (shouldEscape c mode))
          (list_ascii_of_string s).

Definition EscapedPath (u : URL) : string :=
  if negb (String.eqb (RawPath u) "") && validEncoded (RawPath u) encodePath
     && match unescape (RawPath u) encodePath with
        | Some p => String.eqb p (Path u)
        | None => false
        end
  then RawPath u
  else if String.eqb (Path u) "*" then "*"
  else escape (Path u) encodePath.

Definition EscapedFragment (u : URL) : string :=
  if negb (String.eqb (RawFragment u) "") && validEncoded (RawFragment u) encodeFragment
     && match unescape (RawFragment u) encodeFragment with
        | Some f => String.eqb f (Fragment u)
        | None => false
        end
  then RawFragment u
  else escape (Fragment u) encodeFragment.

Definition Userinfo_String (ui : Userinfo) : string :=
  escape (username ui) encodeUserPassword
  ++ (if passwordSet ui then ":" ++ escape (password ui) encodeUserPassword else "").

Definition isSome {A} (o : option A) : bool :=
  match o with Some _ => true | None => false end.

(** [URL.String]. *)
Definition String_ (u : URL) : string :=
  let nonEmpty s := negb (String.eqb s "") in
  let buf := if nonEmpty (Scheme u) then Scheme u ++ ":" else "" in
  let buf :=
    if nonEmpty (Opaque u) then buf ++ Opaque u
    else
      let buf :=
        if nonEmpty (Scheme u) || nonEmpty (Host u) || isSome (User u) then
          if OmitHost u && String.eqb (Host u) "" && negb (isSome (User u)) then buf
          else
            buf
            ++ (if nonEmpty (Host u) || nonEmpty (Path u) || isSome (User u)
                then "//" else "")
            ++ match User u with
               | Some ui => Userinfo_String ui ++ "@"
               | None => ""
               end
            ++ (if nonEmpty (Host u) then escape (Host u) encodeHost else "")
        else buf in
      let path := EscapedPath u in
      let buf :=
        if nonEmpty path && negb (HasPrefix path "/") && nonEmpty (Host u)
        then buf ++ "/" else buf in
      let buf :=
        if String.eqb buf "" && Contains (fst (fst (Cut path "/"))) ":"
        then buf ++ "./" else buf in
      buf ++ path in
  let buf :=
    if ForceQuery u || nonEmpty (RawQuery u) then buf ++ "?" ++ RawQuery u else buf in
  if nonEmpty (Fragment u) then buf ++ "#" ++ EscapedFragment u else buf.

(** The segments of a path: the successive [strings.Cut(remaining, "/")]. *)
Fixpoint segments (s : string) (cur : string) : list string :=
  match s with
  | EmptyString => [cur]
  | String c s' =>
      if Ascii.eqb c "/" then cur :: segments s' ""
      else segments s' (cur ++ String c "")
  end.

(** The loop of [resolvePath]: [dst] is the builder, [first] the flag, and
    the result carries the last segment seen. *)
Fixpoint resolve_loop (elems : list string) (dst : string) (first : bool)
    (last : string) : string * string :=
  match elems with
  | [] => (dst, last)
  | elem :: elems' =>
      if String.eqb elem "." then resolve_loop elems' dst false elem
      else if String.eqb elem ".." then
        let str := drop 1 dst in
        match LastIndex str "/" with
        | None => resolve_loop elems' "/" true elem
        | Some index => resolve_loop elems' ("/" ++ take index str) first elem
        end
      else
        resolve_loop elems' ((if first then dst else dst ++ "/") ++ elem) false elem
  end.

Definition resolvePath (base ref : string) : string :=
  let full :=
    if String.eqb ref "" then base
    else if negb (HasPrefix ref "/") then
      match LastIndex base "/" with
      | Some i => take (S i) base ++ ref
      | None => ref
      end
    else ref in
  if String.eqb full "" then ""
  else
    let '(dst, elem) := resolve_loop (segments full "") "/" true "" in
    let r := if String.eqb elem "." || String.eqb elem ".." then dst ++ "/" else dst in
    if (1 <? String.length r)%nat && HasPrefix (drop 1 r) "/" then drop 1 r else r.

(** [setPath] whose error is dropped, as [ResolveReference] does. *)
Definition setPath_ (u : URL) (p : string) : URL :=
  match setPath u p with Some u' => u' | None => u end.

Definition ResolveReference (u ref : URL) : URL :=
  let url := if String.eqb (Scheme ref) "" then withScheme ref (Scheme u) else ref in
  if negb (String.eqb (Scheme ref) "") || negb (String.eqb (Host ref) "")
     || isSome (User ref)
  then setPath_ url (resolvePath (EscapedPath ref) "")
  else if negb (String.eqb (Opaque ref) "") then withOpaque url (Opaque url)
  else
    let inherit := String.eqb (Path ref) "" && negb (ForceQuery ref)
                   && String.eqb (RawQuery ref) "" in
    let url := if inherit then withQuery url (ForceQuery url) (RawQuery u) else url in
    let url :=
      if inherit && String.eqb (Fragment ref) ""
      then withFragment url (Fragment u) (RawFragment u) else url in
    if String.eqb (Path ref) "" && negb (String.eqb (Opaque u) "")
    then withOpaque url (Opaque u)
    else
      setPath_ (withAuthority url (User u) (Host u) (OmitHost url))
               (resolvePath (EscapedPath u) (EscapedPath ref)).

End url.

(** ** Errors

    A Go [error] is known to the program by its text only.  [errorString]
    is the result of [errors.New] and of [fmt.Errorf] without [%w];
    [wrapError msg cause] is [fmt.Errorf(msg + "%w", cause)]; [urlError] is
    the [*url.Error] of [url.Parse] (its reason is not modelled). *)

Inductive error :=
| errorString (msg : string)
| wrapError (msg : string) (cause : error)
| urlError (op : string) (rawURL : string).

(** ** Package net/http: requests and responses

    The body of a request is the value that is marshalled into it, the body
    of a response is what its reader obtains from it; both are parameters. *)

Module http.

Definition MethodGet := "GET".
Definition MethodPost := "POST".
Definition MethodPut := "PUT".

(** A header maps a canonical key to a value; [Header_Set] replaces. *)
Definition Header := list (string * string).

Fixpoint Header_Set (h : Header) (key value : string) : Header :=
  match h with
  | [] => [(key, value)]
  | (k, v) :: h' =>
      if String.eqb k key then (k, value) :: h' else (k, v) :: Header_Set h' key value
  end.

(** [Header.Get]: the value of a key, the empty string when it is absent. *)
Fixpoint Header_Get (h : Header) (key : string) : string :=
  match h with
  | [] => ""
  | (k, v) :: h' => if String.eqb k key then v else Header_Get h' key
  end.

Record Request (B : Type) := {
  Method : string;
  URL : url.URL;
  Header_ : Header;
  Body : option B
}.

Arguments Method {B}. Arguments URL {B}. Arguments Header_ {B}. Arguments Body {B}.

Record Response (B : Type) := {
  StatusCode : Z;
  Status : string;
  RespBody : B
}.

Arguments StatusCode {B}. Arguments Status {B}. Arguments RespBody {B}.

Definition hasPort (s : string) : bool :=
  match strings.LastIndex s ":", strings.LastIndex s "]" with
  | Some i, Some j => (j <? i)%nat
  | Some _, None => true
  | None, _ => false
  end.

Definition removeEmptyPort (host : string) : string :=
  if hasPort host then strings.TrimSuffix host ":" else host.

(** [http.NewRequest] for one of the three methods above (all valid): the
    URL is parsed again and an empty port is removed from its host. *)
Definition NewRequest {B} (method u : string) (body : option B) : error + Request B :=
  match url.Parse u with
  | None => inl (urlError "parse" u)
  | Some pu =>
      inr {| Method := method;
             URL := url.withAuthority pu (url.User pu) (removeEmptyPort (url.Host pu))
                                      (url.OmitHost pu);
             Header_ := [];
             Body := body |}
  end.

Definition is2xx {B} (resp : Response B) : bool :=
  negb ((StatusCode resp <? 200) || (StatusCode resp >=? 300)).

End http.

(** ** The wire types of the provider (dns.go) *)

Module Zone.
Record t := { ID : string; Name : string }.
End Zone.

Module DNSRecord.
Record t := {
  ID : string;
  Type_ : string;
  Name : string;
  Content : string;
  TTL : Z;
  Proxied : bool
}.
End DNSRecord.

Module wire.

Record apiMessage := { Code : Z; Message : string }.

Record apiResponse (T : Type) := {
  Success : bool;
  Errors : list apiMessage;
  Messages : list apiMessage;
  Result : T
}.

Arguments Success {T}. Arguments Errors {T}. Arguments Messages {T}.
Arguments Result {T}.

(** The body of a provider response, seen through
    [json.NewDecoder(resp.Body).Decode(&out)] at each of the three types of
    [out] the client uses; [inl] is the decoder's error. *)
Record JSONBody := {
  decodeZones : error + apiResponse (list Zone.t);
  decodeRecords : error + apiResponse (list DNSRecord.t);
  decodeRecord : error + apiResponse DNSRecord.t
}.

End wire.

(** ** Execution: the world, the trace and the monad of the operations

    The program talks to two HTTP services.  Everything behind an
    [http.Client] (network, server, context deadline) is a transition of an
    abstract world: given a request it yields an error or a response.  The
    trace is ghost state: it records, in order, every entry into an
    operation of the client, every request handed to a transport and every
    line printed. *)

Module exec.

Inductive Call :=
| CallFindZoneID (zoneName : string)
| CallGetARecord (zoneID fqdn : string)
| CallUpsertARecord (zoneID name ip : string) (ttl : Z) (proxied : bool)
| CallCreateARecord (zoneID : string) (payload : DNSRecord.t)
| CallUpdateARecord (zoneID recordID : string) (payload : DNSRecord.t)
| CallDiscoverIPv4ViaIpify.

Inductive Event :=
| EvCall (c : Call)
| EvRoundTrip (req : http.Request DNSRecord.t)
| EvIpify (req : http.Request unit)
| EvPrint (line : string).

Inductive outcome (A : Type) :=
| Ok (a : A)
| Err (e : error)
| Panic.

Arguments Ok {A}. Arguments Err {A}. Arguments Panic {A}.

Section World.

Variable World : Type.

Record State := { world : World; trace : list Event }.

Definition M (A : Type) := State -> State * outcome A.

Definition ret {A} (a : A) : M A := fun st => (st, Ok a).
Definition fail {A} (e : error) : M A := fun st => (st, Err e).
Definition panic {A} : M A := fun st => (st, Panic).

Definition bind {A B} (m : M A) (k : A -> M B) : M B :=
  fun st =>
    match m st with
    | (st', Ok a) => k a st'
    | (st', Err e) => (st', Err e)
    | (st', Panic) => (st', Panic)
    end.

Definition emit (e : Event) : M unit :=
  fun st => ({| world := world st; trace := trace st ++ [e] |}, Ok tt).

Definition liftE {A} (r : error + A) : M A :=
  match r with inl e => fail e | inr a => ret a end.

(** What stands behind an [*http.Client]: [Do] as a transition of the world. *)
Definition Doer (Req Resp : Type) :=
  World -> http.Request Req -> World * (error + http.Response Resp).

Definition Do {Req Resp} (ev : http.Request Req -> Event) (d : Doer Req Resp)
    (req : http.Request Req) : M (http.Response Resp) :=
  fun st =>
    let '(w, r) := d (world st) req in
    ({| world := w; trace := trace st ++ [ev req] |},
     match r with inl e => Err e | inr resp => Ok resp end).

End World.

Arguments world {World}. Arguments trace {World}.
Arguments ret {World A}. Arguments fail {World A}. Arguments panic {World A}.
Arguments bind {World A B}. Arguments emit {World}. Arguments liftE {World A}.
Arguments Do {World Req Resp}.

End exec.

Notation "x <- m ;; k" := (exec.bind m (fun x => k))
  (at level 61, m at next level, right associativity).
Notation "m ;;; k" := (exec.bind m (fun _ => k))
  (at level 61, right associativity).

(** ** Package cloudflare (client.go, dns.go) *)

Module cloudflare.

Import exec wire.

Definition defaultBaseURL := "https://api.cloudflare.com/client/v4".
Definition defaultUserAgent := "cloudflare-go/1.0 (+github.com/jsirianni/cloudflare-go)".

(** Durations are nanoseconds. *)
Definition second : Z := 1000000000.
Definition defaultHTTPTimeout : Z := 30 * second.

Definition headerContentType := "Content-Type".
Definition headerUserAgent := "User-Agent".
Definition headerAuthEmail := "X-Auth-Email".
Definition headerAuthKey := "X-Auth-Key".
Definition headerAuthz := "Authorization".

Inductive AuthMode := AuthGlobalKey | AuthAPIToken.

Section Client.

Variable World : Type.

(** The TLS settings are opaque to the client. *)
Variable TLSConfig : Type.

Definition HTTPClient := Doer World DNSRecord.t JSONBody.

(** The client [New] builds when none is injected: the network, reached
    with the given TLS settings and timeout. *)
Variable defaultClient : option TLSConfig -> Z -> HTTPClient.

Record Options := {
  BaseURL : string;
  HTTPClient_ : option HTTPClient;
  UserAgent : string;
  TLSConfig_ : option TLSConfig;
  Timeout : Z;
  APIToken : string;
  GlobalKey : string;
  Email : string
}.

Definition Options_zero : Options :=
  {| BaseURL := ""; HTTPClient_ := None; UserAgent := ""; TLSConfig_ := None;
     Timeout := 0; APIToken := ""; GlobalKey := ""; Email := "" |}.

(** A functional option: the update it performs on [*Options]. *)
Definition Option_ := Options -> Options.

Definition WithBaseURL (base : string) : Option_ := fun o =>
  {| BaseURL := base; HTTPClient_ := HTTPClient_ o; UserAgent := UserAgent o;
     TLSConfig_ := TLSConfig_ o; Timeout := Timeout o; APIToken := APIToken o;
     GlobalKey := GlobalKey o; Email := Email o |}.

Definition WithHTTPClient (c : option HTTPClient) : Option_ := fun o =>
  {| BaseURL := BaseURL o; HTTPClient_ := c; UserAgent := UserAgent o;
     TLSConfig_ := TLSConfig_ o; Timeout := Timeout o; APIToken := APIToken o;
     GlobalKey := GlobalKey o; Email := Email o |}.

Definition WithUserAgent (ua : string) : Option_ := fun o =>
  {| BaseURL := BaseURL o; HTTPClient_ := HTTPClient_ o; UserAgent := ua;
     TLSConfig_ := TLSConfig_ o; Timeout := Timeout o; APIToken := APIToken o;
     GlobalKey := GlobalKey o; Email := Email o |}.

Definition WithTLSConfig (cfg : option TLSConfig) : Option_ := fun o =>
  {| BaseURL := BaseURL o; HTTPClient_ := HTTPClient_ o; UserAgent := UserAgent o;
     TLSConfig_ := cfg; Timeout := Timeout o; APIToken := APIToken o;
     GlobalKey := GlobalKey o; Email := Email o |}.

Definition WithTimeout (d : Z) : Option_ := fun o =>
  {| BaseURL := BaseURL o; HTTPClient_ := HTTPClient_ o; UserAgent := UserAgent o;
     TLSConfig_ := TLSConfig_ o; Timeout := d; APIToken := APIToken o;
     GlobalKey := GlobalKey o; Email := Email o |}.

Definition WithAPIToken (token : string) : Option_ := fun o =>
  {| BaseURL := BaseURL o; HTTPClient_ := HTTPClient_ o; UserAgent := UserAgent o;
     TLSConfig_ := TLSConfig_ o; Timeout := Timeout o; APIToken := token;
     GlobalKey := GlobalKey o; Email := Email o |}.

Definition WithGlobalKey (email key : string) : Option_ := fun o =>
  {| BaseURL := BaseURL o; HTTPClient_ := HTTPClient_ o; UserAgent := UserAgent o;
     TLSConfig_ := TLSConfig_ o; Timeout := Timeout o; APIToken := APIToken o;
     GlobalKey := key; Email := email |}.

Record Client := {
  authMode : AuthMode;
  email : string;
  globalKey : string;
  apiToken : string;
  baseURL : url.URL;
  httpClient : HTTPClient;
  userAgent : string
}.

(** The options after [for _, opt := range opts { opt(&options) }]. *)
Definition applyOptions (opts : list Option_) : Options :=
  fold_left (fun o opt => opt o) opts Options_zero.

Definition haveGlobal (o : Options) : bool :=
  negb (String.eqb (Email o) "") && negb (String.eqb (GlobalKey o) "").

Definition haveToken (o : Options) : bool := negb (String.eqb (APIToken o) "").

Definition New (opts : list Option_) : error + Client :=
  let options := applyOptions opts in
  if haveGlobal options && haveToken options then
    inl (errorString
      "invalid auth: specify either global key (with email) or api token, not both")
  else
    match (if haveGlobal options then Some AuthGlobalKey
           else if haveToken options then Some AuthAPIToken
           else None) with
    | None => inl (errorString "missing auth: provide global key+email or api token")
    | Some mode =>
        let base := if String.eqb (BaseURL options) "" then defaultBaseURL
                    else BaseURL options in
        match url.Parse base with
        | None => inl (wrapError "invalid base URL: " (urlError "parse" base))
        | Some parsed =>
            let httpClient :=
              match HTTPClient_ options with
              | Some c => c
              | None =>
                  defaultClient (TLSConfig_ options)
                    (if Timeout options =? 0 then defaultHTTPTimeout
                     else Timeout options)
              end in
            let userAgent :=
              if String.eqb (strings.TrimSpace (UserAgent options)) ""
              then defaultUserAgent else UserAgent options in
            inr {| authMode := mode;
                   email := Email options;
                   globalKey := GlobalKey options;
                   apiToken := match mode with
                               | AuthAPIToken => APIToken options
                               | AuthGlobalKey => ""
                               end;
                   baseURL := parsed;
                   httpClient := httpClient;
                   userAgent := userAgent |}
        end
    end.

Definition setHeader (req : http.Request DNSRecord.t) (key value : string)
    : http.Request DNSRecord.t :=
  {| http.Method := http.Method req; http.URL := http.URL req;
     http.Header_ := http.Header_Set (http.Header_ req) key value;
     http.Body := http.Body req |}.

(** [do]: the shared dispatch routine.  The context travels with the
    request into the transport, that is into the world.  [AuthMode] has
    two values, so the [default] arm of the switch has no counterpart. *)
Definition do (c : Client) (req : http.Request DNSRecord.t)
    : M World (http.Response JSONBody) :=
  let req := setHeader req headerContentType "application/json" in
  let req := setHeader req headerUserAgent (userAgent c) in
  match authMode c with
  | AuthGlobalKey =>
      if String.eqb (email c) "" || String.eqb (globalKey c) "" then
        fail (errorString "missing global key credentials")
      else
        Do EvRoundTrip (httpClient c)
           (setHeader (setHeader req headerAuthEmail (email c))
                      headerAuthKey (globalKey c))
  | AuthAPIToken =>
      if String.eqb (apiToken c) "" then fail (errorString "missing API token")
      else Do EvRoundTrip (httpClient c)
              (setHeader req headerAuthz ("Bearer " ++ apiToken c))
  end.

(** [buildURL]: the error of [url.Parse] is dropped, so a path that does
    not parse leaves [rel] nil and [ResolveReference] dereferences it:
    [None] is that panic. *)
Definition buildURL (c : Client) (p : string) : option string :=
  match url.Parse p with
  | Some rel => Some (url.String_ (url.ResolveReference (baseURL c) rel))
  | None => None
  end.

Definition buildURL_ (c : Client) (p : string) : M World string :=
  match buildURL c p with Some u => ret u | None => panic end.

Definition FindZoneID (c : Client) (zoneName : string) : M World string :=
  emit (EvCall (CallFindZoneID zoneName)) ;;;
  if String.eqb zoneName "" then fail (errorString "zone name cannot be empty")
  else
    u <- buildURL_ c ("zones?name=" ++ url.QueryEscape zoneName) ;;
    req <- liftE (http.NewRequest http.MethodGet u None) ;;
    resp <- do c req ;;
    if negb (http.is2xx resp) then
      fail (errorString ("zones lookup failed: " ++ http.Status resp))
    else
      out <- liftE (decodeZones (http.RespBody resp)) ;;
      if negb (Success out) || (List.length (Result out) =? 0)%nat then
        fail (errorString ("zone not found: " ++ zoneName))
      else
        match Result out with
        | z :: _ => ret (Zone.ID z)
        | [] => panic                 (* out.Result[0] out of range *)
        end.

(** A [*DNSRecord] result is an [option]: [None] is the nil pointer. *)
Definition GetARecord (c : Client) (zoneID fqdn : string)
    : M World (option DNSRecord.t) :=
  emit (EvCall (CallGetARecord zoneID fqdn)) ;;;
  if String.eqb zoneID "" || String.eqb fqdn "" then
    fail (errorString "zoneID and fqdn are required")
  else
    let params := url.Values_Set (url.Values_Set [] "type" "A") "name" fqdn in
    u <- buildURL_ c ("zones/" ++ zoneID ++ "/dns_records?" ++ url.Values_Encode params) ;;
    req <- liftE (http.NewRequest http.MethodGet u None) ;;
    resp <- do c req ;;
    if negb (http.is2xx resp) then
      fail (errorString ("get dns record failed: " ++ http.Status resp))
    else
      out <- liftE (decodeRecords (http.RespBody resp)) ;;
      if negb (Success out) || (List.length (Result out) =? 0)%nat then ret None
      else
        match Result out with
        | rec :: _ => ret (Some rec)
        | [] => panic                 (* out.Result[0] out of range *)
        end.

Definition CreateARecord (c : Client) (zoneID : string) (payload : DNSRecord.t)
    : M World DNSRecord.t :=
  emit (EvCall (CallCreateARecord zoneID payload)) ;;;
  u <- buildURL_ c ("zones/" ++ zoneID ++ "/dns_records") ;;
  req <- liftE (http.NewRequest http.MethodPost u (Some payload)) ;;
  resp <- do c req ;;
  if negb (http.is2xx resp) then
    fail (errorString ("create dns record failed: " ++ http.Status resp))
  else
    out <- liftE (decodeRecord (http.RespBody resp)) ;;
    if negb (Success out) then fail (errorString "create dns record unsuccessful")
    else ret (Result out).

Definition UpdateARecord (c : Client) (zoneID recordID : string)
    (payload : DNSRecord.t) : M World DNSRecord.t :=
  emit (EvCall (CallUpdateARecord zoneID recordID payload)) ;;;
  if String.eqb zoneID "" || String.eqb recordID "" then
    fail (errorString "zoneID and recordID are required")
  else
    u <- buildURL_ c ("zones/" ++ zoneID ++ "/dns_records/" ++ recordID) ;;
    req <- liftE (http.NewRequest http.MethodPut u (Some payload)) ;;
    resp <- do c req ;;
    if negb (http.is2xx resp) then
      fail (errorString ("update dns record failed: " ++ http.Status resp))
    else
      out <- liftE (decodeRecord (http.RespBody resp)) ;;
      if negb (Success out) then fail (errorString "update dns record unsuccessful")
      else ret (Result out).

(** [UpsertARecord] returns [(rec, created, err)]: a record with the flag,
    or the error. *)
Definition UpsertARecord (c : Client) (zoneID name ip : string) (ttl : Z)
    (proxied : bool) : M World (DNSRecord.t * bool) :=
  emit (EvCall (CallUpsertARecord zoneID name ip ttl proxied)) ;;;
  if String.eqb zoneID "" || String.eqb name "" || String.eqb ip "" then
    fail (errorString "zoneID, name, and ip are required")
  else
    let payload :=
      {| DNSRecord.ID := ""; DNSRecord.Type_ := "A"; DNSRecord.Name := name;
         DNSRecord.Content := ip; DNSRecord.TTL := ttl;
         DNSRecord.Proxied := proxied |} in
    fun st =>
      match CreateARecord c zoneID payload st with
      | (st', Ok rec) => (st', Ok (rec, true))
      | (st', Err err) => (st', Err err)
      | (st', Panic) => (st', Panic)
      end.

End Client.

Arguments BaseURL {World TLSConfig}. Arguments HTTPClient_ {World TLSConfig}.
Arguments UserAgent {World TLSConfig}. Arguments TLSConfig_ {World TLSConfig}.
Arguments Timeout {World TLSConfig}. Arguments APIToken {World TLSConfig}.
Arguments GlobalKey {World TLSConfig}. Arguments Email {World TLSConfig}.
Arguments WithBaseURL {World TLSConfig}. Arguments WithHTTPClient {World TLSConfig}.
Arguments WithUserAgent {World TLSConfig}. Arguments WithTLSConfig {World TLSConfig}.
Arguments WithTimeout {World TLSConfig}. Arguments WithAPIToken {World TLSConfig}.
Arguments WithGlobalKey {World TLSConfig}.
Arguments applyOptions {World TLSConfig}.
Arguments haveGlobal {World TLSConfig}. Arguments haveToken {World TLSConfig}.
Arguments New {World TLSConfig}.
Arguments authMode {World}. Arguments email {World}. Arguments globalKey {World}.
Arguments apiToken {World}. Arguments baseURL {World}. Arguments httpClient {World}.
Arguments userAgent {World}.
Arguments do {World}. Arguments buildURL {World}. Arguments buildURL_ {World}.
Arguments FindZoneID {World}. Arguments GetARecord {World}.
Arguments CreateARecord {World}. Arguments UpdateARecord {World}.
Arguments UpsertARecord {World}.

End cloudflare.

(** ** Package netutil (internal/netutil/ip.go) *)

Module netutil.

Import exec.

Definition ipifyURL := "https://api.ipify.org".

Section Discover.

Variable World : Type.

(** The body of the echo service's response is what [io.ReadAll] returns. *)
Definition IpifyClient := Doer World unit (error + string).

(** [&http.Client{Timeout: 10 * time.Second}]: the network. *)
Variable defaultClient : Z -> IpifyClient.

Definition DiscoverIPv4ViaIpify (client : option IpifyClient) : M World string :=
  emit (EvCall CallDiscoverIPv4ViaIpify) ;;;
  let client := match client with
                | Some c => c
                | None => defaultClient (10 * cloudflare.second)
                end in
  req <- liftE (http.NewRequest http.MethodGet ipifyURL None) ;;
  resp <- Do EvIpify client req ;;
  if negb (http.is2xx resp) then fail (errorString (http.Status resp))
  else
    b <- liftE (http.RespBody resp) ;;
    let ip := b in
    match net.ParseIP ip with
    | None => fail (errorString "invalid IPv4 response")
    | Some parsed =>
        match net.To4 parsed with
        | None => fail (errorString "invalid IPv4 response")
        | Some p4 => ret (net.String4 p4)
        end
    end.

End Discover.

Arguments DiscoverIPv4ViaIpify {World}.

End netutil.

(** ** Command cloudflare (cmd/cloudflare/main.go) *)

Module main.

Import exec.

Definition nl : string := String (strings.b 10) "".

Definition validateInputs (zone name : string) (ttl : Z)
    (email globalKey apiToken : string) : option error :=
  if String.eqb (strings.TrimSpace zone) "" then
    Some (errorString "zone is required")
  else if String.eqb (strings.TrimSpace name) "" then
    Some (errorString "name is required")
  else if ttl <? 0 then Some (errorString "ttl must be >= 0 (1 for auto)")
  else
    let haveGlobal := negb (String.eqb email "") && negb (String.eqb globalKey "") in
    let haveToken := negb (String.eqb apiToken "") in
    if haveGlobal && haveToken then
      Some (errorString "provide either api-token or email+global-key, not both")
    else if negb haveGlobal && negb haveToken then
      Some (errorString
        "missing credentials: set CF_API_TOKEN or CF_EMAIL and CF_GLOBAL_KEY")
    else None.

Section Run.

Variable World : Type.
Variable TLSConfig : Type.
Variable cfClient : option TLSConfig -> Z -> cloudflare.HTTPClient World.
Variable ipifyClient : Z -> netutil.IpifyClient World.

(** The construction of the client, the second step of [run]. *)
Definition construct (email globalKey apiToken : string)
    : error + cloudflare.Client World :=
  if negb (String.eqb apiToken "") && String.eqb email "" && String.eqb globalKey ""
  then cloudflare.New cfClient [cloudflare.WithAPIToken apiToken]
  else if String.eqb apiToken "" && negb (String.eqb email "")
          && negb (String.eqb globalKey "")
  then cloudflare.New cfClient [cloudflare.WithGlobalKey email globalKey]
  else inl (errorString "provide either api-token or email+global-key, not both").

Definition wrap {A} (msg : string) (m : M World A) : M World A :=
  fun st =>
    match m st with
    | (st', Err e) => (st', Err (wrapError msg e))
    | r => r
    end.

Definition printf (line : string) : M World unit := emit (EvPrint line).

(** The steps of [run] after the WAN address, the zone and the existing
    record are known: the decision. *)
Definition decide (c : cloudflare.Client World) (zoneID fqdn name wanIP : string)
    (ttl : Z) (proxied : bool) (rec : option DNSRecord.t) : M World unit :=
  let payload :=
    {| DNSRecord.ID := ""; DNSRecord.Type_ := "A"; DNSRecord.Name := name;
       DNSRecord.Content := wanIP; DNSRecord.TTL := ttl;
       DNSRecord.Proxied := proxied |} in
  match rec with
  | Some rec =>
      if String.eqb (DNSRecord.Content rec) wanIP then
        printf ("No change: " ++ fqdn ++ " already points to " ++ wanIP ++ nl) ;;;
        ret tt
      else
        _ <- cloudflare.UpdateARecord c zoneID (DNSRecord.ID rec) payload ;;
        printf ("Updated A " ++ fqdn ++ " -> " ++ wanIP ++ nl) ;;;
        ret tt
  | None =>
      _ <- cloudflare.CreateARecord c zoneID payload ;;
      printf ("Created A " ++ fqdn ++ " -> " ++ wanIP ++ nl) ;;;
      ret tt
  end.

(** [run]; the deadline and the signal of its context act through the
    world.  The result [Ok tt] is the nil error. *)
Definition run (zone name : string) (ttl : Z) (proxied : bool)
    (email globalKey apiToken : string) (timeout : Z) : M World unit :=
  match validateInputs zone name ttl email globalKey apiToken with
  | Some err => fail err
  | None =>
      c <- liftE (construct email globalKey apiToken) ;;
      wanIP <- wrap "could not determine WAN IP: "
                 (netutil.DiscoverIPv4ViaIpify ipifyClient
                    (Some (ipifyClient (10 * cloudflare.second)))) ;;
      zoneID <- cloudflare.FindZoneID c zone ;;
      let fqdn := name ++ "." ++ zone in
      rec <- cloudflare.GetARecord c zoneID fqdn ;;
      decide c zoneID fqdn name wanIP ttl proxied rec
  end.

End Run.

Arguments construct {World TLSConfig}.
Arguments decide {World}.
Arguments run {World TLSConfig}.
Arguments printf {World}.
Arguments wrap {World A}.

End main.

(** ** Observations on traces *)

Module obs.

Import exec.

(** The operations entered, in order. *)
Definition calls (tr : list Event) : list Call :=
  flat_map (fun e => match e with EvCall c => [c] | _ => [] end) tr.

(** The requests handed to the provider's transport, in order. *)
Definition requests (tr : list Event) : list (http.Request DNSRecord.t) :=
  flat_map (fun e => match e with EvRoundTrip r => [r] | _ => [] end) tr.

(** The method and the URL of each such request, as dispatched. *)
Definition dispatched (tr : list Event) : list (string * string) :=
  map (fun r => (http.Method r, url.String_ (http.URL r))) (requests tr).

(** The lines printed. *)
Definition printed (tr : list Event) : list string :=
  flat_map (fun e => match e with EvPrint l => [l] | _ => [] end) tr.

Definition isCreate (c : Call) : bool :=
  match c with CallCreateARecord _ _ => true | _ => false end.

Definition isUpdate (c : Call) : bool :=
  match c with CallUpdateARecord _ _ _ => true | _ => false end.

Definition isGet (c : Call) : bool :=
  match c with CallGetARecord _ _ => true | _ => false end.

Definition count (p : Call -> bool) (tr : list Event) : nat :=
  List.length (filter p (calls tr)).

(** The write requests: POST and PUT. *)
Definition isWriteRequest (r : http.Request DNSRecord.t) : bool :=
  String.eqb (http.Method r) http.MethodPost || String.eqb (http.Method r) http.MethodPut.

Definition writeRequests (tr : list Event) : nat :=
  List.length (filter isWriteRequest (requests tr)).

(** The state in which an operation runs its body: the call is logged. *)
Definition called {World} (st : State World) (c : Call) : State World :=
  {| world := world st; trace := trace st ++ [EvCall c] |}.

(** The request the client builds for [method] and the relative path [p]
    is dispatched from [st] and answered by [resp], leaving [st']. *)
Definition answered {World} (c : cloudflare.Client World) (method p : string)
    (body : option DNSRecord.t) (st st' : State World)
    (resp : http.Response wire.JSONBody) : Prop :=
  exists u req,
    cloudflare.buildURL c p = Some u
    /\ http.NewRequest method u body = inr req
    /\ cloudflare.do c req st = (st', Ok resp).

(** What one dispatch adds to the trace: nothing, or one request of the
    given method. *)
Definition atMostOne (method : string) (tail : list Event) : Prop :=
  tail = [] \/ exists req, tail = [EvRoundTrip req] /\ http.Method req = method.

(** [st'] is [st] after one operation of the client: its call, then at most
    one request. *)
Definition oneCall {World} (st st' : State World) (call : Call) (method : string)
    : Prop :=
  exists tail,
    trace st' = (trace st ++ EvCall call :: tail)%list /\ atMostOne method tail.

(** A continuation that only inspects the response it is given. *)
Definition inspects {World A} (k : http.Response wire.JSONBody -> M World A) : Prop :=
  forall resp s, fst (k resp s) = s.

(** The relative paths of the four operations, as the client writes them. *)
Definition pathFindZoneID (zoneName : string) : string :=
  "zones?name=" ++ url.QueryEscape zoneName.

Definition pathGetARecord (zoneID fqdn : string) : string :=
  "zones/" ++ zoneID ++ "/dns_records?"
  ++ url.Values_Encode (url.Values_Set (url.Values_Set [] "type" "A") "name" fqdn).

Definition pathCreateARecord (zoneID : string) : string :=
  "zones/" ++ zoneID ++ "/dns_records".

Definition pathUpdateARecord (zoneID recordID : string) : string :=
  "zones/" ++ zoneID ++ "/dns_records/" ++ recordID.

Definition notFound (zoneName : string) : error :=
  errorString ("zone not found: " ++ zoneName).

End obs.

(** ** Stub transports, after the ones of the repository's tests *)

Module stub.

Import exec wire.

Definition envelope {T} (success : bool) (result : T) : apiResponse T :=
  {| Success := success; Errors := []; Messages := []; Result := result |}.

Definition record (id name content : string) (ttl : Z) (proxied : bool) : DNSRecord.t :=
  {| DNSRecord.ID := id; DNSRecord.Type_ := "A"; DNSRecord.Name := name;
     DNSRecord.Content := content; DNSRecord.TTL := ttl; DNSRecord.Proxied := proxied |}.

Definition zone (id name : string) : Zone.t := {| Zone.ID := id; Zone.Name := name |}.

(** What the provider holds: its zones and the A records of the zone. *)
Record Provider := { zones : list Zone.t; records : list DNSRecord.t; success : bool }.

Definition ok (body : JSONBody) : http.Response JSONBody :=
  {| http.StatusCode := 200; http.Status := "200 OK"; http.RespBody := body |}.

Definition malformed : error := errorString "json: cannot unmarshal".

(** A handler in the manner of the test server: GET requests list the
    zones or the records, POST stores the record of the request under the
    id "rid", PUT replaces the content of the stored records. *)
Definition handle (p : Provider) (req : http.Request DNSRecord.t)
    : Provider * http.Response JSONBody :=
  if String.eqb (http.Method req) http.MethodGet then
    (p, ok {| decodeZones := inr (envelope (success p) (zones p));
              decodeRecords := inr (envelope (success p) (records p));
              decodeRecord := inl malformed |})
  else
    match http.Body req with
    | None => (p, {| http.StatusCode := 400; http.Status := "400 Bad Request";
                     http.RespBody := {| decodeZones := inl malformed;
                                         decodeRecords := inl malformed;
                                         decodeRecord := inl malformed |} |})
    | Some payload =>
        let stored := record "rid" (DNSRecord.Name payload) (DNSRecord.Content payload)
                             (DNSRecord.TTL payload) (DNSRecord.Proxied payload) in
        ({| zones := zones p;
            records := if success p then [stored] else records p;
            success := success p |},
         ok {| decodeZones := inl malformed; decodeRecords := inl malformed;
               decodeRecord := inr (envelope (success p) stored) |})
    end.

(** The world of the stubs: the provider and the text of the echo service. *)
Record World := { provider : Provider; echo : string }.

Definition cfClient : option unit -> Z -> cloudflare.HTTPClient World :=
  fun _ _ w req =>
    let '(p, resp) := handle (provider w) req in
    ({| provider := p; echo := echo w |}, inr resp).

Definition ipifyClient : Z -> netutil.IpifyClient World :=
  fun _ w _ =>
    (w, inr {| http.StatusCode := 200; http.Status := "200 OK";
               http.RespBody := inr (echo w) |}).

Definition start (p : Provider) (text : string) : State World :=
  {| world := {| provider := p; echo := text |}; trace := [] |}.

Definition zeroClient : cloudflare.Client World :=
  {| cloudflare.authMode := cloudflare.AuthGlobalKey; cloudflare.email := "";
     cloudflare.globalKey := ""; cloudflare.apiToken := "";
     cloudflare.baseURL := url.emptyURL; cloudflare.httpClient := cfClient None 0;
     cloudflare.userAgent := "" |}.

(** [mustClient] of the tests. *)
Definition mustClient (opts : list (cloudflare.Option_ World unit))
    : cloudflare.Client World :=
  match cloudflare.New cfClient opts with
  | inr c => c
  | inl _ => zeroClient
  end.

Definition example_com : Provider :=
  {| zones := [zone "abc123" "example.com"];
     records := [record "rid" "home.example.com" "203.0.113.1" 300 false];
     success := true |}.

(** A transport that answers the lookup of records with a 2xx status and
    an envelope whose [success] is false, and every other request as
    [cfClient] does. *)
Definition lookupFails : option unit -> Z -> cloudflare.HTTPClient World :=
  fun tls timeout w req =>
    if String.eqb (http.Method req) http.MethodGet
       && strings.HasSuffix (url.Path (http.URL req)) "/dns_records"
    then (w, inr (ok {| decodeZones := inl malformed;
                        decodeRecords := inr (envelope false []);
                        decodeRecord := inl malformed |}))
    else cfClient tls timeout w req.

(** A transport that answers every request with the status 500. *)
Definition serverError : option unit -> Z -> cloudflare.HTTPClient World :=
  fun _ _ w _ =>
    (w, inr {| http.StatusCode := 500; http.Status := "500 Internal Server Error";
               http.RespBody := {| decodeZones := inl malformed;
                                   decodeRecords := inl malformed;
                                   decodeRecord := inl malformed |} |}).

(** A transport that answers 200 with a body that is not the envelope. *)
Definition garbage : option unit -> Z -> cloudflare.HTTPClient World :=
  fun _ _ w _ =>
    (w, inr (ok {| decodeZones := inl malformed; decodeRecords := inl malformed;
                   decodeRecord := inl malformed |})).

(** A transport whose round trip fails. *)
Definition refusing : option unit -> Z -> cloudflare.HTTPClient World :=
  fun _ _ w _ => (w, inl (errorString "connection refused")).

(** An echo service answering with a status and a text, one whose round
    trip fails, and one whose body cannot be read. *)
Definition ipifyStatus (code : Z) (status : string) : Z -> netutil.IpifyClient World :=
  fun _ w _ =>
    (w, inr {| http.StatusCode := code; http.Status := status;
               http.RespBody := inr (echo w) |}).

Definition ipifyRefusing : Z -> netutil.IpifyClient World :=
  fun _ w _ => (w, inl (errorString "context deadline exceeded")).

Definition ipifyUnreadable : Z -> netutil.IpifyClient World :=
  fun _ w _ =>
    (w, inr {| http.StatusCode := 200; http.Status := "200 OK";
               http.RespBody := inl (errorString "boom") |}).

(** The client of the tests: a token and the URL of the test server. *)
Definition testClient : cloudflare.Client World :=
  mustClient [cloudflare.WithAPIToken "tok";
                   cloudflare.WithBaseURL "http://127.0.0.1:8080"].

(** The client of the tests on an injected transport. *)
Definition clientOn (t : cloudflare.HTTPClient World) : cloudflare.Client World :=
  mustClient [cloudflare.WithAPIToken "tok";
              cloudflare.WithBaseURL "http://127.0.0.1:8080";
              cloudflare.WithHTTPClient (Some t)].

(** The payload of the scenarios: the label home at 203.0.113.9. *)
Definition home9 : DNSRecord.t := record "" "home" "203.0.113.9" 1 false.

(** A provider that answers every request with [success] false. *)
Definition failing : Provider :=
  {| zones := []; records := []; success := false |}.

(** A provider that knows the zone and holds no record. *)
Definition noRecords : Provider :=
  {| zones := [zone "abc123" "example.com"]; records := [];
     success := true |}.

(** The command on the stubs: zone example.com, label home, a token. *)
Definition runStub (p : Provider) (text : string) :=
  main.run cfClient ipifyClient "example.com" "home" 1 false "" "" "tok"
           (30 * cloudflare.second) (start p text).

End stub.

(** ** The vocabulary of the properties of IP discovery *)

Module ip4.

Definition isByte (x : Z) : Prop := 0 <= x <= 255.

(** The canonical dotted-decimal text of an IPv4 address. *)
Definition dotted (a b c d : Z) : string := netip.string4 [a; b; c; d].

(** A well-formed IPv4 address in dotted-decimal form: four decimal
    numbers in 0..255, without leading zeros, separated by dots. *)
Definition dottedQuad (s : string) : Prop :=
  exists a b c d, isByte a /\ isByte b /\ isByte c /\ isByte d /\ s = dotted a b c d.

(** The first of the bytes ['.'], [':'] and ['%'] of a text: it tells the
    family the text is read in (['.']: IPv4, [':']: IPv6). *)
Fixpoint family (s : string) : option ascii :=
  match s with
  | EmptyString => None
  | String c s' =>
      if byte_in c ["."; ":"; "%"]%char then Some c else family s'
  end.

(** [body] is an IPv6 literal, without zone, of an IPv4-mapped address
    (one that has a four-byte form), and [ip] is the dotted form of the
    IPv4 address it embeds. *)
Definition mappedLiteral (body ip : string) : Prop :=
  family body = Some ":"%char
  /\ exists addr p4,
       netip.parseIPv6 body = Some addr /\ netip.zone addr = ""
       /\ net.To4 (netip.bytes16 addr) = Some p4 /\ ip = netip.string4 p4.

(** Octets joined by dots. *)
Fixpoint join (xs : list Z) : string :=
  match xs with
  | [] => ""
  | [x] => netip.appendDecimal x
  | x :: xs' => netip.appendDecimal x ++ "." ++ join xs'
  end.

(** The assignments [fields[pos] = x] of the parser, octet by octet. *)
Fixpoint writes (base pos : nat) (xs : list Z) (fields : list Z) : list Z :=
  match xs with
  | [] => fields
  | x :: xs' => writes base (S pos) xs' (netip.upd (base + pos) x fields)
  end.

(** The text of the octet being read: [digLen] digits of value [val]. *)
Definition current (val digLen : Z) : string :=
  if digLen =? 0 then "" else netip.appendDecimal val.

(** The invariant of the loop of [parseIPv4Fields]. *)
Definition octetInv (s : string) (prev : option ascii) (val : Z) (pos : nat)
    (digLen : Z) : Prop :=
  (pos <= 3)%nat /\ 0 <= val <= 255 /\ 0 <= digLen
  /\ (digLen = 0 -> val = 0 /\ (prev = None \/ prev = Some "."%char)
                    /\ ((1 <= pos)%nat -> s <> ""))
  /\ (2 <= digLen -> 1 <= val).

(** Appending a digit to the decimal text of [v] gives the text of
    [10 v + d], checked on the values the parser can reach. *)
Definition snoc_check : bool :=
  forallb (fun v =>
    forallb (fun d =>
      String.eqb (netip.appendDecimal (Z.of_nat v * 10 + Z.of_nat d))
                 (netip.appendDecimal (Z.of_nat v) ++ String (netip.digit (Z.of_nat d)) ""))
      (seq 0 10))
    (seq 1 25).

End ip4.

Module discovery.

Import exec.

(** The echo service answers the request of the discovery with [resp],
    leaving the world [w]. *)
Definition echoed {World} (client : netutil.IpifyClient World) (st : State World)
    (w : World) (resp : http.Response (error + string)) : Prop :=
  exists req,
    http.NewRequest http.MethodGet netutil.ipifyURL None = inr req
    /\ client (world st) req = (w, inr resp).

Definition invalidResponse : error := errorString "invalid IPv4 response".

(** The address the discovery returns for a body, if any: the body parses
    as an IP address that has a four-byte form. *)
Definition accepted (body : string) : option string :=
  match net.ParseIP body with
  | Some parsed =>
      match net.To4 parsed with
      | Some p4 => Some (net.String4 p4)
      | None => None
      end
  | None => None
  end.

End discovery.

(** ** The vocabulary of further properties *)

Module more.

Import exec.

(** The request the client builds for [method] and the relative path [p]
    is dispatched from [st] and its round trip fails with [e], leaving
    [st']. *)
Definition refused {World} (c : cloudflare.Client World) (method p : string)
    (body : option DNSRecord.t) (st st' : State World) (e : error) : Prop :=
  exists u req,
    cloudflare.buildURL c p = Some u
    /\ http.NewRequest method u body = inr req
    /\ cloudflare.do c req st = (st', Err e).

(** The keys [do] sets for each variant of the credential. *)
Definition authKeys (mode : cloudflare.AuthMode) : list string :=
  match mode with
  | cloudflare.AuthGlobalKey => [cloudflare.headerAuthEmail; cloudflare.headerAuthKey]
  | cloudflare.AuthAPIToken => [cloudflare.headerAuthz]
  end.

(** The credential of a client is complete for its mode. *)
Definition credentialed {World} (c : cloudflare.Client World) : Prop :=
  match cloudflare.authMode c with
  | cloudflare.AuthGlobalKey => cloudflare.email c <> "" /\ cloudflare.globalKey c <> ""
  | cloudflare.AuthAPIToken => cloudflare.apiToken c <> ""
  end.

(** The request [do] hands to the transport for [req]. *)
Definition decorated {World} (c : cloudflare.Client World)
    (req : http.Request DNSRecord.t) : http.Request DNSRecord.t :=
  let req := cloudflare.setHeader req cloudflare.headerContentType "application/json" in
  let req := cloudflare.setHeader req cloudflare.headerUserAgent (cloudflare.userAgent c) in
  match cloudflare.authMode c with
  | cloudflare.AuthGlobalKey =>
      cloudflare.setHeader
        (cloudflare.setHeader req cloudflare.headerAuthEmail (cloudflare.email c))
        cloudflare.headerAuthKey (cloudflare.globalKey c)
  | cloudflare.AuthAPIToken =>
      cloudflare.setHeader req cloudflare.headerAuthz ("Bearer " ++ cloudflare.apiToken c)
  end.

(** A text without slash: a single segment of a path. *)
Definition slashFree (s : string) : Prop := strings.Index s "/" = None.

(** Two base URLs that differ at most in the last segment of their path. *)
Definition sameButLastSegment (u1 u2 : url.URL) : Prop :=
  url.Scheme u1 = url.Scheme u2 /\ url.User u1 = url.User u2
  /\ url.Host u1 = url.Host u2
  /\ url.RawPath u1 = "" /\ url.RawPath u2 = ""
  /\ exists dir last1 last2,
       url.Path u1 = dir ++ "/" ++ last1 /\ url.Path u2 = dir ++ "/" ++ last2
       /\ slashFree last1 /\ slashFree last2.

(** A control byte (below 0x20, or 0x7f) stands in [s] before any number
    sign: [url.Parse] cuts the fragment off and refuses the rest. *)
Definition controlByteInPath (s : string) : bool :=
  url.stringContainsCTLByte (fst (fst (strings.Cut s "#"))).

(** The round trip of the request of the discovery fails with [e], leaving
    the world [w]. *)
Definition unreachable {World} (client : netutil.IpifyClient World) (st : State World)
    (w : World) (e : error) : Prop :=
  exists req,
    http.NewRequest http.MethodGet netutil.ipifyURL None = inr req
    /\ client (world st) req = (w, inl e).

(** What the observations gain between two states: the calls entered, the
    requests handed to the provider and the lines printed. *)
Record extends {World} (st st' : State World) (cs : list Call)
    (rs : list (http.Request DNSRecord.t)) (ls : list string) : Prop := {
  ext_calls : obs.calls (trace st') = (obs.calls (trace st) ++ cs)%list;
  ext_requests : obs.requests (trace st') = (obs.requests (trace st) ++ rs)%list;
  ext_printed : obs.printed (trace st') = (obs.printed (trace st) ++ ls)%list
}.

(** No request, or one request of the given method and body. *)
Definition atMostOneRequest (method : string) (body : option DNSRecord.t)
    (rs : list (http.Request DNSRecord.t)) : Prop :=
  rs = [] \/ exists req, rs = [req] /\ http.Method req = method /\ http.Body req = body.

(** The payload [run] writes for the address [ip]. *)
Definition payloadOf (name ip : string) (ttl : Z) (proxied : bool) : DNSRecord.t :=
  {| DNSRecord.ID := ""; DNSRecord.Type_ := "A"; DNSRecord.Name := name;
     DNSRecord.Content := ip; DNSRecord.TTL := ttl; DNSRecord.Proxied := proxied |}.

(** One credential and nothing of the other: a token alone, or an email
    with its key and no token. *)
Definition exclusiveCredential (email globalKey apiToken : string) : Prop :=
  (apiToken <> "" /\ email = "" /\ globalKey = "")
  \/ (apiToken = "" /\ email <> "" /\ globalKey <> "").

(** The inputs with which [run] gets to work: a zone and a label that are
    not blank, a TTL that is not negative and one credential. *)
Definition usableInputs (zone name : string) (ttl : Z)
    (email globalKey apiToken : string) : Prop :=
  strings.TrimSpace zone <> "" /\ strings.TrimSpace name <> "" /\ 0 <= ttl
  /\ exclusiveCredential email globalKey apiToken.

(** The bytes that cannot stand in an escaped query component: the control
    bytes, the number sign and the question mark. *)
Definition queryByte (c : ascii) : bool :=
  negb ((byte_val c <? 32) || (byte_val c =? 127)
        || Ascii.eqb "#" c || Ascii.eqb "?" c).

(** The relative URL of the lookup of a zone. *)
Definition zonesQuery (zoneName : string) : url.URL :=
  {| url.Scheme := ""; url.Opaque := ""; url.User := None; url.Host := "";
     url.Path := "zones"; url.RawPath := ""; url.OmitHost := false;
     url.ForceQuery := false; url.RawQuery := "name=" ++ url.QueryEscape zoneName;
     url.Fragment := ""; url.RawFragment := "" |}.

End more.

(** * Properties *)

Import exec wire obs.

Lemma eqb_neq_false (s t : string) : s <> t -> String.eqb s t = false.
Proof. intros H. apply String.eqb_neq. exact H. Qed.

Lemma eqb_false_neq (s t : string) : String.eqb s t = false -> s <> t.
Proof. intros H. apply String.eqb_neq. exact H. Qed.

(** ** The operations of the client *)

Section ClientProperties.

Context {World : Type}.
Implicit Types (c : cloudflare.Client World) (st : State World).

Lemma do_trace c req st st' (r : outcome (http.Response JSONBody)) :
  cloudflare.do c req st = (st', r) ->
  exists tail, trace st' = (trace st ++ tail)%list /\ atMostOne (http.Method req) tail.
Proof.
  unfold cloudflare.do, Do, fail. intros H.
  assert (Hnone : st' = st -> exists tail, trace st' = (trace st ++ tail)%list
                                           /\ atMostOne (http.Method req) tail).
  { intros ->. exists []. rewrite app_nil_r. split; [reflexivity | now left]. }
  destruct (cloudflare.authMode c).
  - destruct (_ || _); [apply Hnone; congruence|].
    destruct (cloudflare.httpClient c _ _) as [w res]. inversion H; subst.
    eexists. split; [reflexivity|]. right. eexists. split; reflexivity.
  - destruct (String.eqb _ _); [apply Hnone; congruence|].
    destruct (cloudflare.httpClient c _ _) as [w res]. inversion H; subst.
    eexists. split; [reflexivity|]. right. eexists. split; reflexivity.
Qed.

Lemma NewRequest_method {B} method u (body : option B) req :
  http.NewRequest method u body = inr req -> http.Method req = method.
Proof.
  unfold http.NewRequest. destruct (url.Parse u); intros H; inversion H; reflexivity.
Qed.

(** Building, dispatching and inspecting: the common body of the four
    operations adds at most one request to the trace. *)
Lemma dispatch_trace {A} c p method body (k : http.Response JSONBody -> M World A)
    st st' r :
  inspects k ->
  (u <- cloudflare.buildURL_ c p ;;
   req <- liftE (http.NewRequest method u body) ;;
   resp <- cloudflare.do c req ;;
   k resp) st = (st', r) ->
  exists tail, trace st' = (trace st ++ tail)%list /\ atMostOne method tail.
Proof.
  intros Hk.
  unfold cloudflare.buildURL_, bind, liftE, ret, fail, panic. intros H.
  assert (Hnone : st' = st -> exists tail, trace st' = (trace st ++ tail)%list
                                           /\ atMostOne method tail).
  { intros ->. exists []. rewrite app_nil_r. split; [reflexivity | now left]. }
  destruct (cloudflare.buildURL c p); [|apply Hnone; congruence].
  destruct (http.NewRequest _ _ _) as [e|req] eqn:Hreq; [apply Hnone; congruence|].
  apply NewRequest_method in Hreq. rewrite <- Hreq.
  destruct (cloudflare.do c req st) as [st1 o] eqn:Hdo.
  apply do_trace in Hdo.
  assert (st' = st1) as ->; [|exact Hdo].
  destruct o; try congruence.
  specialize (Hk a st1). rewrite H in Hk. exact Hk.
Qed.

Ltac inspects_tac :=
  intros ? ?; unfold bind, liftE, ret, fail, panic;
  repeat first
    [ reflexivity
    | match goal with
      | |- context [if ?b then _ else _] => destruct b
      | |- context [match ?x with inl _ => _ | inr _ => _ end] => destruct x
      | |- context [match ?x with [] => _ | _ :: _ => _ end] => destruct x
      end ].

Lemma called_trace st call st' tail method :
  trace st' = (trace (called st call) ++ tail)%list -> atMostOne method tail ->
  oneCall st st' call method.
Proof.
  intros H Ht. exists tail. split; [|exact Ht].
  rewrite H. cbn [called trace]. rewrite <- app_assoc. reflexivity.
Qed.

Lemma oneCall_refl st call method : oneCall st (called st call) call method.
Proof. exists []. split; [reflexivity | now left]. Qed.

Lemma FindZoneID_trace c zoneName st st' r :
  cloudflare.FindZoneID c zoneName st = (st', r) ->
  oneCall st st' (CallFindZoneID zoneName) http.MethodGet.
Proof.
  unfold cloudflare.FindZoneID. unfold bind at 1, emit at 1.
  fold (called st (CallFindZoneID zoneName)).
  destruct (String.eqb zoneName "").
  - intros H; inversion H; subst. apply oneCall_refl.
  - intros H. apply dispatch_trace in H; [|inspects_tac].
    destruct H as (tail & H & Ht). eapply called_trace; eassumption.
Qed.

Lemma GetARecord_trace c zoneID fqdn st st' r :
  cloudflare.GetARecord c zoneID fqdn st = (st', r) ->
  oneCall st st' (CallGetARecord zoneID fqdn) http.MethodGet.
Proof.
  unfold cloudflare.GetARecord. unfold bind at 1, emit at 1.
  fold (called st (CallGetARecord zoneID fqdn)).
  destruct (_ || _).
  - intros H; inversion H; subst. apply oneCall_refl.
  - intros H. apply dispatch_trace in H; [|inspects_tac].
    destruct H as (tail & H & Ht). eapply called_trace; eassumption.
Qed.

Lemma CreateARecord_trace c zoneID payload st st' r :
  cloudflare.CreateARecord c zoneID payload st = (st', r) ->
  oneCall st st' (CallCreateARecord zoneID payload) http.MethodPost.
Proof.
  unfold cloudflare.CreateARecord. unfold bind at 1, emit at 1.
  fold (called st (CallCreateARecord zoneID payload)).
  intros H. apply dispatch_trace in H; [|inspects_tac].
  destruct H as (tail & H & Ht). eapply called_trace; eassumption.
Qed.

Lemma UpdateARecord_trace c zoneID recordID payload st st' r :
  cloudflare.UpdateARecord c zoneID recordID payload st = (st', r) ->
  oneCall st st' (CallUpdateARecord zoneID recordID payload) http.MethodPut.
Proof.
  unfold cloudflare.UpdateARecord. unfold bind at 1, emit at 1.
  fold (called st (CallUpdateARecord zoneID recordID payload)).
  destruct (_ || _).
  - intros H; inversion H; subst. apply oneCall_refl.
  - intros H. apply dispatch_trace in H; [|inspects_tac].
    destruct H as (tail & H & Ht). eapply called_trace; eassumption.
Qed.

(** *** What each operation does with the response it receives *)

Lemma FindZoneID_answered c zoneName st st' resp :
  zoneName <> "" ->
  answered c http.MethodGet (pathFindZoneID zoneName) None
           (called st (CallFindZoneID zoneName)) st' resp ->
  cloudflare.FindZoneID c zoneName st =
  (st',
   if negb (http.is2xx resp) then
     Err (errorString ("zones lookup failed: " ++ http.Status resp))
   else
     match decodeZones (http.RespBody resp) with
     | inl e => Err e
     | inr out =>
         if negb (Success out) || (List.length (Result out) =? 0)%nat
         then Err (notFound zoneName)
         else match Result out with z :: _ => Ok (Zone.ID z) | [] => Panic end
     end).
Proof.
  intros Hz (u & req & Hu & Hreq & Hdo). unfold pathFindZoneID in Hu.
  unfold cloudflare.FindZoneID, cloudflare.buildURL_, bind, emit, liftE, ret, fail, panic.
  fold (called st (CallFindZoneID zoneName)).
  rewrite (eqb_neq_false _ _ Hz), Hu, Hreq, Hdo.
  destruct (negb (http.is2xx resp)); [reflexivity|].
  destruct (decodeZones (http.RespBody resp)) as [e|out]; [reflexivity|].
  destruct (negb (Success out) || (List.length (Result out) =? 0)%nat); [reflexivity|].
  destruct (Result out); reflexivity.
Qed.

Lemma GetARecord_answered c zoneID fqdn st st' resp :
  zoneID <> "" -> fqdn <> "" ->
  answered c http.MethodGet (pathGetARecord zoneID fqdn) None
           (called st (CallGetARecord zoneID fqdn)) st' resp ->
  cloudflare.GetARecord c zoneID fqdn st =
  (st',
   if negb (http.is2xx resp) then
     Err (errorString ("get dns record failed: " ++ http.Status resp))
   else
     match decodeRecords (http.RespBody resp) with
     | inl e => Err e
     | inr out =>
         if negb (Success out) || (List.length (Result out) =? 0)%nat
         then Ok None
         else match Result out with rec :: _ => Ok (Some rec) | [] => Panic end
     end).
Proof.
  intros Hz Hf (u & req & Hu & Hreq & Hdo). unfold pathGetARecord in Hu.
  unfold cloudflare.GetARecord, cloudflare.buildURL_, bind, emit, liftE, ret, fail, panic.
  fold (called st (CallGetARecord zoneID fqdn)).
  rewrite (eqb_neq_false _ _ Hz), (eqb_neq_false _ _ Hf). cbn [orb]. cbv zeta.
  rewrite Hu, Hreq, Hdo.
  destruct (negb (http.is2xx resp)); [reflexivity|].
  destruct (decodeRecords (http.RespBody resp)) as [e|out]; [reflexivity|].
  destruct (negb (Success out) || (List.length (Result out) =? 0)%nat); [reflexivity|].
  destruct (Result out); reflexivity.
Qed.

Lemma CreateARecord_answered c zoneID payload st st' resp :
  answered c http.MethodPost (pathCreateARecord zoneID) (Some payload)
           (called st (CallCreateARecord zoneID payload)) st' resp ->
  cloudflare.CreateARecord c zoneID payload st =
  (st',
   if negb (http.is2xx resp) then
     Err (errorString ("create dns record failed: " ++ http.Status resp))
   else
     match decodeRecord (http.RespBody resp) with
     | inl e => Err e
     | inr out =>
         if negb (Success out) then Err (errorString "create dns record unsuccessful")
         else Ok (Result out)
     end).
Proof.
  intros (u & req & Hu & Hreq & Hdo). unfold pathCreateARecord in Hu.
  unfold cloudflare.CreateARecord, cloudflare.buildURL_, bind, emit, liftE, ret, fail, panic.
  fold (called st (CallCreateARecord zoneID payload)).
  rewrite Hu, Hreq, Hdo.
  destruct (negb (http.is2xx resp)); [reflexivity|].
  destruct (decodeRecord (http.RespBody resp)) as [e|out]; [reflexivity|].
  destruct (negb (Success out)); reflexivity.
Qed.

Lemma UpdateARecord_answered c zoneID recordID payload st st' resp :
  zoneID <> "" -> recordID <> "" ->
  answered c http.MethodPut (pathUpdateARecord zoneID recordID) (Some payload)
           (called st (CallUpdateARecord zoneID recordID payload)) st' resp ->
  cloudflare.UpdateARecord c zoneID recordID payload st =
  (st',
   if negb (http.is2xx resp) then
     Err (errorString ("update dns record failed: " ++ http.Status resp))
   else
     match decodeRecord (http.RespBody resp) with
     | inl e => Err e
     | inr out =>
         if negb (Success out) then Err (errorString "update dns record unsuccessful")
         else Ok (Result out)
     end).
Proof.
  intros Hz Hr (u & req & Hu & Hreq & Hdo). unfold pathUpdateARecord in Hu.
  unfold cloudflare.UpdateARecord, cloudflare.buildURL_, bind, emit, liftE, ret, fail, panic.
  fold (called st (CallUpdateARecord zoneID recordID payload)).
  rewrite (eqb_neq_false _ _ Hz), (eqb_neq_false _ _ Hr). cbn [orb].
  rewrite Hu, Hreq, Hdo.
  destruct (negb (http.is2xx resp)); [reflexivity|].
  destruct (decodeRecord (http.RespBody resp)) as [e|out]; [reflexivity|].
  destruct (negb (Success out)); reflexivity.
Qed.

End ClientProperties.

Section ClientClaims.

Context {World : Type}.
Implicit Types (c : cloudflare.Client World) (st : State World).

(** C5. [FindZoneID]: an empty zone name fails with "zone name cannot be
    empty" before any request is made (the trace gains the call only); for a
    non-empty name whose request is answered with a 2xx status and a
    decodable envelope, the result is the id of the first zone of the list
    when the envelope has [success] true and at least one result, and the
    error "zone not found: <name>" when the list is empty or [success] is
    false. *)
Theorem C5_FindZoneID_first_or_not_found c zoneName st :
  (zoneName = "" ->
     cloudflare.FindZoneID c zoneName st
     = (called st (CallFindZoneID zoneName),
        Err (errorString "zone name cannot be empty"))
     /\ requests (trace (called st (CallFindZoneID zoneName))) = requests (trace st))
  /\ (zoneName <> "" ->
      forall st' resp out,
        answered c http.MethodGet (pathFindZoneID zoneName) None
                 (called st (CallFindZoneID zoneName)) st' resp ->
        http.is2xx resp = true ->
        decodeZones (http.RespBody resp) = inr out ->
        (forall z rest, Success out = true -> Result out = z :: rest ->
           cloudflare.FindZoneID c zoneName st = (st', Ok (Zone.ID z)))
        /\ (Success out = false \/ Result out = [] ->
            cloudflare.FindZoneID c zoneName st = (st', Err (notFound zoneName)))).
Proof.
  split.
  - intros ->. split.
    + reflexivity.
    + unfold requests. cbn [called trace]. rewrite flat_map_app. cbn.
      apply app_nil_r.
  - intros Hz st' resp out Hans H2xx Hdec.
    rewrite (FindZoneID_answered c zoneName st st' resp Hz Hans), H2xx, Hdec.
    cbn [negb]. split.
    + intros z rest Hs Hr. rewrite Hs, Hr. reflexivity.
    + intros [Hs | Hr].
      * rewrite Hs. reflexivity.
      * rewrite Hr. cbn. rewrite orb_true_r. reflexivity.
Qed.

(** C9. [GetARecord]: when the request is answered with a 2xx status and an
    envelope with [success] true whose result list holds one or more
    records, the result is the first record of the list; the later ones are
    ignored. *)
Theorem C9_GetARecord_returns_first c zoneID fqdn st st' resp out rec rest :
  zoneID <> "" -> fqdn <> "" ->
  answered c http.MethodGet (pathGetARecord zoneID fqdn) None
           (called st (CallGetARecord zoneID fqdn)) st' resp ->
  http.is2xx resp = true ->
  decodeRecords (http.RespBody resp) = inr out ->
  Success out = true ->
  Result out = rec :: rest ->
  cloudflare.GetARecord c zoneID fqdn st = (st', Ok (Some rec)).
Proof.
  intros Hz Hf Hans H2xx Hdec Hs Hr.
  rewrite (GetARecord_answered c zoneID fqdn st st' resp Hz Hf Hans), H2xx, Hdec, Hs, Hr.
  reflexivity.
Qed.

(** C1 (what the code does). On a 2xx response whose envelope has [success]
    false, [FindZoneID], [CreateARecord] and [UpdateARecord] return an
    error, but [GetARecord] returns no error and no record: the failure of
    the provider is reported as the absence of the record. *)
Theorem C1_success_false_GetARecord_reports_absence c st :
  (forall zoneName st' resp out,
     zoneName <> "" ->
     answered c http.MethodGet (pathFindZoneID zoneName) None
              (called st (CallFindZoneID zoneName)) st' resp ->
     http.is2xx resp = true -> decodeZones (http.RespBody resp) = inr out ->
     Success out = false ->
     cloudflare.FindZoneID c zoneName st = (st', Err (notFound zoneName)))
  /\ (forall zoneID payload st' resp out,
     answered c http.MethodPost (pathCreateARecord zoneID) (Some payload)
              (called st (CallCreateARecord zoneID payload)) st' resp ->
     http.is2xx resp = true -> decodeRecord (http.RespBody resp) = inr out ->
     Success out = false ->
     cloudflare.CreateARecord c zoneID payload st
     = (st', Err (errorString "create dns record unsuccessful")))
  /\ (forall zoneID recordID payload st' resp out,
     zoneID <> "" -> recordID <> "" ->
     answered c http.MethodPut (pathUpdateARecord zoneID recordID) (Some payload)
              (called st (CallUpdateARecord zoneID recordID payload)) st' resp ->
     http.is2xx resp = true -> decodeRecord (http.RespBody resp) = inr out ->
     Success out = false ->
     cloudflare.UpdateARecord c zoneID recordID payload st
     = (st', Err (errorString "update dns record unsuccessful")))
  /\ (forall zoneID fqdn st' resp out,
     zoneID <> "" -> fqdn <> "" ->
     answered c http.MethodGet (pathGetARecord zoneID fqdn) None
              (called st (CallGetARecord zoneID fqdn)) st' resp ->
     http.is2xx resp = true -> decodeRecords (http.RespBody resp) = inr out ->
     Success out = false ->
     cloudflare.GetARecord c zoneID fqdn st = (st', Ok None)).
Proof.
  repeat split.
  - intros zoneName st' resp out Hz Hans H2xx Hdec Hs.
    rewrite (FindZoneID_answered c zoneName st st' resp Hz Hans), H2xx, Hdec, Hs.
    reflexivity.
  - intros zoneID payload st' resp out Hans H2xx Hdec Hs.
    rewrite (CreateARecord_answered c zoneID payload st st' resp Hans), H2xx, Hdec, Hs.
    reflexivity.
  - intros zoneID recordID payload st' resp out Hz Hr Hans H2xx Hdec Hs.
    rewrite (UpdateARecord_answered c zoneID recordID payload st st' resp Hz Hr Hans),
      H2xx, Hdec, Hs.
    reflexivity.
  - intros zoneID fqdn st' resp out Hz Hf Hans H2xx Hdec Hs.
    rewrite (GetARecord_answered c zoneID fqdn st st' resp Hz Hf Hans), H2xx, Hdec, Hs.
    reflexivity.
Qed.

Lemma calls_app (tr1 tr2 : list Event) : calls (tr1 ++ tr2) = (calls tr1 ++ calls tr2)%list.
Proof. apply flat_map_app. Qed.

Lemma requests_app (tr1 tr2 : list Event) :
  requests (tr1 ++ tr2) = (requests tr1 ++ requests tr2)%list.
Proof. apply flat_map_app. Qed.

Lemma printed_app (tr1 tr2 : list Event) :
  printed (tr1 ++ tr2) = (printed tr1 ++ printed tr2)%list.
Proof. apply flat_map_app. Qed.

Lemma atMostOne_calls method tail : atMostOne method tail -> calls tail = [].
Proof. intros [-> | (req & -> & _)]; reflexivity. Qed.

Lemma atMostOne_printed method tail : atMostOne method tail -> printed tail = [].
Proof. intros [-> | (req & -> & _)]; reflexivity. Qed.

Lemma oneCall_calls st st' call method :
  oneCall st st' call method -> calls (trace st') = (calls (trace st) ++ [call])%list.
Proof.
  intros (tail & -> & Ht). rewrite calls_app. cbn [calls flat_map].
  fold (calls tail). rewrite (atMostOne_calls _ _ Ht). reflexivity.
Qed.

Lemma oneCall_printed st st' call method :
  oneCall st st' call method -> printed (trace st') = printed (trace st).
Proof.
  intros (tail & -> & Ht). rewrite printed_app. cbn [printed flat_map].
  fold (printed tail). rewrite (atMostOne_printed _ _ Ht). cbn. apply app_nil_r.
Qed.

(** The write requests among those of one operation: none for a GET. *)
Lemma oneCall_get_writeRequests st st' call :
  oneCall st st' call http.MethodGet -> writeRequests (trace st') = writeRequests (trace st).
Proof.
  intros (tail & -> & Ht). unfold writeRequests.
  rewrite requests_app, filter_app, length_app.
  destruct Ht as [-> | (req & -> & Hm)]; cbn.
  - lia.
  - unfold isWriteRequest. rewrite Hm. cbn. lia.
Qed.

Lemma count_app p (tr1 tr2 : list Event) :
  count p (tr1 ++ tr2) = (count p tr1 + count p tr2)%nat.
Proof. unfold count. rewrite calls_app, filter_app, length_app. reflexivity. Qed.

Lemma count_calls p (tr tr' : list Event) cs :
  calls tr' = (calls tr ++ cs)%list ->
  count p tr' = (count p tr + List.length (filter p cs))%nat.
Proof. unfold count. intros ->. rewrite filter_app, length_app. reflexivity. Qed.

(** C8. [UpsertARecord] with non-empty arguments enters [CreateARecord]
    exactly once, with the record it builds from its arguments, and enters
    neither [GetARecord] nor [UpdateARecord]; it returns the created record
    with the flag true when [CreateARecord] succeeds and its error
    otherwise. *)
Theorem C8_UpsertARecord_blind_create c zoneID name ip ttl proxied st :
  zoneID <> "" -> name <> "" -> ip <> "" ->
  let payload :=
    {| DNSRecord.ID := ""; DNSRecord.Type_ := "A"; DNSRecord.Name := name;
       DNSRecord.Content := ip; DNSRecord.TTL := ttl; DNSRecord.Proxied := proxied |} in
  let upsert := cloudflare.UpsertARecord c zoneID name ip ttl proxied st in
  let create :=
    cloudflare.CreateARecord c zoneID payload
      (called st (CallUpsertARecord zoneID name ip ttl proxied)) in
  fst upsert = fst create
  /\ snd upsert = match snd create with
                  | Ok rec => Ok (rec, true)
                  | Err err => Err err
                  | Panic => Panic
                  end
  /\ calls (trace (fst upsert))
     = (calls (trace st)
        ++ [CallUpsertARecord zoneID name ip ttl proxied;
            CallCreateARecord zoneID payload])%list
  /\ count isCreate (trace (fst upsert)) = S (count isCreate (trace st))
  /\ count isGet (trace (fst upsert)) = count isGet (trace st)
  /\ count isUpdate (trace (fst upsert)) = count isUpdate (trace st).
Proof.
  intros Hz Hn Hi payload upsert create.
  assert (Hup : upsert = (fst create,
                          match snd create with
                          | Ok rec => Ok (rec, true)
                          | Err err => Err err
                          | Panic => Panic
                          end)).
  { subst upsert create. unfold cloudflare.UpsertARecord.
    unfold bind at 1, emit at 1.
    fold (called st (CallUpsertARecord zoneID name ip ttl proxied)).
    rewrite (eqb_neq_false _ _ Hz), (eqb_neq_false _ _ Hn), (eqb_neq_false _ _ Hi).
    cbn [orb]. fold payload.
    destruct (cloudflare.CreateARecord c zoneID payload _) as [s [rec|err|]]; reflexivity. }
  assert (Hcalls : calls (trace (fst upsert))
     = (calls (trace st)
        ++ [CallUpsertARecord zoneID name ip ttl proxied;
            CallCreateARecord zoneID payload])%list).
  { rewrite Hup. cbn [fst]. subst create.
    destruct (cloudflare.CreateARecord c zoneID payload _) as [s r] eqn:Hc.
    apply CreateARecord_trace, oneCall_calls in Hc. cbn [fst]. rewrite Hc.
    cbn [called trace]. rewrite calls_app, <- app_assoc. reflexivity. }
  rewrite Hup at 1 2. cbn [fst snd].
  repeat split; try exact Hcalls.
  - rewrite (count_calls _ _ _ _ Hcalls). cbn. lia.
  - rewrite (count_calls _ _ _ _ Hcalls). cbn. lia.
  - rewrite (count_calls _ _ _ _ Hcalls). cbn. lia.
Qed.

End ClientClaims.

(** *** The properties above at the stub provider *)



Ltac answer :=
  do 2 eexists;
  split; [vm_compute; reflexivity | split; vm_compute; reflexivity].
Ltac compute_eq := vm_compute; reflexivity.

(** C5 at the stub provider: the zone of the tests, a provider without
    zones, and the empty name. *)
Lemma C5_FindZoneID_first_or_not_found_witness :
  snd (cloudflare.FindZoneID stub.testClient "example.com" (stub.start stub.example_com ""))
  = Ok "abc123"
  /\ snd (cloudflare.FindZoneID stub.testClient "missing.com" (stub.start stub.failing ""))
     = Err (notFound "missing.com")
  /\ snd (cloudflare.FindZoneID stub.testClient "" (stub.start stub.example_com ""))
     = Err (errorString "zone name cannot be empty").
Proof.
  split; [|split].
  - destruct (C5_FindZoneID_first_or_not_found stub.testClient "example.com"
                (stub.start stub.example_com "")) as [_ H].
    edestruct H as [Hok _];
      [discriminate | answer | compute_eq | compute_eq |].
    rewrite (Hok (stub.zone "abc123" "example.com") [] eq_refl eq_refl). reflexivity.
  - destruct (C5_FindZoneID_first_or_not_found stub.testClient "missing.com"
                (stub.start stub.failing "")) as [_ H].
    edestruct H as [_ Hnf];
      [discriminate | answer | compute_eq | compute_eq |].
    rewrite Hnf; [reflexivity | left; compute_eq].
  - destruct (C5_FindZoneID_first_or_not_found stub.testClient ""
                (stub.start stub.example_com "")) as [H _].
    destruct (H eq_refl) as [-> _]. reflexivity.
Defined.

(** C9 at a provider that holds two records for the name. *)
Lemma C9_GetARecord_returns_first_witness :
  exists st',
    cloudflare.GetARecord stub.testClient "abc123" "home.example.com"
      (stub.start
         {| stub.zones := [];
            stub.records := [stub.record "rid" "home.example.com" "203.0.113.1" 300 false;
                             stub.record "rid2" "home.example.com" "203.0.113.2" 300 false];
            stub.success := true |} "")
    = (st', Ok (Some (stub.record "rid" "home.example.com" "203.0.113.1" 300 false))).
Proof.
  eexists.
  eapply C9_GetARecord_returns_first;
    [discriminate | discriminate | answer | compute_eq | compute_eq
    | compute_eq | compute_eq].
Defined.

(** C1 at a provider that answers 200 with [success] false. *)
Lemma C1_success_false_GetARecord_reports_absence_witness :
  (exists st', cloudflare.FindZoneID stub.testClient "example.com" (stub.start stub.failing "")
               = (st', Err (notFound "example.com")))
  /\ (exists st', cloudflare.CreateARecord stub.testClient "zid"
                    (stub.record "" "home" "203.0.113.9" 1 false) (stub.start stub.failing "")
                  = (st', Err (errorString "create dns record unsuccessful")))
  /\ (exists st', cloudflare.UpdateARecord stub.testClient "zid" "rid"
                    (stub.record "" "home" "203.0.113.9" 1 false) (stub.start stub.failing "")
                  = (st', Err (errorString "update dns record unsuccessful")))
  /\ (exists st', cloudflare.GetARecord stub.testClient "zid" "a.example.com"
                    (stub.start stub.failing "")
                  = (st', Ok None)).
Proof.
  destruct (C1_success_false_GetARecord_reports_absence stub.testClient (stub.start stub.failing ""))
    as (Hfind & Hcreate & Hupdate & Hget).
  repeat split; eexists.
  - eapply Hfind; [discriminate | answer | compute_eq | compute_eq | compute_eq].
  - eapply Hcreate; [answer | compute_eq | compute_eq | compute_eq].
  - eapply Hupdate;
      [discriminate | discriminate | answer | compute_eq | compute_eq | compute_eq].
  - eapply Hget;
      [discriminate | discriminate | answer | compute_eq | compute_eq | compute_eq].
Defined.

(** C8 at the stub provider. *)
Lemma C8_UpsertARecord_blind_create_witness :
  let upsert := cloudflare.UpsertARecord stub.testClient "abc123" "home" "203.0.113.9" 1 false
                  (stub.start stub.example_com "") in
  snd upsert = Ok (stub.record "rid" "home" "203.0.113.9" 1 false, true)
  /\ calls (trace (fst upsert))
     = [CallUpsertARecord "abc123" "home" "203.0.113.9" 1 false;
        CallCreateARecord "abc123" (stub.record "" "home" "203.0.113.9" 1 false)].
Proof.
  destruct (C8_UpsertARecord_blind_create stub.testClient "abc123" "home" "203.0.113.9" 1 false
              (stub.start stub.example_com ""))
    as (_ & Hres & Hcalls & _); [discriminate | discriminate | discriminate |].
  cbv zeta. split.
  - rewrite Hres. compute_eq.
  - rewrite Hcalls. reflexivity.
Defined.

(** ** The construction of the client *)

Section Construction.

Context {World TLSConfig : Type}.
Variable defaultClient : option TLSConfig -> Z -> cloudflare.HTTPClient World.

Lemma haveGlobal_spec (o : cloudflare.Options World TLSConfig) :
  cloudflare.haveGlobal o = true
  <-> cloudflare.Email o <> "" /\ cloudflare.GlobalKey o <> "".
Proof.
  unfold cloudflare.haveGlobal.
  rewrite andb_true_iff, !negb_true_iff, !String.eqb_neq. reflexivity.
Qed.

Lemma haveToken_spec (o : cloudflare.Options World TLSConfig) :
  cloudflare.haveToken o = true <-> cloudflare.APIToken o <> "".
Proof.
  unfold cloudflare.haveToken. rewrite negb_true_iff, String.eqb_neq. reflexivity.
Qed.

(** C4 (amended). [New] fails if and only if, after the options are
    applied, the complete global-key pair (email and key both non-empty)
    and the API token are both supplied or both missing, or the base URL
    does not parse.  An incomplete pair counts as missing: with a token it
    yields a client in token mode.  A client that is built is in the mode
    of the one variant that was supplied. *)
Theorem C4_New_fails_iff_zero_or_both_complete
    (opts : list (cloudflare.Option_ World TLSConfig)) :
  let o := cloudflare.applyOptions opts in
  let complete := cloudflare.Email o <> "" /\ cloudflare.GlobalKey o <> "" in
  let token := cloudflare.APIToken o <> "" in
  let base := if String.eqb (cloudflare.BaseURL o) "" then cloudflare.defaultBaseURL
              else cloudflare.BaseURL o in
  ((exists err, cloudflare.New defaultClient opts = inl err)
   <-> (complete /\ token) \/ (~ complete /\ ~ token) \/ url.Parse base = None)
  /\ (forall c, cloudflare.New defaultClient opts = inr c ->
        (complete /\ ~ token /\ cloudflare.authMode c = cloudflare.AuthGlobalKey)
        \/ (~ complete /\ token /\ cloudflare.authMode c = cloudflare.AuthAPIToken
            /\ cloudflare.apiToken c = cloudflare.APIToken o)).
Proof.
  intros o complete token base.
  unfold cloudflare.New. fold o. fold base.
  pose proof (haveGlobal_spec o) as Hg. pose proof (haveToken_spec o) as Ht.
  fold complete in Hg. fold token in Ht.
  destruct (cloudflare.haveGlobal o), (cloudflare.haveToken o); cbn [andb].
  - assert (complete) by now apply Hg. assert (token) by now apply Ht.
    split; [split; eauto | discriminate].
  - assert (complete) by now apply Hg.
    assert (~ token) by (intros Hc; apply Ht in Hc; discriminate).
    destruct (url.Parse base).
    + split.
      * split; [intros [err Herr]; discriminate | intros [[_ ?]|[[? _]|?]]; tauto || discriminate].
      * intros c Hc. inversion Hc; subst. left. auto.
    + split; [split; eauto | discriminate].
  - assert (~ complete) by (intros Hc; apply Hg in Hc; discriminate).
    assert (token) by now apply Ht.
    destruct (url.Parse base).
    + split.
      * split; [intros [err Herr]; discriminate | intros [[? _]|[[_ ?]|?]]; tauto || discriminate].
      * intros c Hc. inversion Hc; subst. right. auto.
    + split; [split; eauto | discriminate].
  - assert (~ complete) by (intros Hc; apply Hg in Hc; discriminate).
    assert (~ token) by (intros Hc; apply Ht in Hc; discriminate).
    split; [split; eauto | discriminate].
Qed.

End Construction.

(** C4 at no credential, at both credentials and at the global key alone. *)
Lemma C4_New_fails_iff_zero_or_both_complete_witness :
  (exists err, cloudflare.New stub.cfClient [] = inl err)
  /\ (exists err,
        cloudflare.New stub.cfClient
          [cloudflare.WithGlobalKey "me@example.com" "key123";
           cloudflare.WithAPIToken "tok"] = inl err)
  /\ cloudflare.authMode
       (stub.mustClient [cloudflare.WithGlobalKey "me@example.com" "key123"])
     = cloudflare.AuthGlobalKey.
Proof.
  split; [|split].
  - apply (proj1 (C4_New_fails_iff_zero_or_both_complete stub.cfClient [])).
    right. left. split.
    + intros [H _]. apply H. reflexivity.
    + intros H. apply H. reflexivity.
  - apply (proj1 (C4_New_fails_iff_zero_or_both_complete stub.cfClient
                    [cloudflare.WithGlobalKey "me@example.com" "key123";
                     cloudflare.WithAPIToken "tok"])).
    left. repeat split; discriminate.
  - destruct (proj2 (C4_New_fails_iff_zero_or_both_complete stub.cfClient
                       [cloudflare.WithGlobalKey "me@example.com" "key123"])
                    (stub.mustClient [cloudflare.WithGlobalKey "me@example.com" "key123"])
                    eq_refl)
      as [(_ & _ & Hmode) | (_ & Htoken & _)].
    + exact Hmode.
    + exfalso. apply Htoken. reflexivity.
Defined.

(** C4 (as stated, refuted). An email without a global key, together with
    an API token, yields a client: the one of the token. *)
Lemma C4_email_without_key_with_token_is_accepted :
  let opts : list (cloudflare.Option_ stub.World unit) :=
    [cloudflare.WithGlobalKey "me@example.com" ""; cloudflare.WithAPIToken "tok"] in
  cloudflare.Email (cloudflare.applyOptions opts) = "me@example.com"
  /\ cloudflare.GlobalKey (cloudflare.applyOptions opts) = ""
  /\ cloudflare.APIToken (cloudflare.applyOptions opts) = "tok"
  /\ exists c, cloudflare.New stub.cfClient opts = inr c
               /\ cloudflare.authMode c = cloudflare.AuthAPIToken.
Proof.
  cbv zeta. repeat split. eexists. split; [vm_compute; reflexivity | reflexivity].
Qed.

(** The base URL decides as well: one credential variant alone does not
    make [New] succeed. *)
Example New_rejects_base_URL_without_scheme :
  cloudflare.New stub.cfClient
    [cloudflare.WithAPIToken "tok"; cloudflare.WithBaseURL "://bad"]
  = inl (wrapError "invalid base URL: " (urlError "parse" "://bad")).
Proof. reflexivity. Qed.

(** ** The URLs of the requests *)

(** Reference resolution replaces the last segment of the base path by the
    relative path: a base path that does not end in a slash loses its last
    segment. *)
Example resolvePath_default_base :
  url.resolvePath "/client/v4" "zones" = "/client/zones"
  /\ url.resolvePath "/client/v4/" "zones" = "/client/v4/zones"
  /\ url.resolvePath "" "zones" = "/zones".
Proof. repeat split. Qed.

(** C7 (what the code does). With the default base URL,
    https://api.cloudflare.com/client/v4, the URL of the request of each of
    the four operations lacks the segment v4 of the base path: the prefix
    of the default base URL is not preserved. *)
Theorem C7_default_base_URL_loses_v4 :
  let c := stub.mustClient [cloudflare.WithAPIToken "tok"] in
  let st := stub.start stub.example_com "" in
  let payload := stub.record "" "home" "203.0.113.9" 1 false in
  url.String_ (cloudflare.baseURL c) = "https://api.cloudflare.com/client/v4"
  /\ dispatched (trace (fst (cloudflare.FindZoneID c "example.com" st)))
     = [("GET", "https://api.cloudflare.com/client/zones?name=example.com")]
  /\ dispatched (trace (fst (cloudflare.GetARecord c "abc123" "home.example.com" st)))
     = [("GET", "https://api.cloudflare.com/client/zones/abc123/dns_records?name=home.example.com&type=A")]
  /\ dispatched (trace (fst (cloudflare.CreateARecord c "abc123" payload st)))
     = [("POST", "https://api.cloudflare.com/client/zones/abc123/dns_records")]
  /\ dispatched (trace (fst (cloudflare.UpdateARecord c "abc123" "rid" payload st)))
     = [("PUT", "https://api.cloudflare.com/client/zones/abc123/dns_records/rid")].
Proof. cbv zeta. repeat split; vm_compute; reflexivity. Qed.

(** A base URL that ends in a slash, or one without a path (the test
    servers), keeps its path in the request URL. *)
Example base_URL_with_slash_keeps_its_path :
  let st := stub.start stub.example_com "" in
  dispatched (trace (fst (cloudflare.FindZoneID
     (stub.mustClient [cloudflare.WithAPIToken "tok";
                       cloudflare.WithBaseURL "https://api.cloudflare.com/client/v4/"])
     "example.com" st)))
  = [("GET", "https://api.cloudflare.com/client/v4/zones?name=example.com")]
  /\ dispatched (trace (fst (cloudflare.FindZoneID stub.testClient "example.com" st)))
     = [("GET", "http://127.0.0.1:8080/zones?name=example.com")].
Proof. cbv zeta. split; vm_compute; reflexivity. Qed.

(** ** The reconciliation flow *)

Section Flow.

Context {World TLSConfig : Type}.
Variable cfClient : option TLSConfig -> Z -> cloudflare.HTTPClient World.
Variable ipifyClient : Z -> netutil.IpifyClient World.

Implicit Types (c : cloudflare.Client World) (st : State World).

(** The discovery adds its call and at most one request to the echo
    service; it prints nothing and hands nothing to the provider. *)
Lemma Discover_trace client st st' r :
  netutil.DiscoverIPv4ViaIpify ipifyClient client st = (st', r) ->
  calls (trace st') = (calls (trace st) ++ [CallDiscoverIPv4ViaIpify])%list
  /\ requests (trace st') = requests (trace st)
  /\ printed (trace st') = printed (trace st).
Proof.
  unfold netutil.DiscoverIPv4ViaIpify, bind, emit, liftE, ret, fail, panic, Do.
  intros H.
  assert (Hcall : forall tail,
            calls tail = [] -> requests tail = [] -> printed tail = [] ->
            trace st' = (trace st ++ EvCall CallDiscoverIPv4ViaIpify :: tail)%list ->
            calls (trace st') = (calls (trace st) ++ [CallDiscoverIPv4ViaIpify])%list
            /\ requests (trace st') = requests (trace st)
            /\ printed (trace st') = printed (trace st)).
  { intros tail Hc Hr Hp ->. rewrite calls_app, requests_app, printed_app.
    cbn [calls requests printed flat_map].
    fold (calls tail). fold (requests tail). fold (printed tail).
    rewrite Hc, Hr, Hp. cbn. rewrite !app_nil_r. auto. }
  destruct (http.NewRequest _ _ _) as [e|req].
  - inversion H; subst. apply (Hcall []); reflexivity.
  - cbn [world trace] in H.
    destruct (match client with Some c0 => c0 | None => _ end _ req) as [w res].
    assert (Hst : st' = {| world := w;
                          trace := ((trace st ++ [EvCall CallDiscoverIPv4ViaIpify])
                                    ++ [EvIpify req])%list |}).
    { destruct res as [e|resp]; [now inversion H|].
      destruct (negb (http.is2xx resp)); [now inversion H|].
      destruct (http.RespBody resp) as [e|body]; [now inversion H|].
      destruct (net.ParseIP body) as [parsed|]; [|now inversion H].
      destruct (net.To4 parsed); now inversion H. }
    apply (Hcall [EvIpify req]); try reflexivity.
    rewrite Hst. cbn [trace]. rewrite <- app_assoc. reflexivity.
Qed.

Lemma oneCall_requests_get st st' call :
  oneCall st st' call http.MethodGet ->
  filter isWriteRequest (requests (trace st')) = filter isWriteRequest (requests (trace st)).
Proof.
  intros (tail & -> & Ht). rewrite requests_app, filter_app.
  destruct Ht as [-> | (req & -> & Hm)]; cbn.
  - apply app_nil_r.
  - unfold isWriteRequest. rewrite Hm. cbn. apply app_nil_r.
Qed.

(** The trace of the three reading steps of [run]. *)
Lemma reads_trace c zone fqdn st st1 st2 st3 r1 r2 r3 zoneID :
  netutil.DiscoverIPv4ViaIpify ipifyClient
    (Some (ipifyClient (10 * cloudflare.second))) st = (st1, r1) ->
  cloudflare.FindZoneID c zone st1 = (st2, r2) ->
  cloudflare.GetARecord c zoneID fqdn st2 = (st3, r3) ->
  calls (trace st3)
  = (calls (trace st)
     ++ [CallDiscoverIPv4ViaIpify; CallFindZoneID zone; CallGetARecord zoneID fqdn])%list
  /\ writeRequests (trace st3) = writeRequests (trace st)
  /\ printed (trace st3) = printed (trace st).
Proof.
  intros Hd Hf Hg.
  apply Discover_trace in Hd. destruct Hd as (Hd1 & Hd2 & Hd3).
  apply FindZoneID_trace in Hf. apply GetARecord_trace in Hg.
  repeat split.
  - rewrite (oneCall_calls _ _ _ _ Hg), (oneCall_calls _ _ _ _ Hf), Hd1.
    rewrite <- !app_assoc. reflexivity.
  - unfold writeRequests.
    rewrite (oneCall_requests_get _ _ _ Hg), (oneCall_requests_get _ _ _ Hf), Hd2.
    reflexivity.
  - rewrite (oneCall_printed _ _ _ _ Hg), (oneCall_printed _ _ _ _ Hf). exact Hd3.
Qed.

(** [run] up to the decision. *)
Lemma run_reaches_decision zone name ttl proxied email globalKey apiToken timeout
    st c st1 wanIP st2 zoneID st3 rec :
  main.validateInputs zone name ttl email globalKey apiToken = None ->
  main.construct cfClient email globalKey apiToken = inr c ->
  netutil.DiscoverIPv4ViaIpify ipifyClient
    (Some (ipifyClient (10 * cloudflare.second))) st = (st1, Ok wanIP) ->
  cloudflare.FindZoneID c zone st1 = (st2, Ok zoneID) ->
  cloudflare.GetARecord c zoneID (name ++ "." ++ zone) st2 = (st3, Ok rec) ->
  main.run cfClient ipifyClient zone name ttl proxied email globalKey apiToken timeout st
  = main.decide c zoneID (name ++ "." ++ zone) name wanIP ttl proxied rec st3.
Proof.
  intros Hv Hc Hd Hf Hg. unfold main.run. rewrite Hv, Hc.
  unfold bind at 1. unfold liftE at 1, ret at 1.
  unfold bind at 1. unfold main.wrap. rewrite Hd.
  unfold bind at 1. rewrite Hf.
  unfold bind at 1. rewrite Hg. reflexivity.
Qed.

(** C2. In every run of the flow in which [GetARecord] returns a record
    whose content is the discovered address, the run ends without error,
    prints the no-change line as its only line, and enters neither
    [CreateARecord] nor [UpdateARecord]; no POST or PUT request is made. *)
Theorem C2_same_IP_is_a_no_op zone name ttl proxied email globalKey apiToken timeout
    st c st1 wanIP st2 zoneID st3 rec :
  main.validateInputs zone name ttl email globalKey apiToken = None ->
  main.construct cfClient email globalKey apiToken = inr c ->
  netutil.DiscoverIPv4ViaIpify ipifyClient
    (Some (ipifyClient (10 * cloudflare.second))) st = (st1, Ok wanIP) ->
  cloudflare.FindZoneID c zone st1 = (st2, Ok zoneID) ->
  cloudflare.GetARecord c zoneID (name ++ "." ++ zone) st2 = (st3, Ok (Some rec)) ->
  DNSRecord.Content rec = wanIP ->
  let final :=
    main.run cfClient ipifyClient zone name ttl proxied email globalKey apiToken
             timeout st in
  let line := "No change: " ++ (name ++ "." ++ zone) ++ " already points to "
              ++ wanIP ++ main.nl in
  snd final = Ok tt
  /\ fst final = {| world := world st3; trace := (trace st3 ++ [EvPrint line])%list |}
  /\ printed (trace (fst final)) = (printed (trace st) ++ [line])%list
  /\ count isCreate (trace (fst final)) = count isCreate (trace st)
  /\ count isUpdate (trace (fst final)) = count isUpdate (trace st)
  /\ writeRequests (trace (fst final)) = writeRequests (trace st).
Proof.
  intros Hv Hc Hd Hf Hg Hsame final line.
  assert (Hrun : final = ({| world := world st3;
                             trace := (trace st3 ++ [EvPrint line])%list |}, Ok tt)).
  { subst final. erewrite run_reaches_decision by eassumption.
    unfold main.decide. rewrite Hsame, String.eqb_refl. reflexivity. }
  destruct (reads_trace _ _ _ _ _ _ _ _ _ _ _ Hd Hf Hg) as (Hcalls & Hw & Hp).
  rewrite Hrun. cbn [fst snd trace].
  repeat split.
  - rewrite printed_app, Hp. reflexivity.
  - rewrite count_app. rewrite (count_calls _ _ _ _ Hcalls). cbn. lia.
  - rewrite count_app. rewrite (count_calls _ _ _ _ Hcalls). cbn. lia.
  - unfold writeRequests in *. rewrite requests_app, filter_app, length_app, Hw.
    cbn. lia.
Qed.

(** C3. In every run of the flow that reaches the decision: if a record
    exists and its content differs from the discovered address, the flow
    enters [UpdateARecord] exactly once, with the id of the existing record
    and a payload whose content is the discovered address, and never
    [CreateARecord]; if no record exists, it enters [CreateARecord] exactly
    once, with that payload, and never [UpdateARecord].  The run ends with
    the result of that one write, and prints its line when the write
    succeeds. *)
Theorem C3_one_write_per_run zone name ttl proxied email globalKey apiToken timeout
    st c st1 wanIP st2 zoneID st3 found :
  main.validateInputs zone name ttl email globalKey apiToken = None ->
  main.construct cfClient email globalKey apiToken = inr c ->
  netutil.DiscoverIPv4ViaIpify ipifyClient
    (Some (ipifyClient (10 * cloudflare.second))) st = (st1, Ok wanIP) ->
  cloudflare.FindZoneID c zone st1 = (st2, Ok zoneID) ->
  cloudflare.GetARecord c zoneID (name ++ "." ++ zone) st2 = (st3, Ok found) ->
  let fqdn := name ++ "." ++ zone in
  let final :=
    main.run cfClient ipifyClient zone name ttl proxied email globalKey apiToken
             timeout st in
  let payload :=
    {| DNSRecord.ID := ""; DNSRecord.Type_ := "A"; DNSRecord.Name := name;
       DNSRecord.Content := wanIP; DNSRecord.TTL := ttl; DNSRecord.Proxied := proxied |} in
  let reads := [CallDiscoverIPv4ViaIpify; CallFindZoneID zone; CallGetARecord zoneID fqdn] in
  (forall rec, found = Some rec -> DNSRecord.Content rec <> wanIP ->
     let write := cloudflare.UpdateARecord c zoneID (DNSRecord.ID rec) payload st3 in
     calls (trace (fst final))
     = (calls (trace st) ++ reads
        ++ [CallUpdateARecord zoneID (DNSRecord.ID rec) payload])%list
     /\ count isUpdate (trace (fst final)) = S (count isUpdate (trace st))
     /\ count isCreate (trace (fst final)) = count isCreate (trace st)
     /\ final = match write with
                | (st4, Ok _) =>
                    ({| world := world st4;
                        trace := (trace st4 ++ [EvPrint ("Updated A " ++ fqdn ++ " -> "
                                                         ++ wanIP ++ main.nl)])%list |},
                     Ok tt)
                | (st4, Err err) => (st4, Err err)
                | (st4, Panic) => (st4, Panic)
                end)
  /\ (found = None ->
     let write := cloudflare.CreateARecord c zoneID payload st3 in
     calls (trace (fst final))
     = (calls (trace st) ++ reads ++ [CallCreateARecord zoneID payload])%list
     /\ count isCreate (trace (fst final)) = S (count isCreate (trace st))
     /\ count isUpdate (trace (fst final)) = count isUpdate (trace st)
     /\ final = match write with
                | (st4, Ok _) =>
                    ({| world := world st4;
                        trace := (trace st4 ++ [EvPrint ("Created A " ++ fqdn ++ " -> "
                                                         ++ wanIP ++ main.nl)])%list |},
                     Ok tt)
                | (st4, Err err) => (st4, Err err)
                | (st4, Panic) => (st4, Panic)
                end).
Proof.
  intros Hv Hc Hd Hf Hg fqdn final payload reads.
  destruct (reads_trace _ _ _ _ _ _ _ _ _ _ _ Hd Hf Hg) as (Hcalls & _ & _).
  fold fqdn in Hcalls. fold reads in Hcalls.
  assert (Hrun : final = main.decide c zoneID fqdn name wanIP ttl proxied found st3).
  { subst final fqdn. eapply run_reaches_decision; eassumption. }
  split.
  - intros rec -> Hdiff write.
    assert (Hfinal : final = match write with
                | (st4, Ok _) =>
                    ({| world := world st4;
                        trace := (trace st4 ++ [EvPrint ("Updated A " ++ fqdn ++ " -> "
                                                         ++ wanIP ++ main.nl)])%list |},
                     Ok tt)
                | (st4, Err err) => (st4, Err err)
                | (st4, Panic) => (st4, Panic)
                end).
    { rewrite Hrun. unfold main.decide. rewrite (eqb_neq_false _ _ Hdiff).
      fold payload. unfold bind at 1. fold write.
      destruct write as [st4 [a|e|]]; reflexivity. }
    assert (Hall : calls (trace (fst final))
                   = (calls (trace st) ++ reads
                      ++ [CallUpdateARecord zoneID (DNSRecord.ID rec) payload])%list).
    { rewrite Hfinal. subst write.
      destruct (cloudflare.UpdateARecord c zoneID (DNSRecord.ID rec) payload st3)
        as [st4 r] eqn:Hw.
      apply UpdateARecord_trace, oneCall_calls in Hw.
      assert (Hst4 : calls (trace st4) = (calls (trace st) ++ reads
                      ++ [CallUpdateARecord zoneID (DNSRecord.ID rec) payload])%list).
      { rewrite Hw, Hcalls, <- app_assoc. reflexivity. }
      destruct r; cbn [fst trace]; try exact Hst4.
      rewrite calls_app, Hst4. cbn. rewrite app_nil_r. reflexivity. }
    repeat split; try assumption.
    + rewrite (count_calls _ _ _ _ Hall). cbn. lia.
    + rewrite (count_calls _ _ _ _ Hall). cbn. lia.
  - intros -> write.
    assert (Hfinal : final = match write with
                | (st4, Ok _) =>
                    ({| world := world st4;
                        trace := (trace st4 ++ [EvPrint ("Created A " ++ fqdn ++ " -> "
                                                         ++ wanIP ++ main.nl)])%list |},
                     Ok tt)
                | (st4, Err err) => (st4, Err err)
                | (st4, Panic) => (st4, Panic)
                end).
    { rewrite Hrun. unfold main.decide.
      fold payload. unfold bind at 1. fold write.
      destruct write as [st4 [a|e|]]; reflexivity. }
    assert (Hall : calls (trace (fst final))
                   = (calls (trace st) ++ reads
                      ++ [CallCreateARecord zoneID payload])%list).
    { rewrite Hfinal. subst write.
      destruct (cloudflare.CreateARecord c zoneID payload st3) as [st4 r] eqn:Hw.
      apply CreateARecord_trace, oneCall_calls in Hw.
      assert (Hst4 : calls (trace st4) = (calls (trace st) ++ reads
                      ++ [CallCreateARecord zoneID payload])%list).
      { rewrite Hw, Hcalls, <- app_assoc. reflexivity. }
      destruct r; cbn [fst trace]; try exact Hst4.
      rewrite calls_app, Hst4. cbn. rewrite app_nil_r. reflexivity. }
    repeat split; try assumption.
    + rewrite (count_calls _ _ _ _ Hall). cbn. lia.
    + rewrite (count_calls _ _ _ _ Hall). cbn. lia.
Qed.

End Flow.

(** *** The flow at the stub provider: the scenarios of the specification *)


(** C2 at the stub provider: the record already holds the echoed address. *)
Lemma C2_same_IP_is_a_no_op_witness :
  snd (stub.runStub stub.example_com "203.0.113.1") = Ok tt
  /\ printed (trace (fst (stub.runStub stub.example_com "203.0.113.1")))
     = ["No change: home.example.com already points to 203.0.113.1" ++ main.nl]
  /\ count isCreate (trace (fst (stub.runStub stub.example_com "203.0.113.1"))) = 0%nat
  /\ count isUpdate (trace (fst (stub.runStub stub.example_com "203.0.113.1"))) = 0%nat
  /\ writeRequests (trace (fst (stub.runStub stub.example_com "203.0.113.1"))) = 0%nat.
Proof.
  edestruct (C2_same_IP_is_a_no_op stub.cfClient stub.ipifyClient
               "example.com" "home" 1 false "" "" "tok" (30 * cloudflare.second)
               (stub.start stub.example_com "203.0.113.1"))
    as (Hres & _ & Hprint & Hcreate & Hupdate & Hwrites);
    [compute_eq | compute_eq | compute_eq | compute_eq | compute_eq | compute_eq |].
  unfold stub.runStub. rewrite Hres, Hprint, Hcreate, Hupdate, Hwrites.
  repeat split.
Defined.


(** C3 at the stub provider: the two scenarios of the specification. *)
Lemma C3_one_write_per_run_witness :
  (snd (stub.runStub stub.example_com "203.0.113.9") = Ok tt
   /\ calls (trace (fst (stub.runStub stub.example_com "203.0.113.9")))
      = [CallDiscoverIPv4ViaIpify; CallFindZoneID "example.com";
         CallGetARecord "abc123" "home.example.com";
         CallUpdateARecord "abc123" "rid" (stub.record "" "home" "203.0.113.9" 1 false)]
   /\ printed (trace (fst (stub.runStub stub.example_com "203.0.113.9")))
      = ["Updated A home.example.com -> 203.0.113.9" ++ main.nl])
  /\ (snd (stub.runStub stub.noRecords "203.0.113.9") = Ok tt
      /\ calls (trace (fst (stub.runStub stub.noRecords "203.0.113.9")))
         = [CallDiscoverIPv4ViaIpify; CallFindZoneID "example.com";
            CallGetARecord "abc123" "home.example.com";
            CallCreateARecord "abc123" (stub.record "" "home" "203.0.113.9" 1 false)]
      /\ printed (trace (fst (stub.runStub stub.noRecords "203.0.113.9")))
         = ["Created A home.example.com -> 203.0.113.9" ++ main.nl]).
Proof.
  split.
  - edestruct (C3_one_write_per_run stub.cfClient stub.ipifyClient
                 "example.com" "home" 1 false "" "" "tok" (30 * cloudflare.second)
                 (stub.start stub.example_com "203.0.113.9"))
      as [Hupdate _];
      [compute_eq | compute_eq | compute_eq | compute_eq | compute_eq |].
    edestruct Hupdate as (Hcalls & _ & _ & Hfinal); [reflexivity | discriminate |].
    unfold stub.runStub. rewrite Hcalls, Hfinal. repeat split.
  - edestruct (C3_one_write_per_run stub.cfClient stub.ipifyClient
                 "example.com" "home" 1 false "" "" "tok" (30 * cloudflare.second)
                 (stub.start stub.noRecords "203.0.113.9"))
      as [_ Hcreate];
      [compute_eq | compute_eq | compute_eq | compute_eq | compute_eq |].
    destruct (Hcreate eq_refl) as (Hcalls & _ & _ & Hfinal).
    unfold stub.runStub. rewrite Hcalls, Hfinal. repeat split.
Defined.

(** The consequence of [GetARecord]'s answer to [success] false in the flow:
    the record exists and already holds the address, the lookup fails at the
    provider, and the run creates a record. *)
Example run_creates_after_failed_lookup :
  let final :=
    main.run stub.lookupFails stub.ipifyClient "example.com" "home" 1 false "" "" "tok"
             (30 * cloudflare.second) (stub.start stub.example_com "203.0.113.1") in
  snd final = Ok tt
  /\ printed (trace (fst final)) = ["Created A home.example.com -> 203.0.113.1" ++ main.nl]
  /\ count isCreate (trace (fst final)) = 1%nat.
Proof. cbv zeta. repeat split; vm_compute; reflexivity. Qed.

(** Running the flow again on the world the first run left: the second run
    finds the record it created and writes nothing. *)
Example second_run_is_a_no_op :
  let first := stub.runStub stub.noRecords "203.0.113.9" in
  let second :=
    main.run stub.cfClient stub.ipifyClient "example.com" "home" 1 false "" "" "tok"
             (30 * cloudflare.second) {| world := world (fst first); trace := [] |} in
  printed (trace (fst first)) = ["Created A home.example.com -> 203.0.113.9" ++ main.nl]
  /\ printed (trace (fst second))
     = ["No change: home.example.com already points to 203.0.113.9" ++ main.nl]
  /\ writeRequests (trace (fst second)) = 0%nat.
Proof. cbv zeta. repeat split; vm_compute; reflexivity. Qed.

(** ** Parsing and printing IPv4 addresses *)

Import ip4.

Lemma isDigit_char (c : ascii) :
  isDigit c = true ->
  0 <= byte_val c - byte_val "0" <= 9 /\ c = netip.digit (byte_val c - byte_val "0").
Proof.
  destruct c as [[] [] [] [] [] [] [] []]; intros H; try discriminate H;
    split; try reflexivity; cbv; split; discriminate.
Qed.

Lemma appendDecimal_digit (d : Z) :
  0 <= d <= 9 -> netip.appendDecimal d = String (netip.digit d) "".
Proof.
  intros H. unfold netip.appendDecimal.
  destruct (100 <=? d) eqn:H1; [apply Z.leb_le in H1; lia|].
  destruct (10 <=? d) eqn:H2; [apply Z.leb_le in H2; lia|].
  rewrite Z.mod_small by lia. reflexivity.
Qed.

Lemma appendDecimal_snoc (v d : Z) :
  1 <= v -> 0 <= d <= 9 -> v * 10 + d <= 255 ->
  netip.appendDecimal (v * 10 + d)
  = netip.appendDecimal v ++ String (netip.digit d) "".
Proof.
  intros Hv Hd Hle.
  assert (Hc : snoc_check = true) by (vm_compute; reflexivity).
  unfold snoc_check in Hc. rewrite forallb_forall in Hc.
  assert (Hin : In (Z.to_nat v) (seq 1 25)) by (apply in_seq; lia).
  specialize (Hc _ Hin). rewrite forallb_forall in Hc.
  assert (Hin' : In (Z.to_nat d) (seq 0 10)) by (apply in_seq; lia).
  specialize (Hc _ Hin'). rewrite !Z2Nat.id in Hc by lia.
  apply String.eqb_eq. exact Hc.
Qed.

Lemma append_assoc (a b c : string) : (a ++ b) ++ c = a ++ (b ++ c).
Proof. induction a; cbn; [reflexivity | now rewrite IHa]. Qed.

Lemma append_nil_r (a : string) : a ++ "" = a.
Proof. induction a; cbn; [reflexivity | now rewrite IHa]. Qed.

(** Whatever the loop of [parseIPv4Fields] accepts is the canonical text of
    the octets it stores. *)
Lemma parseIPv4Fields_loop_sound s :
  forall prev val pos digLen base fields fs,
    octetInv s prev val pos digLen ->
    netip.parseIPv4Fields_loop s prev val pos digLen base fields = Some fs ->
    exists xs,
      Forall isByte xs /\ List.length xs = (4 - pos)%nat
      /\ current val digLen ++ s = join xs
      /\ fs = writes base pos xs fields.
Proof.
  induction s as [|c s IH]; intros prev val pos digLen base fields fs
    (Hpos & Hval & Hlen & Hzero & Htwo) H; cbn [netip.parseIPv4Fields_loop] in H.
  - destruct (pos <? 3)%nat eqn:Hp; [discriminate|].
    apply Nat.ltb_ge in Hp. assert (pos = 3%nat) as -> by lia.
    assert (digLen <> 0).
    { intros Hd. destruct (Hzero Hd) as (_ & _ & Hs). apply Hs; [lia | reflexivity]. }
    inversion H; subst. exists [val]. unfold current.
    rewrite (proj2 (Z.eqb_neq digLen 0)) by assumption.
    repeat split; [repeat constructor; unfold isByte; lia | apply append_nil_r].
  - destruct (isDigit c) eqn:Hc.
    + destruct (isDigit_char c Hc) as (Hd & Hcd).
      set (d := byte_val c - byte_val "0") in *.
      destruct ((digLen =? 1) && (val =? 0)) eqn:Hlead; [discriminate|].
      destruct (val * 10 + d >? 255) eqn:Hbig; [discriminate|].
      assert (Hle : val * 10 + d <= 255)
        by (rewrite Z.gtb_ltb in Hbig; apply Z.ltb_ge in Hbig; lia).
      apply IH in H.
      * destruct H as (xs & Hxs & Hn & Hjoin & Hfs). exists xs.
        repeat split; try assumption. rewrite <- Hjoin. unfold current.
        rewrite (proj2 (Z.eqb_neq (digLen + 1) 0)) by lia.
        destruct (digLen =? 0) eqn:Hd0.
        -- apply Z.eqb_eq in Hd0. destruct (Hzero Hd0) as (-> & _).
           cbn [Z.mul Z.add]. rewrite appendDecimal_digit by assumption.
           rewrite Hcd. reflexivity.
        -- apply Z.eqb_neq in Hd0. rewrite appendDecimal_snoc; try assumption.
           ++ rewrite append_assoc, Hcd. reflexivity.
           ++ destruct (Z.eq_dec digLen 1) as [->|].
              ** cbn in Hlead. apply Z.eqb_neq in Hlead. lia.
              ** apply Htwo. lia.
      * assert (digLen = 1 -> val <> 0).
        { intros ->. cbn in Hlead. apply Z.eqb_neq in Hlead. exact Hlead. }
        assert (digLen = 0 -> val = 0) by (intros Hd0; now destruct (Hzero Hd0)).
        repeat split; lia.
    + destruct (Ascii.eqb c ".") eqn:Hdot; [|discriminate].
      apply Ascii.eqb_eq in Hdot. subst c.
      destruct (match prev with None => true | Some p => Ascii.eqb p "." end
                || match s with "" => true | _ => false end) eqn:Hchk; [discriminate|].
      apply orb_false_iff in Hchk. destruct Hchk as (Hprev & Hs).
      destruct (pos =? 3)%nat eqn:Hp3; [discriminate|]. apply Nat.eqb_neq in Hp3.
      assert (Hd0 : digLen <> 0).
      { intros Hd. destruct (Hzero Hd) as (_ & [-> | ->] & _); discriminate. }
      apply IH in H.
      * destruct H as (xs & Hxs & Hn & Hjoin & Hfs).
        exists (val :: xs). repeat split.
        -- constructor; [exact Hval | exact Hxs].
        -- cbn [List.length]. lia.
        -- unfold current in *. rewrite (proj2 (Z.eqb_neq digLen 0)) by assumption.
           cbn [Z.eqb] in Hjoin. cbn [append] in Hjoin.
           destruct xs as [|y ys]; [cbn [List.length] in Hn; lia|].
           change (join (val :: y :: ys))
             with (netip.appendDecimal val ++ "." ++ join (y :: ys)).
           rewrite <- Hjoin. reflexivity.
        -- exact Hfs.
      * repeat split; try lia.
        -- now right.
        -- intros _ ->. discriminate.
Qed.

Lemma parseIPv4_sound s addr :
  netip.parseIPv4 s = Some addr ->
  exists a b c d,
    isByte a /\ isByte b /\ isByte c /\ isByte d
    /\ s = dotted a b c d
    /\ netip.bytes16 addr = (netip.v4prefix ++ [a; b; c; d])%list
    /\ netip.zone addr = "".
Proof.
  unfold netip.parseIPv4, netip.parseIPv4Fields.
  destruct (netip.parseIPv4Fields_loop s None 0 0 0 0 [0; 0; 0; 0]) as [fs|] eqn:H;
    [|discriminate].
  intros Haddr. inversion Haddr; subst; clear Haddr.
  apply parseIPv4Fields_loop_sound in H.
  - destruct H as (xs & Hxs & Hn & Hjoin & Hfs).
    destruct xs as [|a [|b [|c [|d [|? ?]]]]]; try discriminate Hn.
    inversion Hxs as [|? ? Ha Hxs1]; subst.
    inversion Hxs1 as [|? ? Hb Hxs2]; subst.
    inversion Hxs2 as [|? ? Hc Hxs3]; subst.
    inversion Hxs3 as [|? ? Hd _]; subst.
    exists a, b, c, d.
    split; [exact Ha | split; [exact Hb | split; [exact Hc | split; [exact Hd |]]]].
    split; [exact Hjoin | split; reflexivity].
  - unfold octetInv. repeat split; try lia. now left.
Qed.

(** Enumeration of the bytes. *)
Lemma byte_cases (P : Z -> Prop) :
  (forall n : nat, (n < 256)%nat -> P (Z.of_nat n)) -> forall x, isByte x -> P x.
Proof.
  intros H x Hx. rewrite <- (Z2Nat.id x) by (unfold isByte in Hx; lia).
  apply H. unfold isByte in Hx. lia.
Qed.

Ltac each_byte n tac :=
  do 256 (destruct n as [|n]; [tac|]); exfalso; lia.

(** The loop on the canonical text of an octet that a dot follows. *)
Lemma octet_then_dot x prev pos base fields c more :
  isByte x -> (pos <? 3)%nat = true ->
  netip.parseIPv4Fields_loop (netip.appendDecimal x ++ String "." (String c more))
                             prev 0 pos 0 base fields
  = netip.parseIPv4Fields_loop (String c more) (Some "."%char) 0 (S pos) 0 base
                               (netip.upd (base + pos) x fields).
Proof.
  intros Hx Hpos. revert x Hx. apply byte_cases. intros n Hn.
  assert (Hp3 : (pos =? 3)%nat = false).
  { apply Nat.eqb_neq. apply Nat.ltb_lt in Hpos. lia. }
  each_byte n ltac:(cbn -[netip.parseIPv4Fields_loop];
                    cbn [netip.parseIPv4Fields_loop]; rewrite Hp3; reflexivity).
Qed.

(** The loop on the canonical text of the last octet. *)
Lemma octet_at_end x prev base fields :
  isByte x ->
  netip.parseIPv4Fields_loop (netip.appendDecimal x) prev 0 3 0 base fields
  = Some (netip.upd (base + 3) x fields).
Proof.
  intros Hx. revert x Hx. apply byte_cases. intros n Hn.
  each_byte n ltac:(reflexivity).
Qed.

(** The canonical text of an octet starts with a digit. *)
Lemma appendDecimal_head x :
  isByte x ->
  exists c more, netip.appendDecimal x = String c more /\ isDigit c = true.
Proof.
  intros Hx. revert x Hx. apply byte_cases. intros n Hn.
  each_byte n ltac:(do 2 eexists; split; reflexivity).
Qed.

Lemma octet_then_octet x y rest prev pos base fields :
  isByte x -> isByte y -> (pos <? 3)%nat = true ->
  netip.parseIPv4Fields_loop
    (netip.appendDecimal x ++ String "." (netip.appendDecimal y ++ rest))
    prev 0 pos 0 base fields
  = netip.parseIPv4Fields_loop (netip.appendDecimal y ++ rest) (Some "."%char)
                               0 (S pos) 0 base (netip.upd (base + pos) x fields).
Proof.
  intros Hx Hy Hpos. destruct (appendDecimal_head y Hy) as (c & more & -> & _).
  cbn [append]. apply octet_then_dot; assumption.
Qed.

(** The parser accepts the canonical text of four bytes and stores them. *)
Lemma parseIPv4Fields_dotted a b c d base fields :
  isByte a -> isByte b -> isByte c -> isByte d ->
  netip.parseIPv4Fields (dotted a b c d) base fields
  = Some (writes base 0 [a; b; c; d] fields).
Proof.
  intros Ha Hb Hc Hd. unfold netip.parseIPv4Fields, dotted, netip.string4.
  cbn [nth writes].
  replace (netip.appendDecimal d) with (netip.appendDecimal d ++ "")
    by apply append_nil_r.
  change (netip.appendDecimal a ++ _)
    with (netip.appendDecimal a
          ++ String "." (netip.appendDecimal b
          ++ String "." (netip.appendDecimal c
          ++ String "." (netip.appendDecimal d ++ "")))).
  rewrite !octet_then_octet by (assumption || reflexivity).
  rewrite append_nil_r. apply octet_at_end. exact Hd.
Qed.

Lemma parseIPv4_dotted a b c d :
  isByte a -> isByte b -> isByte c -> isByte d ->
  netip.parseIPv4 (dotted a b c d)
  = Some {| netip.bytes16 := (netip.v4prefix ++ [a; b; c; d])%list;
            netip.is4 := true; netip.zone := "" |}.
Proof.
  intros Ha Hb Hc Hd. unfold netip.parseIPv4.
  rewrite parseIPv4Fields_dotted by assumption. reflexivity.
Qed.

(** *** The choice of the family *)

Lemma ParseAddr_scan_family input s :
  netip.ParseAddr_scan input s
  = match family s with
    | Some c =>
        if Ascii.eqb c "." then netip.parseIPv4 input
        else if Ascii.eqb c ":" then netip.parseIPv6 input
        else None
    | None => None
    end.
Proof.
  induction s as [|c s IH]; [reflexivity|].
  cbn [netip.ParseAddr_scan family byte_in existsb].
  destruct (Ascii.eqb c ".") eqn:H1; [cbn [orb]; rewrite H1; reflexivity|].
  destruct (Ascii.eqb c ":") eqn:H2; [cbn [orb]; rewrite H1, H2; reflexivity|].
  destruct (Ascii.eqb c "%") eqn:H3; [cbn [orb]; rewrite H1, H2; reflexivity|].
  exact IH.
Qed.

Lemma family_octet x rest :
  isByte x -> family (netip.appendDecimal x ++ String "." rest) = Some "."%char.
Proof.
  intros Hx. revert x Hx. apply byte_cases. intros n Hn.
  each_byte n ltac:(reflexivity).
Qed.

Lemma family_dotted a b c d :
  isByte a -> family (dotted a b c d) = Some "."%char.
Proof. intros Ha. apply family_octet. exact Ha. Qed.

(** [net.ParseIP] followed by [To4], on a dotted quad and in general. *)
Lemma ParseIP_dotted a b c d :
  isByte a -> isByte b -> isByte c -> isByte d ->
  net.ParseIP (dotted a b c d) = Some (netip.v4prefix ++ [a; b; c; d])%list.
Proof.
  intros Ha Hb Hc Hd. unfold net.ParseIP, netip.ParseAddr.
  rewrite ParseAddr_scan_family, family_dotted by assumption.
  cbn [Ascii.eqb Bool.eqb]. rewrite parseIPv4_dotted by assumption. reflexivity.
Qed.

Lemma To4_v4prefix p4 :
  List.length p4 = 4%nat -> net.To4 (netip.v4prefix ++ p4)%list = Some p4.
Proof.
  destruct p4 as [|a [|b [|c [|d [|? ?]]]]]; try discriminate. reflexivity.
Qed.

Lemma accepted_iff body ip :
  discovery.accepted body = Some ip <-> (dottedQuad body /\ ip = body) \/ mappedLiteral body ip.
Proof.
  unfold discovery.accepted. split.
  - unfold net.ParseIP, netip.ParseAddr. rewrite ParseAddr_scan_family.
    destruct (family body) as [f|] eqn:Hf; [|discriminate].
    destruct (Ascii.eqb f ".") eqn:H4.
    + destruct (netip.parseIPv4 body) as [addr|] eqn:Hp; [|discriminate].
      destruct (parseIPv4_sound _ _ Hp) as (a & b & c & d & Ha & Hb & Hc & Hd & Hs & Hb16 & Hz).
      rewrite Hz, Hb16. cbn [String.eqb]. rewrite To4_v4prefix by reflexivity.
      intros H; inversion H; subst. left. split.
      * exists a, b, c, d. auto.
      * reflexivity.
    + destruct (Ascii.eqb f ":") eqn:H6; [|discriminate].
      apply Ascii.eqb_eq in H6. subst f.
      destruct (netip.parseIPv6 body) as [addr|] eqn:Hp; [|discriminate].
      destruct (String.eqb (netip.zone addr) "") eqn:Hz; [|discriminate].
      apply String.eqb_eq in Hz.
      destruct (net.To4 (netip.bytes16 addr)) as [p4|] eqn:H4'; [|discriminate].
      intros H; inversion H; subst. right. split; [exact Hf|].
      exists addr, p4. auto.
  - intros [[(a & b & c & d & Ha & Hb & Hc & Hd & ->) ->] | (Hf & addr & p4 & Hp & Hz & H4 & ->)].
    + rewrite ParseIP_dotted by assumption. rewrite To4_v4prefix by reflexivity.
      reflexivity.
    + unfold net.ParseIP, netip.ParseAddr. rewrite ParseAddr_scan_family, Hf.
      cbn [Ascii.eqb Bool.eqb]. rewrite Hp, Hz. cbn [String.eqb]. rewrite H4. reflexivity.
Qed.

(** *** IPv4-mapped IPv6 literals of the form ::ffff:a.b.c.d *)

Lemma Index_percent_octet x rest :
  isByte x -> strings.Index rest "%" = None ->
  strings.Index (netip.appendDecimal x ++ rest) "%" = None.
Proof.
  intros Hx Hrest. revert x Hx. apply byte_cases. intros n Hn.
  each_byte n ltac:(cbn; rewrite Hrest; reflexivity).
Qed.

Lemma Index_percent_dotted a b c d :
  isByte a -> isByte b -> isByte c -> isByte d ->
  strings.Index (dotted a b c d) "%" = None.
Proof.
  intros Ha Hb Hc Hd. unfold dotted, netip.string4. cbn [nth].
  assert (Hdot : forall s, strings.Index s "%" = None ->
                           strings.Index ("." ++ s) "%" = None).
  { intros s Hs. cbn. rewrite Hs. reflexivity. }
  apply Index_percent_octet; [exact Ha|]. apply Hdot.
  apply Index_percent_octet; [exact Hb|]. apply Hdot.
  apply Index_percent_octet; [exact Hc|]. apply Hdot.
  rewrite <- (append_nil_r (netip.appendDecimal d)).
  apply Index_percent_octet; [exact Hd | reflexivity].
Qed.

(** The digits of an octet are hexadecimal digits too: the field that
    starts a dotted quad ends at its first dot. *)
Lemma hexField_octet x rest :
  isByte x ->
  exists n acc,
    netip.hexField (netip.appendDecimal x ++ String "." rest) 0 0
    = Some (S n, acc, String "." rest).
Proof.
  intros Hx. revert x Hx. apply byte_cases. intros n Hn.
  each_byte n ltac:(do 2 eexists; reflexivity).
Qed.

(** One turn of the loop of [parseIPv6] at a trailing dotted quad. *)
Lemma parseIPv6_loop_embedded fuel t i e arr arr' n acc r :
  (i + 4 <= 16)%nat ->
  netip.hexField t 0 0 = Some (S n, acc, String "." r) ->
  netip.parseIPv4Fields t i arr = Some arr' ->
  netip.parseIPv6_loop (S fuel) t i (Some e) arr
  = Some {| netip.rest := ""; netip.idx := (i + 4)%nat;
            netip.ellipsis := Some e; netip.ip := arr' |}.
Proof.
  intros Hi Hhex Hv4. cbn [netip.parseIPv6_loop].
  destruct (16 <=? i)%nat eqn:H16; [apply Nat.leb_le in H16; lia|].
  rewrite Hhex. cbn [Nat.eqb netip.HasDot].
  destruct (16 <? i + 4)%nat eqn:H20; [apply Nat.ltb_lt in H20; lia|].
  rewrite Hv4. reflexivity.
Qed.

(** One turn of the loop at a group that a colon and a further group
    follow. *)
Lemma parseIPv6_loop_group fuel s i ell arr n acc c2 s3 :
  (i < 16)%nat ->
  netip.hexField s 0 0 = Some (S n, acc, String ":" (String c2 s3)) ->
  Ascii.eqb c2 ":" = false ->
  netip.parseIPv6_loop (S fuel) s i ell arr
  = netip.parseIPv6_loop fuel (String c2 s3) (i + 2) ell
      (netip.upd (S i) (acc mod 256) (netip.upd i (Z.shiftr acc 8 mod 256) arr)).
Proof.
  intros Hi Hhex Hc2. cbn [netip.parseIPv6_loop].
  destruct (16 <=? i)%nat eqn:H16; [apply Nat.leb_le in H16; lia|].
  rewrite Hhex. cbn [Nat.eqb netip.HasDot Ascii.eqb Bool.eqb negb].
  rewrite Hc2. reflexivity.
Qed.

Lemma parseIPv6_mapped a b c d :
  isByte a -> isByte b -> isByte c -> isByte d ->
  netip.parseIPv6 ("::ffff:" ++ dotted a b c d)
  = Some {| netip.bytes16 := (netip.v4prefix ++ [a; b; c; d])%list;
            netip.is4 := false; netip.zone := "" |}.
Proof.
  intros Ha Hb Hc Hd.
  pose proof (Index_percent_dotted a b c d Ha Hb Hc Hd) as Hpct.
  pose proof (parseIPv4Fields_dotted a b c d 2
                (netip.upd 1 255 (netip.upd 0 255 netip.zero16)) Ha Hb Hc Hd) as Hv4.
  destruct (hexField_octet a
              (netip.appendDecimal b ++ "." ++ netip.appendDecimal c ++ "."
               ++ netip.appendDecimal d) Ha) as (n & acc & Hhex).
  destruct (appendDecimal_head a Ha) as (c2 & s3 & Hhead & Hdig).
  assert (Hcolon : Ascii.eqb c2 ":" = false).
  { destruct (Ascii.eqb c2 ":") eqn:E; [|reflexivity].
    apply Ascii.eqb_eq in E. subst c2. discriminate Hdig. }
  change (netip.appendDecimal a ++ String "." _) with (dotted a b c d) in Hhex.
  assert (Ht : exists s4, dotted a b c d = String c2 s4).
  { unfold dotted, netip.string4. cbn [nth]. rewrite Hhead. eexists. reflexivity. }
  destruct Ht as (s4 & Ht).
  set (t := dotted a b c d) in *. clearbody t.
  unfold netip.parseIPv6, strings.Cut.
  assert (Hidx : strings.Index ("::ffff:" ++ t) "%" = None).
  { cbn. rewrite Hpct. reflexivity. }
  rewrite Hidx. cbn [andb].
  change (strings.HasPrefix ("::ffff:" ++ t) "::") with true. cbv iota.
  change (strings.drop 2 ("::ffff:" ++ t)) with ("ffff:" ++ t).
  change (String.eqb ("ffff:" ++ t) "") with false. cbv iota.
  assert (Hffff : netip.hexField ("ffff:" ++ t) 0 0
                  = Some (4%nat, 65535, String ":" (String c2 s4))).
  { rewrite Ht. reflexivity. }
  rewrite (parseIPv6_loop_group 7 _ 0 _ _ 3 65535 c2 s4 ltac:(lia) Hffff Hcolon).
  rewrite <- Ht.
  change (netip.upd 1 (65535 mod 256) (netip.upd 0 (Z.shiftr 65535 8 mod 256) netip.zero16))
    with (netip.upd 1 255 (netip.upd 0 255 netip.zero16)).
  change (0 + 2)%nat with 2%nat.
  rewrite (parseIPv6_loop_embedded 6 t 2 0 _ _ n acc _ ltac:(lia) Hhex Hv4).
  reflexivity.
Qed.

(** ** The discovery of the public address *)

Section Discovery.

Context {World : Type}.
Variable defaultClient : Z -> netutil.IpifyClient World.

Lemma Discover_echoed client (st : State World) w resp :
  discovery.echoed client st w resp ->
  snd (netutil.DiscoverIPv4ViaIpify defaultClient (Some client) st)
  = if negb (http.is2xx resp) then Err (errorString (http.Status resp))
    else match http.RespBody resp with
         | inl e => Err e
         | inr body =>
             match discovery.accepted body with
             | Some ip => Ok ip
             | None => Err discovery.invalidResponse
             end
         end.
Proof.
  intros (req & Hreq & Hdo).
  unfold netutil.DiscoverIPv4ViaIpify, bind, emit, liftE, ret, fail, panic, Do.
  rewrite Hreq. cbn [world trace]. rewrite Hdo.
  destruct (negb (http.is2xx resp)); [reflexivity|].
  destruct (http.RespBody resp) as [e|body]; [reflexivity|].
  unfold discovery.accepted.
  destruct (net.ParseIP body) as [parsed|]; [|reflexivity].
  destruct (net.To4 parsed); reflexivity.
Qed.

Lemma accepted_no_family body :
  family body <> Some "."%char -> family body <> Some ":"%char ->
  discovery.accepted body = None.
Proof.
  intros H4 H6. unfold discovery.accepted, net.ParseIP, netip.ParseAddr.
  rewrite ParseAddr_scan_family.
  destruct (family body) as [f|]; [|reflexivity].
  destruct (Ascii.eqb f ".") eqn:E4.
  { apply Ascii.eqb_eq in E4. subst f. now elim H4. }
  destruct (Ascii.eqb f ":") eqn:E6.
  { apply Ascii.eqb_eq in E6. subst f. now elim H6. }
  reflexivity.
Qed.

(** C6 (amended). For every body received with a 2xx status, the discovery
    succeeds if and only if the body is a well-formed dotted-decimal IPv4
    address, which it returns unchanged (the text is canonical), or an IPv6
    literal of an IPv4-mapped address, for which it returns the embedded
    IPv4 address in dotted-decimal form.  On every other body (an IPv6
    literal of another address, an empty body, a text without dot and
    colon, ...) it fails with "invalid IPv4 response". *)
Theorem C6_discovery_accepts_IPv4_and_IPv4_mapped client (st : State World) w resp body :
  discovery.echoed client st w resp ->
  http.is2xx resp = true ->
  http.RespBody resp = inr body ->
  let r := snd (netutil.DiscoverIPv4ViaIpify defaultClient (Some client) st) in
  (forall ip, r = Ok ip <-> (dottedQuad body /\ ip = body) \/ mappedLiteral body ip)
  /\ ((forall ip, r <> Ok ip) -> r = Err discovery.invalidResponse)
  /\ (family body <> Some "."%char -> family body <> Some ":"%char ->
      r = Err discovery.invalidResponse).
Proof.
  intros Hecho H2xx Hbody r.
  assert (Hr : r = match discovery.accepted body with
                   | Some ip => Ok ip
                   | None => Err discovery.invalidResponse
                   end).
  { subst r. rewrite (Discover_echoed _ _ _ _ Hecho), H2xx, Hbody. reflexivity. }
  split; [|split].
  - intros ip. rewrite <- accepted_iff, Hr.
    destruct (discovery.accepted body); split; intros H; inversion H; reflexivity.
  - intros Hno. rewrite Hr in *.
    destruct (discovery.accepted body) as [ip|]; [|reflexivity].
    now elim (Hno ip).
  - intros H4 H6. rewrite Hr, accepted_no_family by assumption. reflexivity.
Qed.

(** C10. Every body of the form ::ffff:a.b.c.d, an IPv6 literal of an
    IPv4-mapped address, received with a 2xx status is accepted: the
    discovery returns a.b.c.d. *)
Theorem C10_IPv4_mapped_literal_accepted client (st : State World) w resp a b c d :
  isByte a -> isByte b -> isByte c -> isByte d ->
  discovery.echoed client st w resp ->
  http.is2xx resp = true ->
  http.RespBody resp = inr ("::ffff:" ++ dotted a b c d) ->
  family ("::ffff:" ++ dotted a b c d) = Some ":"%char
  /\ snd (netutil.DiscoverIPv4ViaIpify defaultClient (Some client) st)
     = Ok (dotted a b c d).
Proof.
  intros Ha Hb Hc Hd Hecho H2xx Hbody. split; [reflexivity|].
  rewrite (Discover_echoed _ _ _ _ Hecho), H2xx, Hbody. cbn [negb].
  unfold discovery.accepted, net.ParseIP, netip.ParseAddr.
  change (netip.ParseAddr_scan ?i ("::ffff:" ++ ?t)) with (netip.parseIPv6 i).
  rewrite parseIPv6_mapped by assumption. cbn [netip.zone netip.bytes16 String.eqb].
  rewrite To4_v4prefix by reflexivity. reflexivity.
Qed.

End Discovery.

Lemma dottedQuad_family body : dottedQuad body -> family body = Some "."%char.
Proof.
  intros (a & b & c & d & Ha & _ & _ & _ & ->). apply family_dotted. exact Ha.
Qed.

Ltac echo := eexists; split; vm_compute; reflexivity.

(** C6 at the bodies 203.0.113.42 and the empty one. *)
Lemma C6_discovery_accepts_IPv4_and_IPv4_mapped_witness :
  snd (netutil.DiscoverIPv4ViaIpify stub.ipifyClient (Some (stub.ipifyClient 0))
         (stub.start stub.example_com "203.0.113.42"))
  = Ok "203.0.113.42"
  /\ snd (netutil.DiscoverIPv4ViaIpify stub.ipifyClient (Some (stub.ipifyClient 0))
            (stub.start stub.example_com ""))
     = Err discovery.invalidResponse.
Proof.
  split.
  - edestruct (C6_discovery_accepts_IPv4_and_IPv4_mapped stub.ipifyClient
                 (stub.ipifyClient 0) (stub.start stub.example_com "203.0.113.42"))
      as (Hiff & _ & _); [echo | compute_eq | compute_eq |].
    apply Hiff. left. split; [|reflexivity].
    exists 203, 0, 113, 42. unfold isByte. repeat split; lia.
  - edestruct (C6_discovery_accepts_IPv4_and_IPv4_mapped stub.ipifyClient
                 (stub.ipifyClient 0) (stub.start stub.example_com ""))
      as (_ & _ & Hnone); [echo | compute_eq | compute_eq |].
    apply Hnone; discriminate.
Defined.

(** C6 (as stated, refuted). The body ::ffff:203.0.113.42 is an IPv6
    literal, and not a dotted-decimal IPv4 address, yet the discovery
    succeeds on it. *)
Lemma C6_IPv6_literal_is_not_always_rejected :
  let body := "::ffff:203.0.113.42" in
  family body = Some ":"%char
  /\ netip.parseIPv6 body <> None
  /\ ~ dottedQuad body
  /\ snd (netutil.DiscoverIPv4ViaIpify stub.ipifyClient (Some (stub.ipifyClient 0))
            (stub.start stub.example_com body))
     = Ok "203.0.113.42".
Proof.
  cbv zeta. split; [reflexivity|]. split; [vm_compute; discriminate|].
  split; [|vm_compute; reflexivity].
  intros H. apply dottedQuad_family in H. discriminate H.
Qed.

(** C10 at the body ::ffff:203.0.113.42. *)
Lemma C10_IPv4_mapped_literal_accepted_witness :
  snd (netutil.DiscoverIPv4ViaIpify stub.ipifyClient (Some (stub.ipifyClient 0))
         (stub.start stub.example_com "::ffff:203.0.113.42"))
  = Ok "203.0.113.42".
Proof.
  edestruct (C10_IPv4_mapped_literal_accepted stub.ipifyClient (stub.ipifyClient 0)
               (stub.start stub.example_com "::ffff:203.0.113.42")
               {| stub.provider := stub.example_com; stub.echo := "::ffff:203.0.113.42" |}
               {| http.StatusCode := 200; http.Status := "200 OK";
                  http.RespBody := inr "::ffff:203.0.113.42" |}
               203 0 113 42)
    as (_ & H);
    [unfold isByte; lia | unfold isByte; lia | unfold isByte; lia | unfold isByte; lia
    | echo | compute_eq | compute_eq |].
  exact H.
Defined.

(** The rejections of the repository's tests. *)
Example discovery_rejects_other_bodies :
  let discover body :=
    snd (netutil.DiscoverIPv4ViaIpify stub.ipifyClient (Some (stub.ipifyClient 0))
           (stub.start stub.example_com body)) in
  discover "hello" = Err discovery.invalidResponse
  /\ discover "2001:db8::1" = Err discovery.invalidResponse
  /\ discover "" = Err discovery.invalidResponse
  /\ discover "203.0.113.042" = Err discovery.invalidResponse
  /\ discover "203.0.113" = Err discovery.invalidResponse.
Proof. cbv zeta. repeat split; vm_compute; reflexivity. Qed.

(** * Further properties of the code *)

Import more.

(** ** The operations of the client: errors and edges *)

Section ClientExtras.

Context {World : Type}.
Implicit Types (c : cloudflare.Client World) (st : State World).

(** X1. A status outside 200..299 is reported with its text by each of the
    four operations, whatever the body holds: the body is not decoded. *)
Theorem operations_report_non_2xx_status c st :
  (forall zoneName st' resp,
     zoneName <> "" ->
     answered c http.MethodGet (pathFindZoneID zoneName) None
              (called st (CallFindZoneID zoneName)) st' resp ->
     http.is2xx resp = false ->
     cloudflare.FindZoneID c zoneName st
     = (st', Err (errorString ("zones lookup failed: " ++ http.Status resp))))
  /\ (forall zoneID fqdn st' resp,
     zoneID <> "" -> fqdn <> "" ->
     answered c http.MethodGet (pathGetARecord zoneID fqdn) None
              (called st (CallGetARecord zoneID fqdn)) st' resp ->
     http.is2xx resp = false ->
     cloudflare.GetARecord c zoneID fqdn st
     = (st', Err (errorString ("get dns record failed: " ++ http.Status resp))))
  /\ (forall zoneID payload st' resp,
     answered c http.MethodPost (pathCreateARecord zoneID) (Some payload)
              (called st (CallCreateARecord zoneID payload)) st' resp ->
     http.is2xx resp = false ->
     cloudflare.CreateARecord c zoneID payload st
     = (st', Err (errorString ("create dns record failed: " ++ http.Status resp))))
  /\ (forall zoneID recordID payload st' resp,
     zoneID <> "" -> recordID <> "" ->
     answered c http.MethodPut (pathUpdateARecord zoneID recordID) (Some payload)
              (called st (CallUpdateARecord zoneID recordID payload)) st' resp ->
     http.is2xx resp = false ->
     cloudflare.UpdateARecord c zoneID recordID payload st
     = (st', Err (errorString ("update dns record failed: " ++ http.Status resp)))).
Proof.
  repeat split.
  - intros zoneName st' resp Hz Hans H2xx.
    rewrite (FindZoneID_answered c zoneName st st' resp Hz Hans), H2xx. reflexivity.
  - intros zoneID fqdn st' resp Hz Hf Hans H2xx.
    rewrite (GetARecord_answered c zoneID fqdn st st' resp Hz Hf Hans), H2xx. reflexivity.
  - intros zoneID payload st' resp Hans H2xx.
    rewrite (CreateARecord_answered c zoneID payload st st' resp Hans), H2xx. reflexivity.
  - intros zoneID recordID payload st' resp Hz Hr Hans H2xx.
    rewrite (UpdateARecord_answered c zoneID recordID payload st st' resp Hz Hr Hans), H2xx.
    reflexivity.
Qed.

(** X2. A 2xx body that does not decode as the envelope makes each of the four
    operations return the error of the decoder. *)
Theorem operations_return_decode_error c st :
  (forall zoneName st' resp err,
     zoneName <> "" ->
     answered c http.MethodGet (pathFindZoneID zoneName) None
              (called st (CallFindZoneID zoneName)) st' resp ->
     http.is2xx resp = true -> decodeZones (http.RespBody resp) = inl err ->
     cloudflare.FindZoneID c zoneName st = (st', Err err))
  /\ (forall zoneID fqdn st' resp err,
     zoneID <> "" -> fqdn <> "" ->
     answered c http.MethodGet (pathGetARecord zoneID fqdn) None
              (called st (CallGetARecord zoneID fqdn)) st' resp ->
     http.is2xx resp = true -> decodeRecords (http.RespBody resp) = inl err ->
     cloudflare.GetARecord c zoneID fqdn st = (st', Err err))
  /\ (forall zoneID payload st' resp err,
     answered c http.MethodPost (pathCreateARecord zoneID) (Some payload)
              (called st (CallCreateARecord zoneID payload)) st' resp ->
     http.is2xx resp = true -> decodeRecord (http.RespBody resp) = inl err ->
     cloudflare.CreateARecord c zoneID payload st = (st', Err err))
  /\ (forall zoneID recordID payload st' resp err,
     zoneID <> "" -> recordID <> "" ->
     answered c http.MethodPut (pathUpdateARecord zoneID recordID) (Some payload)
              (called st (CallUpdateARecord zoneID recordID payload)) st' resp ->
     http.is2xx resp = true -> decodeRecord (http.RespBody resp) = inl err ->
     cloudflare.UpdateARecord c zoneID recordID payload st = (st', Err err)).
Proof.
  repeat split.
  - intros zoneName st' resp err Hz Hans H2xx Hdec.
    rewrite (FindZoneID_answered c zoneName st st' resp Hz Hans), H2xx, Hdec. reflexivity.
  - intros zoneID fqdn st' resp err Hz Hf Hans H2xx Hdec.
    rewrite (GetARecord_answered c zoneID fqdn st st' resp Hz Hf Hans), H2xx, Hdec.
    reflexivity.
  - intros zoneID payload st' resp err Hans H2xx Hdec.
    rewrite (CreateARecord_answered c zoneID payload st st' resp Hans), H2xx, Hdec.
    reflexivity.
  - intros zoneID recordID payload st' resp err Hz Hr Hans H2xx Hdec.
    rewrite (UpdateARecord_answered c zoneID recordID payload st st' resp Hz Hr Hans),
      H2xx, Hdec.
    reflexivity.
Qed.

(** X3. [GetARecord]: a 2xx envelope with [success] true and an empty result
    list is the absence of the record, not an error. *)
Theorem GetARecord_absence_is_not_an_error c zoneID fqdn st st' resp out :
  zoneID <> "" -> fqdn <> "" ->
  answered c http.MethodGet (pathGetARecord zoneID fqdn) None
           (called st (CallGetARecord zoneID fqdn)) st' resp ->
  http.is2xx resp = true ->
  decodeRecords (http.RespBody resp) = inr out ->
  Success out = true ->
  Result out = [] ->
  cloudflare.GetARecord c zoneID fqdn st = (st', Ok None).
Proof.
  intros Hz Hf Hans H2xx Hdec Hs Hr.
  rewrite (GetARecord_answered c zoneID fqdn st st' resp Hz Hf Hans), H2xx, Hdec, Hs, Hr.
  reflexivity.
Qed.

(** X4. [CreateARecord] and [UpdateARecord]: on a 2xx envelope with [success]
    true the record returned is the one of the envelope, whatever the
    payload sent. *)
Theorem writes_return_the_record_of_the_provider c st :
  (forall zoneID payload st' resp out,
     answered c http.MethodPost (pathCreateARecord zoneID) (Some payload)
              (called st (CallCreateARecord zoneID payload)) st' resp ->
     http.is2xx resp = true -> decodeRecord (http.RespBody resp) = inr out ->
     Success out = true ->
     cloudflare.CreateARecord c zoneID payload st = (st', Ok (Result out)))
  /\ (forall zoneID recordID payload st' resp out,
     zoneID <> "" -> recordID <> "" ->
     answered c http.MethodPut (pathUpdateARecord zoneID recordID) (Some payload)
              (called st (CallUpdateARecord zoneID recordID payload)) st' resp ->
     http.is2xx resp = true -> decodeRecord (http.RespBody resp) = inr out ->
     Success out = true ->
     cloudflare.UpdateARecord c zoneID recordID payload st = (st', Ok (Result out))).
Proof.
  split.
  - intros zoneID payload st' resp out Hans H2xx Hdec Hs.
    rewrite (CreateARecord_answered c zoneID payload st st' resp Hans), H2xx, Hdec, Hs.
    reflexivity.
  - intros zoneID recordID payload st' resp out Hz Hr Hans H2xx Hdec Hs.
    rewrite (UpdateARecord_answered c zoneID recordID payload st st' resp Hz Hr Hans),
      H2xx, Hdec, Hs.
    reflexivity.
Qed.

(** X5. A missing argument is refused before anything is sent: [GetARecord],
    [UpdateARecord] and [UpsertARecord] return their error and the trace
    gains the call only; [UpsertARecord] does not enter [CreateARecord]. *)
Theorem missing_arguments_fail_before_any_request c st :
  (forall zoneID fqdn,
     zoneID = "" \/ fqdn = "" ->
     cloudflare.GetARecord c zoneID fqdn st
     = (called st (CallGetARecord zoneID fqdn),
        Err (errorString "zoneID and fqdn are required")))
  /\ (forall zoneID recordID payload,
     zoneID = "" \/ recordID = "" ->
     cloudflare.UpdateARecord c zoneID recordID payload st
     = (called st (CallUpdateARecord zoneID recordID payload),
        Err (errorString "zoneID and recordID are required")))
  /\ (forall zoneID name ip ttl proxied,
     zoneID = "" \/ name = "" \/ ip = "" ->
     cloudflare.UpsertARecord c zoneID name ip ttl proxied st
     = (called st (CallUpsertARecord zoneID name ip ttl proxied),
        Err (errorString "zoneID, name, and ip are required"))).
Proof.
  repeat split.
  - intros zoneID fqdn H. unfold cloudflare.GetARecord, bind, emit, fail.
    fold (called st (CallGetARecord zoneID fqdn)).
    destruct H as [-> | ->]; cbn [String.eqb orb]; [reflexivity|].
    rewrite orb_true_r. reflexivity.
  - intros zoneID recordID payload H. unfold cloudflare.UpdateARecord, bind, emit, fail.
    fold (called st (CallUpdateARecord zoneID recordID payload)).
    destruct H as [-> | ->]; cbn [String.eqb orb]; [reflexivity|].
    rewrite orb_true_r. reflexivity.
  - intros zoneID name ip ttl proxied H. unfold cloudflare.UpsertARecord, bind, emit, fail.
    fold (called st (CallUpsertARecord zoneID name ip ttl proxied)).
    destruct H as [-> | [-> | ->]]; cbn [String.eqb orb]; [reflexivity | |].
    + rewrite orb_true_r. reflexivity.
    + rewrite orb_true_r. reflexivity.
Qed.

(** X6. Whatever the arguments and the world, each operation hands at most one
    request to the transport, of its own method: GET for the two lookups,
    POST for the creation (also through [UpsertARecord]), PUT for the
    update. *)
Theorem operations_send_at_most_one_request c st :
  (forall zoneName,
     oneCall st (fst (cloudflare.FindZoneID c zoneName st))
             (CallFindZoneID zoneName) http.MethodGet)
  /\ (forall zoneID fqdn,
     oneCall st (fst (cloudflare.GetARecord c zoneID fqdn st))
             (CallGetARecord zoneID fqdn) http.MethodGet)
  /\ (forall zoneID payload,
     oneCall st (fst (cloudflare.CreateARecord c zoneID payload st))
             (CallCreateARecord zoneID payload) http.MethodPost)
  /\ (forall zoneID recordID payload,
     oneCall st (fst (cloudflare.UpdateARecord c zoneID recordID payload st))
             (CallUpdateARecord zoneID recordID payload) http.MethodPut)
  /\ (forall zoneID name ip ttl proxied,
     exists tail,
       trace (fst (cloudflare.UpsertARecord c zoneID name ip ttl proxied st))
       = (trace st ++ EvCall (CallUpsertARecord zoneID name ip ttl proxied) :: tail)%list
       /\ (tail = []
           \/ exists payload rest,
                tail = EvCall (CallCreateARecord zoneID payload) :: rest
                /\ atMostOne http.MethodPost rest)).
Proof.
  repeat split.
  - intros zoneName. destruct (cloudflare.FindZoneID c zoneName st) as [st' r] eqn:H.
    exact (FindZoneID_trace _ _ _ _ _ H).
  - intros zoneID fqdn. destruct (cloudflare.GetARecord c zoneID fqdn st) as [st' r] eqn:H.
    exact (GetARecord_trace _ _ _ _ _ _ H).
  - intros zoneID payload.
    destruct (cloudflare.CreateARecord c zoneID payload st) as [st' r] eqn:H.
    exact (CreateARecord_trace _ _ _ _ _ _ H).
  - intros zoneID recordID payload.
    destruct (cloudflare.UpdateARecord c zoneID recordID payload st) as [st' r] eqn:H.
    exact (UpdateARecord_trace _ _ _ _ _ _ _ H).
  - intros zoneID name ip ttl proxied.
    unfold cloudflare.UpsertARecord. unfold bind at 1, emit at 1.
    fold (called st (CallUpsertARecord zoneID name ip ttl proxied)).
    destruct (_ || _).
    + exists []. split; [reflexivity | now left].
    + match goal with
      | |- context [cloudflare.CreateARecord c zoneID ?p ?s] =>
          destruct (cloudflare.CreateARecord c zoneID p s) as [st' r] eqn:H
      end.
      apply CreateARecord_trace in H. destruct H as (rest & Htr & Hrest).
      cbn [called trace] in Htr.
      eexists. split.
      * destruct r; cbn [fst]; rewrite Htr, <- app_assoc; reflexivity.
      * right. do 2 eexists. split; [reflexivity | exact Hrest].
Qed.

(** X7. A failure of the round trip (connection, deadline, cancellation) is
    returned as it is by each of the four operations. *)
Theorem operations_return_transport_error c st :
  (forall zoneName st' err,
     zoneName <> "" ->
     refused c http.MethodGet (pathFindZoneID zoneName) None
             (called st (CallFindZoneID zoneName)) st' err ->
     cloudflare.FindZoneID c zoneName st = (st', Err err))
  /\ (forall zoneID fqdn st' err,
     zoneID <> "" -> fqdn <> "" ->
     refused c http.MethodGet (pathGetARecord zoneID fqdn) None
             (called st (CallGetARecord zoneID fqdn)) st' err ->
     cloudflare.GetARecord c zoneID fqdn st = (st', Err err))
  /\ (forall zoneID payload st' err,
     refused c http.MethodPost (pathCreateARecord zoneID) (Some payload)
             (called st (CallCreateARecord zoneID payload)) st' err ->
     cloudflare.CreateARecord c zoneID payload st = (st', Err err))
  /\ (forall zoneID recordID payload st' err,
     zoneID <> "" -> recordID <> "" ->
     refused c http.MethodPut (pathUpdateARecord zoneID recordID) (Some payload)
             (called st (CallUpdateARecord zoneID recordID payload)) st' err ->
     cloudflare.UpdateARecord c zoneID recordID payload st = (st', Err err)).
Proof.
  repeat split.
  - intros zoneName st' err Hz (u & req & Hu & Hreq & Hdo). unfold pathFindZoneID in Hu.
    unfold cloudflare.FindZoneID, cloudflare.buildURL_, bind, emit, liftE, ret, fail, panic.
    fold (called st (CallFindZoneID zoneName)).
    rewrite (eqb_neq_false _ _ Hz), Hu, Hreq, Hdo. reflexivity.
  - intros zoneID fqdn st' err Hz Hf (u & req & Hu & Hreq & Hdo). unfold pathGetARecord in Hu.
    unfold cloudflare.GetARecord, cloudflare.buildURL_, bind, emit, liftE, ret, fail, panic.
    fold (called st (CallGetARecord zoneID fqdn)).
    rewrite (eqb_neq_false _ _ Hz), (eqb_neq_false _ _ Hf). cbn [orb]. cbv zeta.
    rewrite Hu, Hreq, Hdo. reflexivity.
  - intros zoneID payload st' err (u & req & Hu & Hreq & Hdo). unfold pathCreateARecord in Hu.
    unfold cloudflare.CreateARecord, cloudflare.buildURL_, bind, emit, liftE, ret, fail, panic.
    fold (called st (CallCreateARecord zoneID payload)).
    rewrite Hu, Hreq, Hdo. reflexivity.
  - intros zoneID recordID payload st' err Hz Hr (u & req & Hu & Hreq & Hdo).
    unfold pathUpdateARecord in Hu.
    unfold cloudflare.UpdateARecord, cloudflare.buildURL_, bind, emit, liftE, ret, fail, panic.
    fold (called st (CallUpdateARecord zoneID recordID payload)).
    rewrite (eqb_neq_false _ _ Hz), (eqb_neq_false _ _ Hr). cbn [orb].
    rewrite Hu, Hreq, Hdo. reflexivity.
Qed.

End ClientExtras.

(** *** These properties at the stub transports *)

(** [with_answer H c m p b st k]: prove that the request is answered, then
    continue with the proof [H] of it. *)
Ltac with_answer H c m p b st :=
  eassert (H : answered c m p b st _ _) by answer.

Ltac with_refusal H c m p b st :=
  eassert (H : refused c m p b st _ _) by answer.

Lemma operations_report_non_2xx_status_witness :
  let c := stub.clientOn (stub.serverError None 0) in
  let st := stub.start stub.example_com "" in
  snd (cloudflare.FindZoneID c "example.com" st)
  = Err (errorString "zones lookup failed: 500 Internal Server Error")
  /\ snd (cloudflare.GetARecord c "zid" "a.example.com" st)
     = Err (errorString "get dns record failed: 500 Internal Server Error")
  /\ snd (cloudflare.CreateARecord c "zid" stub.home9 st)
     = Err (errorString "create dns record failed: 500 Internal Server Error")
  /\ snd (cloudflare.UpdateARecord c "zid" "rid" stub.home9 st)
     = Err (errorString "update dns record failed: 500 Internal Server Error").
Proof.
  intros c st.
  destruct (operations_report_non_2xx_status c st) as (Hfind & Hget & Hcreate & Hupdate).
  split; [|split; [|split]].
  - with_answer H c http.MethodGet (pathFindZoneID "example.com") (@None DNSRecord.t)
      (called st (CallFindZoneID "example.com")).
    rewrite (Hfind "example.com" _ _ ltac:(discriminate) H ltac:(compute_eq)). reflexivity.
  - with_answer H c http.MethodGet (pathGetARecord "zid" "a.example.com")
      (@None DNSRecord.t) (called st (CallGetARecord "zid" "a.example.com")).
    rewrite (Hget "zid" "a.example.com" _ _ ltac:(discriminate) ltac:(discriminate) H ltac:(compute_eq)).
    reflexivity.
  - with_answer H c http.MethodPost (pathCreateARecord "zid") (Some stub.home9)
      (called st (CallCreateARecord "zid" stub.home9)).
    rewrite (Hcreate _ _ _ _ H ltac:(compute_eq)). reflexivity.
  - with_answer H c http.MethodPut (pathUpdateARecord "zid" "rid") (Some stub.home9)
      (called st (CallUpdateARecord "zid" "rid" stub.home9)).
    rewrite (Hupdate "zid" "rid" _ _ _ ltac:(discriminate) ltac:(discriminate) H ltac:(compute_eq)).
    reflexivity.
Defined.

Lemma operations_return_decode_error_witness :
  let c := stub.clientOn (stub.garbage None 0) in
  let st := stub.start stub.example_com "" in
  snd (cloudflare.FindZoneID c "example.com" st) = Err stub.malformed
  /\ snd (cloudflare.GetARecord c "zid" "a.example.com" st) = Err stub.malformed
  /\ snd (cloudflare.CreateARecord c "zid" stub.home9 st) = Err stub.malformed
  /\ snd (cloudflare.UpdateARecord c "zid" "rid" stub.home9 st) = Err stub.malformed.
Proof.
  intros c st.
  destruct (operations_return_decode_error c st) as (Hfind & Hget & Hcreate & Hupdate).
  split; [|split; [|split]].
  - with_answer H c http.MethodGet (pathFindZoneID "example.com") (@None DNSRecord.t)
      (called st (CallFindZoneID "example.com")).
    erewrite (Hfind "example.com" _ _ _ ltac:(discriminate) H ltac:(compute_eq)); [reflexivity|].
    compute_eq.
  - with_answer H c http.MethodGet (pathGetARecord "zid" "a.example.com")
      (@None DNSRecord.t) (called st (CallGetARecord "zid" "a.example.com")).
    erewrite (Hget "zid" "a.example.com" _ _ _ ltac:(discriminate) ltac:(discriminate) H ltac:(compute_eq));
      [reflexivity|]. compute_eq.
  - with_answer H c http.MethodPost (pathCreateARecord "zid") (Some stub.home9)
      (called st (CallCreateARecord "zid" stub.home9)).
    erewrite (Hcreate _ _ _ _ _ H ltac:(compute_eq)); [reflexivity|]. compute_eq.
  - with_answer H c http.MethodPut (pathUpdateARecord "zid" "rid") (Some stub.home9)
      (called st (CallUpdateARecord "zid" "rid" stub.home9)).
    erewrite (Hupdate "zid" "rid" _ _ _ _ ltac:(discriminate) ltac:(discriminate) H
                ltac:(compute_eq)); [reflexivity|]. compute_eq.
Defined.

Lemma GetARecord_absence_is_not_an_error_witness :
  exists st',
    cloudflare.GetARecord stub.testClient "abc123" "b.example.com"
      (stub.start stub.noRecords "") = (st', Ok None).
Proof.
  eexists.
  eapply GetARecord_absence_is_not_an_error;
    [discriminate | discriminate | answer | compute_eq | compute_eq
    | compute_eq | compute_eq].
Defined.

Lemma writes_return_the_record_of_the_provider_witness :
  snd (cloudflare.CreateARecord stub.testClient "abc123" stub.home9
         (stub.start stub.noRecords ""))
  = Ok (stub.record "rid" "home" "203.0.113.9" 1 false)
  /\ snd (cloudflare.UpdateARecord stub.testClient "abc123" "rid" stub.home9
            (stub.start stub.example_com ""))
     = Ok (stub.record "rid" "home" "203.0.113.9" 1 false).
Proof.
  split.
  - with_answer H stub.testClient http.MethodPost (pathCreateARecord "abc123")
      (Some stub.home9) (called (stub.start stub.noRecords "") (CallCreateARecord "abc123" stub.home9)).
    erewrite (proj1 (writes_return_the_record_of_the_provider stub.testClient _)
                _ _ _ _ _ H ltac:(compute_eq));
      [ | compute_eq | compute_eq]; reflexivity.
  - with_answer H stub.testClient http.MethodPut (pathUpdateARecord "abc123" "rid")
      (Some stub.home9)
      (called (stub.start stub.example_com "") (CallUpdateARecord "abc123" "rid" stub.home9)).
    erewrite (proj2 (writes_return_the_record_of_the_provider stub.testClient _)
                "abc123" "rid" _ _ _ _ ltac:(discriminate) ltac:(discriminate) H ltac:(compute_eq));
      [ | compute_eq | compute_eq]; reflexivity.
Defined.

Lemma missing_arguments_fail_before_any_request_witness :
  let st := stub.start stub.example_com "" in
  requests (trace (fst (cloudflare.GetARecord stub.testClient "" "a.example.com" st))) = []
  /\ requests (trace (fst (cloudflare.UpdateARecord stub.testClient "zid" "" stub.home9 st))) = []
  /\ calls (trace (fst (cloudflare.UpsertARecord stub.testClient "zid" "" "203.0.113.9" 1
                          false st)))
     = [CallUpsertARecord "zid" "" "203.0.113.9" 1 false].
Proof.
  cbv zeta.
  destruct (missing_arguments_fail_before_any_request stub.testClient
              (stub.start stub.example_com ""))
    as (Hget & Hupdate & Hupsert).
  rewrite Hget by (now left). rewrite Hupdate by (now right).
  rewrite Hupsert by (right; now left).
  repeat split.
Defined.

Lemma operations_return_transport_error_witness :
  let c := stub.clientOn (stub.refusing None 0) in
  let st := stub.start stub.example_com "" in
  let refusal := errorString "connection refused" in
  snd (cloudflare.FindZoneID c "example.com" st) = Err refusal
  /\ snd (cloudflare.GetARecord c "zid" "a.example.com" st) = Err refusal
  /\ snd (cloudflare.CreateARecord c "zid" stub.home9 st) = Err refusal
  /\ snd (cloudflare.UpdateARecord c "zid" "rid" stub.home9 st) = Err refusal.
Proof.
  intros c st refusal.
  destruct (operations_return_transport_error c st) as (Hfind & Hget & Hcreate & Hupdate).
  split; [|split; [|split]].
  - with_refusal H c http.MethodGet (pathFindZoneID "example.com") (@None DNSRecord.t)
      (called st (CallFindZoneID "example.com")).
    rewrite (Hfind "example.com" _ _ ltac:(discriminate) H). reflexivity.
  - with_refusal H c http.MethodGet (pathGetARecord "zid" "a.example.com")
      (@None DNSRecord.t) (called st (CallGetARecord "zid" "a.example.com")).
    rewrite (Hget "zid" "a.example.com" _ _ ltac:(discriminate) ltac:(discriminate) H). reflexivity.
  - with_refusal H c http.MethodPost (pathCreateARecord "zid") (Some stub.home9)
      (called st (CallCreateARecord "zid" stub.home9)).
    rewrite (Hcreate _ _ _ _ H). reflexivity.
  - with_refusal H c http.MethodPut (pathUpdateARecord "zid" "rid") (Some stub.home9)
      (called st (CallUpdateARecord "zid" "rid" stub.home9)).
    rewrite (Hupdate "zid" "rid" _ _ _ ltac:(discriminate) ltac:(discriminate) H). reflexivity.
Defined.

(** ** The dispatch routine and the construction of the client *)

Lemma Header_Get_Set_same (h : http.Header) key value :
  http.Header_Get (http.Header_Set h key value) key = value.
Proof.
  induction h as [|[k v] h IH]; cbn.
  - rewrite String.eqb_refl. reflexivity.
  - destruct (String.eqb k key) eqn:E; cbn; rewrite E; [reflexivity | exact IH].
Qed.

Lemma Header_Get_Set_other (h : http.Header) key value key' :
  key <> key' ->
  http.Header_Get (http.Header_Set h key value) key' = http.Header_Get h key'.
Proof.
  intros Hne. induction h as [|[k v] h IH]; cbn.
  - rewrite (eqb_neq_false _ _ Hne). reflexivity.
  - destruct (String.eqb k key) eqn:E; cbn.
    + apply String.eqb_eq in E. subst k. rewrite (eqb_neq_false _ _ Hne). reflexivity.
    + destruct (String.eqb k key'); [reflexivity | exact IH].
Qed.

Lemma Do_trace {World Req Resp} (ev : http.Request Req -> Event)
    (d : Doer World Req Resp) req (st : State World) :
  trace (fst (Do ev d req st)) = (trace st ++ [ev req])%list.
Proof. unfold Do. destruct (d (world st) req). reflexivity. Qed.

Section Dispatch.

Context {World TLSConfig : Type}.
Variable defaultClient : option TLSConfig -> Z -> cloudflare.HTTPClient World.
Implicit Types (c : cloudflare.Client World) (st : State World).

Lemma do_credentialed c req st :
  credentialed c ->
  cloudflare.do c req st = Do EvRoundTrip (cloudflare.httpClient c) (decorated c req) st.
Proof.
  unfold credentialed, cloudflare.do, decorated.
  destruct (cloudflare.authMode c).
  - intros [He Hk]. rewrite (eqb_neq_false _ _ He), (eqb_neq_false _ _ Hk). reflexivity.
  - intros Ht. rewrite (eqb_neq_false _ _ Ht). reflexivity.
Qed.

Lemma New_credentialed opts c :
  cloudflare.New defaultClient opts = inr c -> credentialed c.
Proof.
  unfold cloudflare.New, credentialed.
  set (o := cloudflare.applyOptions opts).
  pose proof (haveGlobal_spec o) as Hg. pose proof (haveToken_spec o) as Ht.
  destruct (cloudflare.haveGlobal o), (cloudflare.haveToken o); cbn [andb];
    try discriminate;
    (destruct (url.Parse _); [|discriminate]); intros H; inversion H; subst; cbn.
  - now apply Hg.
  - now apply Ht.
Qed.

(** X8. [do] with a complete credential hands the request to the transport of
    the client with its method, URL and body unchanged, with the JSON
    content type, the user agent of the client and the headers of the one
    active variant (the bearer token, or the email and the key); every
    other header is left as it was.  The result is the one of the
    transport. *)
Theorem do_attaches_the_headers_of_the_credential c req st :
  credentialed c ->
  exists req',
    cloudflare.do c req st = Do EvRoundTrip (cloudflare.httpClient c) req' st
    /\ http.Method req' = http.Method req
    /\ http.URL req' = http.URL req
    /\ http.Body req' = http.Body req
    /\ http.Header_Get (http.Header_ req') "Content-Type" = "application/json"
    /\ http.Header_Get (http.Header_ req') "User-Agent" = cloudflare.userAgent c
    /\ match cloudflare.authMode c with
       | cloudflare.AuthAPIToken =>
           http.Header_Get (http.Header_ req') "Authorization"
           = "Bearer " ++ cloudflare.apiToken c
       | cloudflare.AuthGlobalKey =>
           http.Header_Get (http.Header_ req') "X-Auth-Email" = cloudflare.email c
           /\ http.Header_Get (http.Header_ req') "X-Auth-Key" = cloudflare.globalKey c
       end
    /\ (forall key,
          ~ In key ("Content-Type" :: "User-Agent" :: authKeys (cloudflare.authMode c)) ->
          http.Header_Get (http.Header_ req') key = http.Header_Get (http.Header_ req) key).
Proof.
  intros Hc. exists (decorated c req).
  split; [apply do_credentialed; exact Hc|].
  unfold decorated, cloudflare.setHeader, authKeys,
    cloudflare.headerContentType, cloudflare.headerUserAgent,
    cloudflare.headerAuthEmail, cloudflare.headerAuthKey, cloudflare.headerAuthz.
  destruct (cloudflare.authMode c); cbn [http.Method http.URL http.Body http.Header_].
  - repeat split.
    + rewrite !Header_Get_Set_other by discriminate. apply Header_Get_Set_same.
    + rewrite !Header_Get_Set_other by discriminate. apply Header_Get_Set_same.
    + rewrite Header_Get_Set_other by discriminate. apply Header_Get_Set_same.
    + apply Header_Get_Set_same.
    + intros key Hkey. cbn [In] in Hkey.
      rewrite !Header_Get_Set_other; [reflexivity | | | |]; intros <-; tauto.
  - repeat split.
    + rewrite !Header_Get_Set_other by discriminate. apply Header_Get_Set_same.
    + rewrite !Header_Get_Set_other by discriminate. apply Header_Get_Set_same.
    + apply Header_Get_Set_same.
    + intros key Hkey. cbn [In] in Hkey.
      rewrite !Header_Get_Set_other; [reflexivity | | |]; intros <-; tauto.
Qed.

(** X9. [do] with an incomplete credential sends nothing: it returns its error
    and leaves the state as it was. *)
Theorem do_without_credential_sends_nothing c req st :
  ~ credentialed c ->
  cloudflare.do c req st
  = (st, Err (errorString match cloudflare.authMode c with
                          | cloudflare.AuthGlobalKey => "missing global key credentials"
                          | cloudflare.AuthAPIToken => "missing API token"
                          end)).
Proof.
  unfold credentialed, cloudflare.do, fail.
  destruct (cloudflare.authMode c); intros Hc.
  - destruct (String.eqb (cloudflare.email c) "") eqn:He; [reflexivity|].
    destruct (String.eqb (cloudflare.globalKey c) "") eqn:Hk; [reflexivity|].
    exfalso. apply Hc. split; now apply String.eqb_neq.
  - destruct (String.eqb (cloudflare.apiToken c) "") eqn:Ht; [reflexivity|].
    exfalso. apply Hc. now apply String.eqb_neq.
Qed.

(** X10. A client that [New] returns has a complete credential for its mode
    and a user agent that is not blank (the option's, or the default when
    the option is blank); its transport is the injected one when there is
    one.  Hence the credential check of [do] never fires on it: every
    request reaches the transport. *)
Theorem New_establishes_the_invariants_of_the_client opts c :
  cloudflare.New defaultClient opts = inr c ->
  let o := cloudflare.applyOptions opts in
  credentialed c
  /\ strings.TrimSpace (cloudflare.userAgent c) <> ""
  /\ (strings.TrimSpace (cloudflare.UserAgent o) <> "" ->
      cloudflare.userAgent c = cloudflare.UserAgent o)
  /\ (forall t, cloudflare.HTTPClient_ o = Some t -> cloudflare.httpClient c = t)
  /\ (forall req st,
        cloudflare.do c req st
        = Do EvRoundTrip (cloudflare.httpClient c) (decorated c req) st).
Proof.
  intros Hnew o. pose proof (New_credentialed _ _ Hnew) as Hcred.
  split; [exact Hcred|].
  assert (Hfields :
    cloudflare.userAgent c
    = (if String.eqb (strings.TrimSpace (cloudflare.UserAgent o)) ""
       then cloudflare.defaultUserAgent else cloudflare.UserAgent o)
    /\ cloudflare.httpClient c
       = match cloudflare.HTTPClient_ o with
         | Some t => t
         | None => defaultClient (cloudflare.TLSConfig_ o)
                     (if cloudflare.Timeout o =? 0 then cloudflare.defaultHTTPTimeout
                      else cloudflare.Timeout o)
         end).
  { revert Hnew. unfold cloudflare.New. fold o.
    destruct (cloudflare.haveGlobal o && cloudflare.haveToken o); [discriminate|].
    destruct (if cloudflare.haveGlobal o then _ else _); [|discriminate].
    destruct (url.Parse _); [|discriminate].
    intros H; inversion H; subst. split; reflexivity. }
  destruct Hfields as (Hua & Hclient).
  repeat split.
  - rewrite Hua. destruct (String.eqb (strings.TrimSpace (cloudflare.UserAgent o)) "") eqn:E.
    + vm_compute. discriminate.
    + now apply String.eqb_neq.
  - intros Hnb. rewrite Hua, (eqb_neq_false _ _ Hnb). reflexivity.
  - intros t Ht. rewrite Hclient, Ht. reflexivity.
  - intros req st. apply do_credentialed. exact Hcred.
Qed.

End Dispatch.

Lemma do_attaches_the_headers_of_the_credential_witness :
  let req : http.Request DNSRecord.t :=
    {| http.Method := "GET"; http.URL := url.emptyURL; http.Header_ := [];
       http.Body := None |} in
  exists req',
    requests (trace (fst (cloudflare.do stub.testClient req
                            (stub.start stub.example_com ""))))
    = [req']
    /\ http.Header_Get (http.Header_ req') "Authorization" = "Bearer tok"
    /\ http.Header_Get (http.Header_ req') "X-Auth-Email" = ""
    /\ http.Header_Get (http.Header_ req') "User-Agent" = cloudflare.defaultUserAgent.
Proof.
  intros req.
  destruct (do_attaches_the_headers_of_the_credential stub.testClient req
              (stub.start stub.example_com ""))
    as (req' & Hdo & _ & _ & _ & _ & Hua & Hauth & Hother).
  { vm_compute. discriminate. }
  exists req'. rewrite Hdo, Do_trace. split; [reflexivity|]. split; [exact Hauth|].
  split; [|exact Hua].
  rewrite Hother; [reflexivity|]. cbn. intros [H|[H|[H|[]]]]; discriminate H.
Defined.

Lemma do_without_credential_sends_nothing_witness :
  cloudflare.do stub.zeroClient
    {| http.Method := "GET"; http.URL := url.emptyURL; http.Header_ := [];
       http.Body := None |} (stub.start stub.example_com "")
  = (stub.start stub.example_com "",
     Err (errorString "missing global key credentials")).
Proof.
  rewrite do_without_credential_sends_nothing; [reflexivity|].
  intros [H _]. apply H. reflexivity.
Defined.

Lemma New_establishes_the_invariants_of_the_client_witness :
  credentialed (stub.clientOn (stub.refusing None 0))
  /\ cloudflare.userAgent (stub.clientOn (stub.refusing None 0))
     = cloudflare.defaultUserAgent.
Proof.
  destruct (New_establishes_the_invariants_of_the_client stub.cfClient
              [cloudflare.WithAPIToken "tok";
               cloudflare.WithBaseURL "http://127.0.0.1:8080";
               cloudflare.WithHTTPClient (Some (stub.refusing None 0))]
              (stub.clientOn (stub.refusing None 0)) eq_refl)
    as (Hcred & _).
  split; [exact Hcred | reflexivity].
Defined.

(** ** The base URL and the URLs built from it *)

Lemma escape_app a b mode :
  url.escape (a ++ b) mode = url.escape a mode ++ url.escape b mode.
Proof.
  induction a as [|c a IH]; [reflexivity|]. cbn [append url.escape].
  destruct (Ascii.eqb c " " && url.isQueryMode mode); [cbn; now rewrite IH|].
  destruct (url.shouldEscape c mode); cbn; now rewrite IH.
Qed.

Lemma escape_byte_slashFree (c : ascii) :
  c = "/"%char \/ slashFree (url.escape (String c "") url.encodePath).
Proof.
  destruct c as [[] [] [] [] [] [] [] []];
    first [left; reflexivity | right; reflexivity].
Qed.

Lemma HasPrefix_empty s : strings.HasPrefix s "" = true.
Proof. destruct s; reflexivity. Qed.

Lemma HasPrefix_slash_cons c s : strings.HasPrefix (String c s) "/" = Ascii.eqb "/" c.
Proof.
  change (strings.HasPrefix (String c s) "/")
    with (Ascii.eqb "/" c && strings.HasPrefix s "").
  rewrite HasPrefix_empty. apply andb_true_r.
Qed.

Lemma Index_slash_cons c s :
  strings.Index (String c s) "/"
  = if Ascii.eqb "/" c then Some 0%nat else option_map S (strings.Index s "/").
Proof.
  change (strings.Index (String c s) "/")
    with (if strings.HasPrefix (String c s) "/" then Some 0%nat
          else option_map S (strings.Index s "/")).
  rewrite HasPrefix_slash_cons. reflexivity.
Qed.

Lemma slashFree_app a b : slashFree a -> slashFree b -> slashFree (a ++ b).
Proof.
  unfold slashFree. induction a as [|c a IH]; intros Ha Hb; [exact Hb|].
  cbn [append]. rewrite Index_slash_cons in *.
  destruct (Ascii.eqb "/" c); [discriminate|].
  destruct (strings.Index a "/") eqn:E; [discriminate|].
  rewrite IH by (reflexivity || assumption). reflexivity.
Qed.

Lemma slashFree_escape l : slashFree l -> slashFree (url.escape l url.encodePath).
Proof.
  induction l as [|c l IH]; intros Hl; [reflexivity|].
  change (String c l) with (String c "" ++ l). rewrite escape_app.
  unfold slashFree in Hl. rewrite Index_slash_cons in Hl.
  destruct (Ascii.eqb "/" c) eqn:Ec; [discriminate|].
  destruct (strings.Index l "/") eqn:El; [discriminate|].
  apply slashFree_app.
  - destruct (escape_byte_slashFree c) as [-> | H]; [discriminate Ec | exact H].
  - apply IH. exact El.
Qed.

Lemma slashFree_LastIndex l : slashFree l -> strings.LastIndex l "/" = None.
Proof.
  unfold slashFree. induction l as [|c l IH]; intros Hl; [reflexivity|].
  rewrite Index_slash_cons in Hl.
  destruct (Ascii.eqb "/" c) eqn:Ec; [discriminate|].
  destruct (strings.Index l "/") eqn:El; [discriminate|].
  cbn [strings.LastIndex]. rewrite IH by reflexivity.
  rewrite HasPrefix_slash_cons, Ec. reflexivity.
Qed.

(** The directory of a path: everything up to its last slash. *)
Lemma directory_of_path dir last :
  slashFree last ->
  strings.LastIndex (dir ++ "/" ++ last) "/" = Some (String.length dir)
  /\ strings.take (S (String.length dir)) (dir ++ "/" ++ last) = dir ++ "/".
Proof.
  intros Hl. change ("/" ++ last) with (String "/" last).
  induction dir as [|c dir [IH1 IH2]].
  - cbn [append String.length strings.LastIndex].
    rewrite (slashFree_LastIndex _ Hl), HasPrefix_slash_cons. split; reflexivity.
  - cbn [append String.length strings.LastIndex]. rewrite IH1. split; [reflexivity|].
    cbn [strings.take]. f_equal. exact IH2.
Qed.

Lemma resolvePath_ignores_last_segment dir last1 last2 ref :
  slashFree last1 -> slashFree last2 -> ref <> "" ->
  url.resolvePath (dir ++ "/" ++ last1) ref = url.resolvePath (dir ++ "/" ++ last2) ref.
Proof.
  intros H1 H2 Href. unfold url.resolvePath.
  rewrite (eqb_neq_false _ _ Href).
  destruct (directory_of_path dir last1 H1) as [-> ->].
  destruct (directory_of_path dir last2 H2) as [-> ->].
  reflexivity.
Qed.

Lemma escape_nonempty s mode : s <> "" -> url.escape s mode <> "".
Proof.
  destruct s as [|c s]; [congruence|]. intros _. cbn.
  destruct (Ascii.eqb c " " && url.isQueryMode mode); [discriminate|].
  destruct (url.shouldEscape c mode); discriminate.
Qed.

Lemma EscapedPath_nonempty u : url.Path u <> "" -> url.EscapedPath u <> "".
Proof.
  intros Hp. unfold url.EscapedPath.
  destruct (String.eqb (url.RawPath u) "") eqn:Hraw; cbn [negb andb].
  - destruct (String.eqb (url.Path u) "*"); [discriminate|].
    apply escape_nonempty. exact Hp.
  - destruct (url.validEncoded _ _ && _).
    + now apply String.eqb_neq.
    + destruct (String.eqb (url.Path u) "*"); [discriminate|].
      apply escape_nonempty. exact Hp.
Qed.

Lemma EscapedPath_of_plain_path u dir last :
  url.RawPath u = "" -> url.Path u = dir ++ "/" ++ last ->
  url.EscapedPath u
  = url.escape dir url.encodePath ++ "/" ++ url.escape last url.encodePath.
Proof.
  intros Hraw Hpath. unfold url.EscapedPath. rewrite Hraw, Hpath. cbn [String.eqb negb andb].
  assert (Hstar : String.eqb (dir ++ "/" ++ last) "*" = false).
  { destruct dir as [|c [|c' dir]]; cbn; try reflexivity.
    - destruct (Ascii.eqb c "*"); reflexivity.
    - destruct (Ascii.eqb c "*"); reflexivity. }
  rewrite Hstar, !escape_app. reflexivity.
Qed.

Lemma ResolveReference_ignores_last_segment u1 u2 ref :
  sameButLastSegment u1 u2 -> url.Path ref <> "" ->
  url.ResolveReference u1 ref = url.ResolveReference u2 ref.
Proof.
  intros (Hs & Hu & Hh & Hr1 & Hr2 & dir & l1 & l2 & Hp1 & Hp2 & Hl1 & Hl2) Hpath.
  unfold url.ResolveReference. rewrite Hs, Hu, Hh.
  destruct (negb (String.eqb (url.Scheme ref) "") || _ || _); [reflexivity|].
  destruct (negb (String.eqb (url.Opaque ref) "")); [reflexivity|].
  rewrite (eqb_neq_false _ _ Hpath). cbn [andb].
  rewrite (EscapedPath_of_plain_path u1 dir l1 Hr1 Hp1).
  rewrite (EscapedPath_of_plain_path u2 dir l2 Hr2 Hp2).
  rewrite (resolvePath_ignores_last_segment _ _ (url.escape l2 url.encodePath));
    [reflexivity | now apply slashFree_escape | now apply slashFree_escape
    | now apply EscapedPath_nonempty].
Qed.

(** X11. The last segment of the path of the base URL has no effect on the URL
    [buildURL] gives for a relative path that is not empty: two clients
    whose base URLs differ only there build the same URL.  (So .../client/v4
    and .../client/ are the same base.) *)
Theorem buildURL_ignores_the_last_segment_of_the_base {World}
    (c1 c2 : cloudflare.Client World) p ref :
  url.Parse p = Some ref -> url.Path ref <> "" ->
  sameButLastSegment (cloudflare.baseURL c1) (cloudflare.baseURL c2) ->
  cloudflare.buildURL c1 p = cloudflare.buildURL c2 p.
Proof.
  intros Hparse Hpath Hsame. unfold cloudflare.buildURL. rewrite Hparse.
  rewrite (ResolveReference_ignores_last_segment _ _ _ Hsame Hpath). reflexivity.
Qed.

Lemma buildURL_ignores_the_last_segment_of_the_base_witness :
  cloudflare.buildURL (stub.mustClient [cloudflare.WithAPIToken "tok"])
                      (pathGetARecord "abc123" "home.example.com")
  = cloudflare.buildURL
      (stub.mustClient [cloudflare.WithAPIToken "tok";
                        cloudflare.WithBaseURL "https://api.cloudflare.com/client/"])
      (pathGetARecord "abc123" "home.example.com").
Proof.
  eapply buildURL_ignores_the_last_segment_of_the_base.
  - vm_compute. reflexivity.
  - vm_compute. discriminate.
  - repeat split. exists "/client", "v4", "". repeat split.
Defined.

(** ** Paths that do not parse *)

Lemma HasPrefix_hash_cons c s : strings.HasPrefix (String c s) "#" = Ascii.eqb "#" c.
Proof.
  change (strings.HasPrefix (String c s) "#")
    with (Ascii.eqb "#" c && strings.HasPrefix s "").
  rewrite HasPrefix_empty. apply andb_true_r.
Qed.

Lemma Index_hash_cons c s :
  strings.Index (String c s) "#"
  = if Ascii.eqb "#" c then Some 0%nat else option_map S (strings.Index s "#").
Proof.
  change (strings.Index (String c s) "#")
    with (if strings.HasPrefix (String c s) "#" then Some 0%nat
          else option_map S (strings.Index s "#")).
  rewrite HasPrefix_hash_cons. reflexivity.
Qed.

Lemma controlByteInPath_cons c s :
  controlByteInPath (String c s)
  = if Ascii.eqb "#" c then false
    else (byte_val c <? 32) || (byte_val c =? 127) || controlByteInPath s.
Proof.
  unfold controlByteInPath, strings.Cut. rewrite Index_hash_cons.
  destruct (Ascii.eqb "#" c); [reflexivity|].
  destruct (strings.Index s "#"); reflexivity.
Qed.

Lemma controlByteInPath_app_l s t :
  controlByteInPath s = true -> controlByteInPath (s ++ t) = true.
Proof.
  induction s as [|c s IH]; [discriminate|].
  cbn [append]. rewrite !controlByteInPath_cons.
  destruct (Ascii.eqb "#" c); [discriminate|].
  destruct ((byte_val c <? 32) || (byte_val c =? 127)); [reflexivity|].
  exact IH.
Qed.

Lemma Parse_control_byte s : controlByteInPath s = true -> url.Parse s = None.
Proof.
  unfold controlByteInPath, url.Parse.
  destruct (strings.Cut s "#") as [[u frag] found]. cbn [fst].
  intros H. unfold url.parse. rewrite H. reflexivity.
Qed.

Lemma buildURL_zones_control_byte {World} (c : cloudflare.Client World) zoneID rest :
  controlByteInPath zoneID = true ->
  cloudflare.buildURL c ("zones/" ++ zoneID ++ rest) = None.
Proof.
  intros H. unfold cloudflare.buildURL. rewrite Parse_control_byte; [reflexivity|].
  cbn [append]. rewrite !controlByteInPath_cons. cbn.
  apply controlByteInPath_app_l. exact H.
Qed.

Lemma controlByteInPath_nonempty s : controlByteInPath s = true -> s <> "".
Proof. intros H ->. discriminate H. Qed.

(** X12. [buildURL] drops the error of [url.Parse]: a zone id with a control
    byte before any number sign leaves the relative URL nil, and the three
    operations that put the zone id in the path, and [UpsertARecord]
    through [CreateARecord], panic on it instead of returning an error.
    Nothing has been sent by then. *)
Theorem operations_panic_on_control_byte_in_zoneID {World}
    (c : cloudflare.Client World) (st : State World) zoneID :
  controlByteInPath zoneID = true ->
  (forall fqdn,
     fqdn <> "" ->
     cloudflare.GetARecord c zoneID fqdn st
     = (called st (CallGetARecord zoneID fqdn), Panic))
  /\ (forall payload,
     cloudflare.CreateARecord c zoneID payload st
     = (called st (CallCreateARecord zoneID payload), Panic))
  /\ (forall recordID payload,
     recordID <> "" ->
     cloudflare.UpdateARecord c zoneID recordID payload st
     = (called st (CallUpdateARecord zoneID recordID payload), Panic))
  /\ (forall name ip ttl proxied,
     name <> "" -> ip <> "" ->
     exists payload,
       cloudflare.UpsertARecord c zoneID name ip ttl proxied st
       = (called (called st (CallUpsertARecord zoneID name ip ttl proxied))
                 (CallCreateARecord zoneID payload), Panic)).
Proof.
  intros Hctl. pose proof (controlByteInPath_nonempty _ Hctl) as Hz.
  assert (Hcreate : forall st payload,
             cloudflare.CreateARecord c zoneID payload st
             = (called st (CallCreateARecord zoneID payload), Panic)).
  { intros st0 payload. unfold cloudflare.CreateARecord, cloudflare.buildURL_, bind, emit.
    rewrite (buildURL_zones_control_byte c zoneID "/dns_records" Hctl). reflexivity. }
  split; [|split; [|split]].
  - intros fqdn Hf. unfold cloudflare.GetARecord, cloudflare.buildURL_, bind, emit.
    rewrite (eqb_neq_false _ _ Hz), (eqb_neq_false _ _ Hf). cbn [orb]. cbv zeta.
    rewrite (buildURL_zones_control_byte c zoneID _ Hctl). reflexivity.
  - apply Hcreate.
  - intros recordID payload Hr.
    unfold cloudflare.UpdateARecord, cloudflare.buildURL_, bind, emit.
    rewrite (eqb_neq_false _ _ Hz), (eqb_neq_false _ _ Hr). cbn [orb].
    rewrite (buildURL_zones_control_byte c zoneID ("/dns_records/" ++ recordID) Hctl).
    reflexivity.
  - intros name ip ttl proxied Hn Hi. eexists.
    unfold cloudflare.UpsertARecord, bind, emit.
    rewrite (eqb_neq_false _ _ Hz), (eqb_neq_false _ _ Hn), (eqb_neq_false _ _ Hi).
    cbn [orb]. cbv zeta. rewrite Hcreate. reflexivity.
Qed.

Lemma operations_panic_on_control_byte_in_zoneID_witness :
  let zoneID := "abc" ++ String (strings.b 10) "" in
  let st := stub.start stub.example_com "" in
  snd (cloudflare.GetARecord stub.testClient zoneID "home.example.com" st) = Panic
  /\ cloudflare.CreateARecord stub.testClient zoneID stub.home9 st
     = (called st (CallCreateARecord zoneID stub.home9), Panic)
  /\ requests (trace (fst (cloudflare.UpdateARecord stub.testClient zoneID "rid"
                             stub.home9 st))) = [].
Proof.
  cbv zeta.
  destruct (operations_panic_on_control_byte_in_zoneID stub.testClient
              (stub.start stub.example_com "") ("abc" ++ String (strings.b 10) "")
              ltac:(vm_compute; reflexivity))
    as (Hget & Hcreate & Hupdate & _).
  rewrite (Hget "home.example.com") by discriminate.
  rewrite Hcreate. rewrite (Hupdate "rid") by discriminate.
  split; [reflexivity | split; reflexivity].
Defined.

(** ** The discovery: what it returns and what it sends *)

Lemma upd_bytes i v a : Forall isByte a -> isByte v -> Forall isByte (netip.upd i v a).
Proof.
  intros Ha Hv. revert i.
  induction Ha as [|x a Hx Ha IH]; intros i; destruct i; cbn; constructor; auto.
Qed.

Lemma nth_bytes j a : Forall isByte a -> isByte (nth j a 0).
Proof.
  intros Ha. revert j. induction Ha as [|x a Hx Ha IH]; intros [|j]; cbn; auto;
    unfold isByte; lia.
Qed.

Lemma parseIPv4Fields_loop_bytes s :
  forall prev val pos digLen base fields r,
    0 <= val <= 255 -> Forall isByte fields ->
    netip.parseIPv4Fields_loop s prev val pos digLen base fields = Some r ->
    Forall isByte r.
Proof.
  induction s as [|c s IH]; intros prev val pos digLen base fields r Hval Hf;
    cbn [netip.parseIPv4Fields_loop].
  - destruct (pos <? 3)%nat; [discriminate|]. intros H; inversion H; subst.
    apply upd_bytes; assumption.
  - destruct (isDigit c) eqn:Hd.
    + destruct ((digLen =? 1) && (val =? 0)); [discriminate|].
      destruct (val * 10 + (byte_val c - byte_val "0") >? 255) eqn:Hgt; [discriminate|].
      apply IH; [|exact Hf].
      destruct (isDigit_char c Hd) as [Hc _].
      pose proof (Zgt_cases (val * 10 + (byte_val c - byte_val "0")) 255) as Hle.
      rewrite Hgt in Hle. lia.
    + destruct (Ascii.eqb c "."); [|discriminate].
      destruct (_ || _); [discriminate|].
      destruct (pos =? 3)%nat; [discriminate|].
      apply IH; [lia|]. apply upd_bytes; assumption.
Qed.

Lemma parseIPv6_loop_bytes fuel :
  forall s i ell a st,
    Forall isByte a ->
    netip.parseIPv6_loop fuel s i ell a = Some st -> Forall isByte (netip.ip st).
Proof.
  assert (Hmod : forall x, isByte (x mod 256)).
  { intros x. unfold isByte. pose proof (Z.mod_pos_bound x 256). lia. }
  induction fuel as [|fuel IH]; intros s i ell a st Ha; cbn [netip.parseIPv6_loop].
  - destruct (16 <=? i)%nat; [|discriminate]. intros H; inversion H; subst. exact Ha.
  - destruct (16 <=? i)%nat; [intros H; inversion H; subst; exact Ha|].
    destruct (netip.hexField s 0 0) as [[[off acc] s1]|]; [|discriminate].
    destruct (off =? 0)%nat; [discriminate|].
    assert (Ha1 : Forall isByte
                    (netip.upd (S i) (acc mod 256)
                       (netip.upd i (Z.shiftr acc 8 mod 256) a))).
    { apply upd_bytes; [apply upd_bytes|]; auto. }
    destruct (netip.HasDot s1).
    + destruct (match ell with None => _ | Some _ => _ end); [discriminate|].
      destruct (16 <? i + 4)%nat; [discriminate|].
      destruct (netip.parseIPv4Fields s i a) as [a'|] eqn:H4; [|discriminate].
      intros H; inversion H; subst. cbn [netip.ip].
      unfold netip.parseIPv4Fields in H4.
      eapply parseIPv4Fields_loop_bytes; [| exact Ha | exact H4]. lia.
    + destruct s1 as [|c s2]; [intros H; inversion H; subst; exact Ha1|].
      destruct (negb (Ascii.eqb c ":")); [discriminate|].
      destruct s2 as [|c2 s3]; [discriminate|].
      destruct (Ascii.eqb c2 ":").
      * destruct ell; [discriminate|].
        destruct s3 as [|c3 s4]; [intros H; inversion H; subst; exact Ha1|].
        apply IH. exact Ha1.
      * apply IH. exact Ha1.
Qed.

Lemma shiftUp_bytes k : forall a n e, Forall isByte a -> Forall isByte (netip.shiftUp a n e k).
Proof.
  induction k as [|k IH]; intros a n e Ha; cbn; [exact Ha|].
  apply IH. apply upd_bytes; [exact Ha | apply nth_bytes; exact Ha].
Qed.

Lemma clear_bytes n : forall a e, Forall isByte a -> Forall isByte (netip.clear a e n).
Proof.
  induction n as [|n IH]; intros a e Ha; cbn; [exact Ha|].
  apply IH. apply upd_bytes; [exact Ha | unfold isByte; lia].
Qed.

Lemma zero16_bytes : Forall isByte netip.zero16.
Proof. unfold netip.zero16. cbn. repeat constructor; unfold isByte; lia. Qed.

Lemma parseIPv6_bytes input addr :
  netip.parseIPv6 input = Some addr -> Forall isByte (netip.bytes16 addr).
Proof.
  unfold netip.parseIPv6.
  destruct (strings.Cut input "%") as [[s z] hasZone].
  destruct (hasZone && String.eqb z ""); [discriminate|].
  destruct (strings.HasPrefix s "::").
  - destruct (String.eqb (strings.drop 2 s) "").
    { intros H; inversion H; subst. exact zero16_bytes. }
    destruct (netip.parseIPv6_loop 8 (strings.drop 2 s) 0 (Some 0%nat) netip.zero16)
      as [st|] eqn:Hl; [|discriminate].
    apply parseIPv6_loop_bytes in Hl; [|exact zero16_bytes].
    destruct (negb (String.eqb (netip.rest st) "")); [discriminate|].
    destruct (netip.idx st <? 16)%nat.
    + destruct (netip.ellipsis st); [|discriminate].
      intros H; inversion H; subst. cbn [netip.bytes16].
      apply clear_bytes, shiftUp_bytes. exact Hl.
    + destruct (netip.ellipsis st); [discriminate|].
      intros H; inversion H; subst. exact Hl.
  - destruct (netip.parseIPv6_loop 8 s 0 None netip.zero16) as [st|] eqn:Hl; [|discriminate].
    apply parseIPv6_loop_bytes in Hl; [|exact zero16_bytes].
    destruct (negb (String.eqb (netip.rest st) "")); [discriminate|].
    destruct (netip.idx st <? 16)%nat.
    + destruct (netip.ellipsis st); [|discriminate].
      intros H; inversion H; subst. cbn [netip.bytes16].
      apply clear_bytes, shiftUp_bytes. exact Hl.
    + destruct (netip.ellipsis st); [discriminate|].
      intros H; inversion H; subst. exact Hl.
Qed.

Lemma skipn_bytes n a : Forall isByte a -> Forall isByte (skipn n a).
Proof.
  intros Ha. revert n. induction Ha as [|x a Hx Ha IH]; intros [|n]; cbn; auto.
Qed.

Lemma To4_bytes ip p4 :
  Forall isByte ip -> net.To4 ip = Some p4 ->
  exists a b c d, isByte a /\ isByte b /\ isByte c /\ isByte d /\ p4 = [a; b; c; d].
Proof.
  intros Hip. unfold net.To4.
  assert (Hfour : forall l, Forall isByte l -> List.length l = 4%nat ->
            exists a b c d, isByte a /\ isByte b /\ isByte c /\ isByte d /\ l = [a; b; c; d]).
  { intros l Hl Hlen.
    destruct l as [|a [|b [|c [|d [|? ?]]]]]; try discriminate Hlen.
    inversion Hl as [|? ? Ha Hl1]; subst. inversion Hl1 as [|? ? Hb Hl2]; subst.
    inversion Hl2 as [|? ? Hc Hl3]; subst. inversion Hl3 as [|? ? Hd _]; subst.
    exists a, b, c, d. auto. }
  destruct (List.length ip =? 4)%nat eqn:H4.
  - intros H; inversion H; subst. apply Hfour; [exact Hip|]. now apply Nat.eqb_eq.
  - destruct (List.length ip =? 16)%nat eqn:H16; cbn [andb]; [|discriminate].
    destruct (_ && _ && _); [|discriminate].
    intros H. injection H as <-. apply Hfour; [exact (skipn_bytes 12 ip Hip)|].
    change (List.length (skipn 12 ip) = 4%nat). rewrite length_skipn.
    apply Nat.eqb_eq in H16. rewrite H16. reflexivity.
Qed.

(** Whatever the discovery accepts, it turns into a dotted quad. *)
Lemma accepted_dottedQuad body ip : discovery.accepted body = Some ip -> dottedQuad ip.
Proof.
  intros H. apply accepted_iff in H.
  destruct H as [[Hq ->] | (_ & addr & p4 & Hp & _ & H4 & ->)]; [exact Hq|].
  apply parseIPv6_bytes in Hp.
  destruct (To4_bytes _ _ Hp H4) as (a & b & c & d & Ha & Hb & Hc & Hd & ->).
  exists a, b, c, d. auto.
Qed.

Lemma Discover_Ok {World} (defaultClient : Z -> netutil.IpifyClient World) client st ip :
  snd (netutil.DiscoverIPv4ViaIpify defaultClient client st) = Ok ip ->
  exists body, discovery.accepted body = Some ip.
Proof.
  unfold netutil.DiscoverIPv4ViaIpify, bind, emit, liftE, ret, fail, panic, Do.
  destruct (http.NewRequest _ _ _) as [e|req]; [discriminate|].
  cbn [world trace].
  destruct (match client with Some c0 => c0 | None => _ end _ req) as [w [e|resp]];
    [discriminate|].
  destruct (negb (http.is2xx resp)); [discriminate|].
  destruct (http.RespBody resp) as [e|body]; [discriminate|].
  intros H. exists body. unfold discovery.accepted.
  destruct (net.ParseIP body) as [parsed|]; [|discriminate].
  destruct (net.To4 parsed); [|discriminate].
  cbn in H. inversion H. reflexivity.
Qed.

(** X13. Whatever the echo service answers, an address the discovery returns is
    a well-formed dotted-decimal IPv4 address, and the discovery maps it to
    itself: the result is in canonical form. *)
Theorem discovery_returns_a_canonical_IPv4_address {World}
    (defaultClient : Z -> netutil.IpifyClient World) client (st : State World) ip :
  snd (netutil.DiscoverIPv4ViaIpify defaultClient client st) = Ok ip ->
  dottedQuad ip /\ discovery.accepted ip = Some ip.
Proof.
  intros H. destruct (Discover_Ok _ _ _ _ H) as [body Hb].
  pose proof (accepted_dottedQuad _ _ Hb) as Hq.
  split; [exact Hq|]. apply accepted_iff. left. split; [exact Hq | reflexivity].
Qed.

Lemma discovery_returns_a_canonical_IPv4_address_witness :
  dottedQuad "203.0.113.42" /\ discovery.accepted "203.0.113.42" = Some "203.0.113.42".
Proof.
  apply (discovery_returns_a_canonical_IPv4_address stub.ipifyClient
           (Some (stub.ipifyClient 0)) (stub.start stub.example_com "::ffff:203.0.113.42")).
  vm_compute. reflexivity.
Defined.

(** X14. The failures of the discovery: the error of the round trip and the
    error of reading the body are returned as they are, and a status
    outside 200..299 is returned as an error whose text is the status
    line, whatever the body holds. *)
Theorem discovery_reports_failures {World}
    (defaultClient : Z -> netutil.IpifyClient World) client (st : State World) :
  (forall w e,
     unreachable client st w e ->
     snd (netutil.DiscoverIPv4ViaIpify defaultClient (Some client) st) = Err e)
  /\ (forall w resp,
     discovery.echoed client st w resp -> http.is2xx resp = false ->
     snd (netutil.DiscoverIPv4ViaIpify defaultClient (Some client) st)
     = Err (errorString (http.Status resp)))
  /\ (forall w resp e,
     discovery.echoed client st w resp -> http.is2xx resp = true ->
     http.RespBody resp = inl e ->
     snd (netutil.DiscoverIPv4ViaIpify defaultClient (Some client) st) = Err e).
Proof.
  split; [|split].
  - intros w e (req & Hreq & Hdo).
    unfold netutil.DiscoverIPv4ViaIpify, bind, emit, liftE, ret, fail, Do.
    rewrite Hreq. cbn [world trace]. rewrite Hdo. reflexivity.
  - intros w resp Hecho H2xx.
    rewrite (Discover_echoed defaultClient _ _ _ _ Hecho), H2xx. reflexivity.
  - intros w resp e Hecho H2xx Hbody.
    rewrite (Discover_echoed defaultClient _ _ _ _ Hecho), H2xx, Hbody. reflexivity.
Qed.

Lemma discovery_reports_failures_witness :
  let st := stub.start stub.example_com "203.0.113.42" in
  snd (netutil.DiscoverIPv4ViaIpify stub.ipifyClient (Some (stub.ipifyRefusing 0)) st)
  = Err (errorString "context deadline exceeded")
  /\ snd (netutil.DiscoverIPv4ViaIpify stub.ipifyClient
            (Some (stub.ipifyStatus 503 "503 Service Unavailable" 0)) st)
     = Err (errorString "503 Service Unavailable")
  /\ snd (netutil.DiscoverIPv4ViaIpify stub.ipifyClient (Some (stub.ipifyUnreadable 0)) st)
     = Err (errorString "boom").
Proof.
  cbv zeta. split; [|split].
  - eapply (proj1 (discovery_reports_failures stub.ipifyClient (stub.ipifyRefusing 0) _)
              {| stub.provider := stub.example_com; stub.echo := "203.0.113.42" |}).
    echo.
  - exact (proj1 (proj2 (discovery_reports_failures stub.ipifyClient
                           (stub.ipifyStatus 503 "503 Service Unavailable" 0)
                           (stub.start stub.example_com "203.0.113.42")))
             _ {| http.StatusCode := 503; http.Status := "503 Service Unavailable";
                  http.RespBody := inr "203.0.113.42" |}
             ltac:(echo) eq_refl).
  - exact (proj2 (proj2 (discovery_reports_failures stub.ipifyClient
                           (stub.ipifyUnreadable 0)
                           (stub.start stub.example_com "203.0.113.42")))
             _ {| http.StatusCode := 200; http.Status := "200 OK";
                  http.RespBody := inl (errorString "boom") |} _
             ltac:(echo) eq_refl eq_refl).
Defined.

(** X15. The discovery always sends exactly one request, a GET of the address
    of the echo service without header or body, on the client it is given
    or, without one, on a client with a timeout of ten seconds.  It hands
    nothing to the provider and prints nothing. *)
Theorem discovery_sends_one_request_to_the_echo_service {World}
    (defaultClient : Z -> netutil.IpifyClient World) client (st : State World) :
  exists req,
    http.NewRequest http.MethodGet "https://api.ipify.org" None = inr req
    /\ http.Header_ req = [] /\ http.Body req = None
    /\ url.String_ (http.URL req) = "https://api.ipify.org"
    /\ let chosen := match client with
                     | Some c => c
                     | None => defaultClient (10 * cloudflare.second)
                     end in
       let final := netutil.DiscoverIPv4ViaIpify defaultClient client st in
       trace (fst final)
       = (trace st ++ [EvCall CallDiscoverIPv4ViaIpify; EvIpify req])%list
       /\ world (fst final) = fst (chosen (world st) req)
       /\ requests (trace (fst final)) = requests (trace st)
       /\ printed (trace (fst final)) = printed (trace st).
Proof.
  destruct (http.NewRequest http.MethodGet "https://api.ipify.org" None)
    as [e|req] eqn:Hreq; [discriminate Hreq|].
  exists req. split; [reflexivity|].
  assert (Hr : req = {| http.Method := http.MethodGet;
                       http.URL := http.URL req; http.Header_ := [];
                       http.Body := None |}).
  { vm_compute in Hreq. inversion Hreq. reflexivity. }
  split; [rewrite Hr; reflexivity|]. split; [rewrite Hr; reflexivity|].
  split; [vm_compute in Hreq; inversion Hreq; vm_compute; reflexivity|].
  cbv zeta.
  assert (Hst : fst (netutil.DiscoverIPv4ViaIpify defaultClient client st)
                = {| world := fst (match client with
                                   | Some c => c
                                   | None => defaultClient (10 * cloudflare.second)
                                   end (world st) req);
                     trace := (trace st ++ [EvCall CallDiscoverIPv4ViaIpify;
                                            EvIpify req])%list |}).
  { unfold netutil.DiscoverIPv4ViaIpify, bind, emit, liftE, ret, fail, panic, Do.
    change netutil.ipifyURL with "https://api.ipify.org". rewrite Hreq.
    cbn [world trace].
    destruct (match client with Some c0 => c0 | None => _ end _ req) as [w [e|resp]];
      cbn [fst]; rewrite <- ?app_assoc; [reflexivity|].
    destruct (negb (http.is2xx resp)); [reflexivity|].
    destruct (http.RespBody resp) as [e|body]; [reflexivity|].
    destruct (net.ParseIP body) as [parsed|]; [|reflexivity].
    destruct (net.To4 parsed); reflexivity. }
  rewrite Hst. cbn [trace world].
  split; [reflexivity|]. split; [reflexivity|].
  rewrite requests_app, printed_app. cbn. rewrite !app_nil_r. split; reflexivity.
Qed.

(** ** The command: what a run sends, prints and returns *)

Lemma extends_refl {World} (st : State World) : extends st st [] [] [].
Proof. split; now rewrite app_nil_r. Qed.

Lemma extends_trans {World} (st st1 st2 : State World) cs rs ls cs' rs' ls' :
  extends st st1 cs rs ls -> extends st1 st2 cs' rs' ls' ->
  extends st st2 (cs ++ cs') (rs ++ rs') (ls ++ ls').
Proof.
  intros [a b c] [a' b' c'].
  split; [rewrite a', a | rewrite b', b | rewrite c', c];
    rewrite <- app_assoc; reflexivity.
Qed.

Lemma extends_tail {World} (st st' : State World) tail :
  trace st' = (trace st ++ tail)%list ->
  extends st st' (calls tail) (requests tail) (printed tail).
Proof.
  intros H. split; rewrite H; [apply calls_app | apply requests_app | apply printed_app].
Qed.

Lemma extends_called {World} (st : State World) call :
  extends st (called st call) [call] [] [].
Proof. apply (extends_tail st (called st call) [EvCall call]). reflexivity. Qed.

Lemma extends_print {World} (st : State World) line :
  extends st {| world := world st; trace := (trace st ++ [EvPrint line])%list |}
          [] [] [line].
Proof.
  apply (extends_tail st {| world := world st; trace := (trace st ++ [EvPrint line])%list |}
           [EvPrint line]).
  reflexivity.
Qed.

Lemma NewRequest_body {B} method u (body : option B) req :
  http.NewRequest method u body = inr req -> http.Body req = body.
Proof.
  unfold http.NewRequest. destruct (url.Parse u); intros H; inversion H; reflexivity.
Qed.

Lemma do_effects {World} (c : cloudflare.Client World) req st st'
    (r : outcome (http.Response JSONBody)) :
  cloudflare.do c req st = (st', r) ->
  exists rs, extends st st' [] rs []
             /\ atMostOneRequest (http.Method req) (http.Body req) rs.
Proof.
  unfold cloudflare.do, Do, fail. intros H.
  assert (Hnone : st' = st ->
            exists rs, extends st st' [] rs []
                       /\ atMostOneRequest (http.Method req) (http.Body req) rs).
  { intros ->. exists []. split; [apply extends_refl | now left]. }
  destruct (cloudflare.authMode c).
  - destruct (_ || _); [apply Hnone; congruence|].
    destruct (cloudflare.httpClient c _ _) as [w res]. inversion H; subst.
    eexists. split; [eapply (extends_tail _ _ [EvRoundTrip _]); reflexivity|].
    right. eexists. split; [reflexivity | split; reflexivity].
  - destruct (String.eqb _ _); [apply Hnone; congruence|].
    destruct (cloudflare.httpClient c _ _) as [w res]. inversion H; subst.
    eexists. split; [eapply (extends_tail _ _ [EvRoundTrip _]); reflexivity|].
    right. eexists. split; [reflexivity | split; reflexivity].
Qed.

Lemma dispatch_effects {World A} (c : cloudflare.Client World) p method body
    (k : http.Response JSONBody -> M World A) st st' r :
  inspects k ->
  (u <- cloudflare.buildURL_ c p ;;
   req <- liftE (http.NewRequest method u body) ;;
   resp <- cloudflare.do c req ;;
   k resp) st = (st', r) ->
  exists rs, extends st st' [] rs [] /\ atMostOneRequest method body rs.
Proof.
  intros Hk.
  unfold cloudflare.buildURL_, bind, liftE, ret, fail, panic. intros H.
  assert (Hnone : st' = st ->
            exists rs, extends st st' [] rs [] /\ atMostOneRequest method body rs).
  { intros ->. exists []. split; [apply extends_refl | now left]. }
  destruct (cloudflare.buildURL c p); [|apply Hnone; congruence].
  destruct (http.NewRequest _ _ _) as [e|req] eqn:Hreq; [apply Hnone; congruence|].
  pose proof (NewRequest_method _ _ _ _ Hreq) as Hm.
  pose proof (NewRequest_body _ _ _ _ Hreq) as Hb. rewrite <- Hm, <- Hb.
  destruct (cloudflare.do c req st) as [st1 o] eqn:Hdo.
  apply do_effects in Hdo.
  assert (st' = st1) as ->; [|exact Hdo].
  destruct o; try congruence.
  specialize (Hk a st1). rewrite H in Hk. exact Hk.
Qed.

Ltac inspects_tac :=
  intros ? ?; unfold bind, liftE, ret, fail, panic;
  repeat first
    [ reflexivity
    | match goal with
      | |- context [if ?b then _ else _] => destruct b
      | |- context [match ?x with inl _ => _ | inr _ => _ end] => destruct x
      | |- context [match ?x with [] => _ | _ :: _ => _ end] => destruct x
      end ].

Lemma after_call {World} (st st' : State World) call method body :
  (exists rs, extends (called st call) st' [] rs [] /\ atMostOneRequest method body rs) ->
  exists rs, extends st st' [call] rs [] /\ atMostOneRequest method body rs.
Proof.
  intros (rs & He & Hrs). exists rs. split; [|exact Hrs].
  exact (extends_trans _ _ _ _ _ _ _ _ _ (extends_called st call) He).
Qed.

Lemma only_call {World} (st : State World) call method body :
  exists rs, extends st (called st call) [call] rs []
             /\ atMostOneRequest method body rs.
Proof. exists []. split; [apply extends_called | now left]. Qed.

Lemma FindZoneID_effects {World} (c : cloudflare.Client World) zoneName st st' r :
  cloudflare.FindZoneID c zoneName st = (st', r) ->
  exists rs, extends st st' [CallFindZoneID zoneName] rs []
             /\ atMostOneRequest http.MethodGet None rs.
Proof.
  unfold cloudflare.FindZoneID. unfold bind at 1, emit at 1.
  fold (called st (CallFindZoneID zoneName)).
  destruct (String.eqb zoneName "").
  - intros H; inversion H; subst. apply only_call.
  - intros H. apply dispatch_effects in H; [|inspects_tac]. now apply after_call.
Qed.

Lemma GetARecord_effects {World} (c : cloudflare.Client World) zoneID fqdn st st' r :
  cloudflare.GetARecord c zoneID fqdn st = (st', r) ->
  exists rs, extends st st' [CallGetARecord zoneID fqdn] rs []
             /\ atMostOneRequest http.MethodGet None rs.
Proof.
  unfold cloudflare.GetARecord. unfold bind at 1, emit at 1.
  fold (called st (CallGetARecord zoneID fqdn)).
  destruct (_ || _).
  - intros H; inversion H; subst. apply only_call.
  - intros H. apply dispatch_effects in H; [|inspects_tac]. now apply after_call.
Qed.

Lemma CreateARecord_effects {World} (c : cloudflare.Client World) zoneID payload st st' r :
  cloudflare.CreateARecord c zoneID payload st = (st', r) ->
  exists rs, extends st st' [CallCreateARecord zoneID payload] rs []
             /\ atMostOneRequest http.MethodPost (Some payload) rs.
Proof.
  unfold cloudflare.CreateARecord. unfold bind at 1, emit at 1.
  fold (called st (CallCreateARecord zoneID payload)).
  intros H. apply dispatch_effects in H; [|inspects_tac]. now apply after_call.
Qed.

Lemma UpdateARecord_effects {World} (c : cloudflare.Client World) zoneID recordID payload
    st st' r :
  cloudflare.UpdateARecord c zoneID recordID payload st = (st', r) ->
  exists rs, extends st st' [CallUpdateARecord zoneID recordID payload] rs []
             /\ atMostOneRequest http.MethodPut (Some payload) rs.
Proof.
  unfold cloudflare.UpdateARecord. unfold bind at 1, emit at 1.
  fold (called st (CallUpdateARecord zoneID recordID payload)).
  destruct (_ || _).
  - intros H; inversion H; subst. apply only_call.
  - intros H. apply dispatch_effects in H; [|inspects_tac]. now apply after_call.
Qed.

Lemma Discover_effects {World} (ipifyClient : Z -> netutil.IpifyClient World) client
    st st' r :
  netutil.DiscoverIPv4ViaIpify ipifyClient client st = (st', r) ->
  extends st st' [CallDiscoverIPv4ViaIpify] [] [].
Proof.
  intros H. destruct (Discover_trace _ _ _ _ _ H) as (Hc & Hr & Hp).
  split; [exact Hc | now rewrite app_nil_r | now rewrite app_nil_r].
Qed.

(** [run] after its inputs are accepted and its client is built. *)
Lemma run_unfold {World TLSConfig}
    (cfClient : option TLSConfig -> Z -> cloudflare.HTTPClient World)
    (ipifyClient : Z -> netutil.IpifyClient World)
    zone name ttl proxied email globalKey apiToken timeout st c :
  main.validateInputs zone name ttl email globalKey apiToken = None ->
  main.construct cfClient email globalKey apiToken = inr c ->
  main.run cfClient ipifyClient zone name ttl proxied email globalKey apiToken timeout st
  = match netutil.DiscoverIPv4ViaIpify ipifyClient
            (Some (ipifyClient (10 * cloudflare.second))) st with
    | (st1, Ok wanIP) =>
        match cloudflare.FindZoneID c zone st1 with
        | (st2, Ok zoneID) =>
            match cloudflare.GetARecord c zoneID (name ++ "." ++ zone) st2 with
            | (st3, Ok rec) =>
                main.decide c zoneID (name ++ "." ++ zone) name wanIP ttl proxied rec st3
            | (st3, Err e) => (st3, Err e)
            | (st3, Panic) => (st3, Panic)
            end
        | (st2, Err e) => (st2, Err e)
        | (st2, Panic) => (st2, Panic)
        end
    | (st1, Err e) => (st1, Err (wrapError "could not determine WAN IP: " e))
    | (st1, Panic) => (st1, Panic)
    end.
Proof.
  intros Hv Hc. unfold main.run. rewrite Hv, Hc.
  unfold bind at 1. unfold liftE at 1, ret at 1.
  unfold bind at 1. unfold main.wrap.
  destruct (netutil.DiscoverIPv4ViaIpify _ _ st) as [st1 [wanIP|e|]]; reflexivity.
Qed.

(** The decision, step by step. *)
Lemma decide_unfold {World} (c : cloudflare.Client World) zoneID fqdn name wanIP ttl
    proxied rec st :
  let printing (line : string) (w : State World * outcome DNSRecord.t) :=
    match w with
    | (st', Ok _) =>
        ({| world := world st'; trace := (trace st' ++ [EvPrint line])%list |}, Ok tt)
    | (st', Err e) => (st', Err e)
    | (st', Panic) => (st', Panic)
    end in
  main.decide c zoneID fqdn name wanIP ttl proxied rec st
  = match rec with
    | Some rec =>
        if String.eqb (DNSRecord.Content rec) wanIP then
          ({| world := world st;
              trace := (trace st ++ [EvPrint ("No change: " ++ fqdn
                                              ++ " already points to " ++ wanIP
                                              ++ main.nl)])%list |}, Ok tt)
        else
          printing ("Updated A " ++ fqdn ++ " -> " ++ wanIP ++ main.nl)
            (cloudflare.UpdateARecord c zoneID (DNSRecord.ID rec)
               (payloadOf name wanIP ttl proxied) st)
    | None =>
        printing ("Created A " ++ fqdn ++ " -> " ++ wanIP ++ main.nl)
          (cloudflare.CreateARecord c zoneID (payloadOf name wanIP ttl proxied) st)
    end.
Proof.
  cbv zeta. unfold main.decide, payloadOf. destruct rec as [rec|].
  - destruct (String.eqb (DNSRecord.Content rec) wanIP); [reflexivity|].
    unfold bind at 1.
    destruct (cloudflare.UpdateARecord _ _ _ _ st) as [st' [a|e|]]; reflexivity.
  - unfold bind at 1.
    destruct (cloudflare.CreateARecord _ _ _ st) as [st' [a|e|]]; reflexivity.
Qed.

(** What a write followed by its line adds. *)
Lemma write_effects {World} (st st' : State World) call method payload line
    (r : outcome DNSRecord.t) :
  (exists rs, extends st st' [call] rs [] /\ atMostOneRequest method (Some payload) rs) ->
  let final :=
    match r with
    | Ok _ => ({| world := world st'; trace := (trace st' ++ [EvPrint line])%list |}, Ok tt)
    | Err e => (st', Err e)
    | Panic => (st', Panic)
    end in
  exists rs ls,
    extends st (fst final) [call] rs ls
    /\ atMostOneRequest method (Some payload) rs
    /\ (snd final = Ok tt -> exists l, ls = [l])
    /\ (snd final <> Ok tt -> ls = []).
Proof.
  intros (rs & He & Hrs). destruct r as [a|e|]; cbv zeta; cbn [fst snd].
  - exists rs, [line]. split; [|split; [exact Hrs | split; [eauto | congruence]]].
    pose proof (extends_trans _ _ _ _ _ _ _ _ _ He (extends_print st' line)) as H.
    rewrite !app_nil_r in H. exact H.
  - exists rs, []. split; [exact He | split; [exact Hrs | split; [discriminate | reflexivity]]].
  - exists rs, []. split; [exact He | split; [exact Hrs | split; [discriminate | reflexivity]]].
Qed.

(** The effects of a run, whatever its inputs and the world: the calls it
    enters, the requests it hands to the provider (lookups, then at most
    one write) and the lines it prints. *)
Lemma run_effects {World TLSConfig}
    (cfClient : option TLSConfig -> Z -> cloudflare.HTTPClient World)
    (ipifyClient : Z -> netutil.IpifyClient World)
    zone name ttl proxied email globalKey apiToken timeout (st : State World) :
  let final :=
    main.run cfClient ipifyClient zone name ttl proxied email globalKey apiToken
             timeout st in
  exists cs gets writes ls,
    extends st (fst final) cs (gets ++ writes) ls
    /\ Forall (fun req => http.Method req = http.MethodGet /\ http.Body req = None) gets
    /\ (List.length gets <= 2)%nat
    /\ (writes = []
        \/ exists req ip,
             writes = [req]
             /\ (http.Method req = http.MethodPost \/ http.Method req = http.MethodPut)
             /\ snd (netutil.DiscoverIPv4ViaIpify ipifyClient
                       (Some (ipifyClient (10 * cloudflare.second))) st) = Ok ip
             /\ http.Body req = Some (payloadOf name ip ttl proxied))
    /\ (snd final = Ok tt -> exists line, ls = [line])
    /\ (snd final <> Ok tt -> ls = [])
    /\ (main.validateInputs zone name ttl email globalKey apiToken = None ->
        forall c, main.construct cfClient email globalKey apiToken = inr c ->
        exists rest, cs = CallDiscoverIPv4ViaIpify :: rest).
Proof.
  cbv zeta.
  assert (Hgets : forall rs : list (http.Request DNSRecord.t),
             atMostOneRequest http.MethodGet None rs ->
             Forall (fun req => http.Method req = http.MethodGet /\ http.Body req = None) rs
             /\ (List.length rs <= 1)%nat).
  { intros rs [-> | (req & -> & Hm & Hb)]; split; cbn; try lia; repeat constructor; auto. }
  destruct (main.validateInputs zone name ttl email globalKey apiToken) as [err|] eqn:Hv.
  { unfold main.run. rewrite Hv. unfold fail. cbn [fst snd].
    exists [], [], [], []. split; [apply extends_refl|].
    split; [constructor|]. split; [cbn; lia|]. split; [now left|].
    split; [discriminate|]. split; [reflexivity | discriminate]. }
  destruct (main.construct cfClient email globalKey apiToken) as [err|c] eqn:Hc.
  { unfold main.run. rewrite Hv, Hc. unfold bind, liftE, fail. cbn [fst snd].
    exists [], [], [], []. split; [apply extends_refl|].
    split; [constructor|]. split; [cbn; lia|]. split; [now left|].
    split; [discriminate|]. split; [reflexivity | discriminate]. }
  rewrite (run_unfold _ _ _ _ _ _ _ _ _ _ _ _ Hv Hc).
  destruct (netutil.DiscoverIPv4ViaIpify ipifyClient _ st) as [st1 r1] eqn:Hd.
  pose proof (Discover_effects _ _ _ _ _ Hd) as E1.
  assert (Hfail1 : forall r : outcome unit, r <> Ok tt ->
            exists cs gets writes ls,
              extends st (fst (st1, r)) cs (gets ++ writes) ls
              /\ Forall (fun req => http.Method req = http.MethodGet
                                    /\ http.Body req = None) gets
              /\ (List.length gets <= 2)%nat
              /\ (writes = []
                  \/ exists req ip,
                       writes = [req]
                       /\ (http.Method req = http.MethodPost
                           \/ http.Method req = http.MethodPut)
                       /\ snd (st1, r1) = Ok ip
                       /\ http.Body req = Some (payloadOf name ip ttl proxied))
              /\ (snd (st1, r) = Ok tt -> exists line, ls = [line])
              /\ (snd (st1, r) <> Ok tt -> ls = [])
              /\ (@None error = None ->
                  forall c0, @inr error _ c = inr c0 ->
                  exists rest, cs = CallDiscoverIPv4ViaIpify :: rest)).
  { intros r Hr. exists [CallDiscoverIPv4ViaIpify], [], [], []. cbn [fst snd].
    split; [exact E1|]. split; [constructor|]. split; [cbn; lia|]. split; [now left|].
    split; [intros H; now elim Hr|]. split; [reflexivity|]. intros _ _ _. now eexists. }
  destruct r1 as [wanIP|e|]; [|apply Hfail1; discriminate | apply Hfail1; discriminate].
  clear Hfail1.
  destruct (cloudflare.FindZoneID c zone st1) as [st2 r2] eqn:Hf.
  destruct (FindZoneID_effects _ _ _ _ _ Hf) as (g1 & E2 & Hg1).
  destruct (Hgets _ Hg1) as [Fg1 Lg1].
  pose proof (extends_trans _ _ _ _ _ _ _ _ _ E1 E2) as E12. cbn [app] in E12.
  assert (Hfail2 : forall r : outcome unit, r <> Ok tt ->
            exists cs gets writes ls,
              extends st (fst (st2, r)) cs (gets ++ writes) ls
              /\ Forall (fun req => http.Method req = http.MethodGet
                                    /\ http.Body req = None) gets
              /\ (List.length gets <= 2)%nat
              /\ (writes = []
                  \/ exists req ip,
                       writes = [req]
                       /\ (http.Method req = http.MethodPost
                           \/ http.Method req = http.MethodPut)
                       /\ snd (st1, @Ok string wanIP) = Ok ip
                       /\ http.Body req = Some (payloadOf name ip ttl proxied))
              /\ (snd (st2, r) = Ok tt -> exists line, ls = [line])
              /\ (snd (st2, r) <> Ok tt -> ls = [])
              /\ (@None error = None ->
                  forall c0, @inr error _ c = inr c0 ->
                  exists rest, cs = CallDiscoverIPv4ViaIpify :: rest)).
  { intros r Hr. exists [CallDiscoverIPv4ViaIpify; CallFindZoneID zone], g1, [], [].
    cbn [fst snd]. rewrite app_nil_r.
    split; [exact E12|]. split; [exact Fg1|]. split; [lia|]. split; [now left|].
    split; [intros H; now elim Hr|]. split; [reflexivity|]. intros _ _ _. now eexists. }
  destruct r2 as [zoneID|e|]; [|apply Hfail2; discriminate | apply Hfail2; discriminate].
  clear Hfail2.
  destruct (cloudflare.GetARecord c zoneID (name ++ "." ++ zone) st2) as [st3 r3] eqn:Hg.
  destruct (GetARecord_effects _ _ _ _ _ _ Hg) as (g2 & E3 & Hg2).
  destruct (Hgets _ Hg2) as [Fg2 Lg2].
  pose proof (extends_trans _ _ _ _ _ _ _ _ _ E12 E3) as E123. cbn [app] in E123.
  assert (Fg : Forall (fun req => http.Method req = http.MethodGet
                                  /\ http.Body req = None) (g1 ++ g2))
    by (apply Forall_app; split; assumption).
  assert (Lg : (List.length (g1 ++ g2) <= 2)%nat) by (rewrite length_app; lia).
  assert (Hfail3 : forall r : outcome unit, r <> Ok tt ->
            exists cs gets writes ls,
              extends st (fst (st3, r)) cs (gets ++ writes) ls
              /\ Forall (fun req => http.Method req = http.MethodGet
                                    /\ http.Body req = None) gets
              /\ (List.length gets <= 2)%nat
              /\ (writes = []
                  \/ exists req ip,
                       writes = [req]
                       /\ (http.Method req = http.MethodPost
                           \/ http.Method req = http.MethodPut)
                       /\ snd (st1, @Ok string wanIP) = Ok ip
                       /\ http.Body req = Some (payloadOf name ip ttl proxied))
              /\ (snd (st3, r) = Ok tt -> exists line, ls = [line])
              /\ (snd (st3, r) <> Ok tt -> ls = [])
              /\ (@None error = None ->
                  forall c0, @inr error _ c = inr c0 ->
                  exists rest, cs = CallDiscoverIPv4ViaIpify :: rest)).
  { intros r Hr.
    exists [CallDiscoverIPv4ViaIpify; CallFindZoneID zone;
            CallGetARecord zoneID (name ++ "." ++ zone)], (g1 ++ g2)%list, [], [].
    cbn [fst snd]. rewrite app_nil_r.
    split; [exact E123|]. split; [exact Fg|]. split; [exact Lg|]. split; [now left|].
    split; [intros H; now elim Hr|]. split; [reflexivity|]. intros _ _ _. now eexists. }
  destruct r3 as [rec|e|]; [|apply Hfail3; discriminate | apply Hfail3; discriminate].
  clear Hfail3.
  rewrite decide_unfold.
  assert (Hwrite : forall call method line (w : State World * outcome DNSRecord.t),
            (method = http.MethodPost \/ method = http.MethodPut) ->
            (exists rs, extends st3 (fst w) [call] rs []
                        /\ atMostOneRequest method
                             (Some (payloadOf name wanIP ttl proxied)) rs) ->
            let final :=
              match w with
              | (st', Ok _) =>
                  ({| world := world st';
                      trace := (trace st' ++ [EvPrint line])%list |}, Ok tt)
              | (st', Err e) => (st', Err e)
              | (st', Panic) => (st', Panic)
              end in
            exists cs gets writes ls,
              extends st (fst final) cs (gets ++ writes) ls
              /\ Forall (fun req => http.Method req = http.MethodGet
                                    /\ http.Body req = None) gets
              /\ (List.length gets <= 2)%nat
              /\ (writes = []
                  \/ exists req ip,
                       writes = [req]
                       /\ (http.Method req = http.MethodPost
                           \/ http.Method req = http.MethodPut)
                       /\ snd (st1, @Ok string wanIP) = Ok ip
                       /\ http.Body req = Some (payloadOf name ip ttl proxied))
              /\ (snd final = Ok tt -> exists line, ls = [line])
              /\ (snd final <> Ok tt -> ls = [])
              /\ (@None error = None ->
                  forall c0, @inr error _ c = inr c0 ->
                  exists rest, cs = CallDiscoverIPv4ViaIpify :: rest)).
  { intros call method line [st4 r4] Hmethod Hw. cbn [fst] in Hw.
    destruct (write_effects st3 st4 call method _ line r4 Hw) as (ws & ls & E4 & Hws & Hok & Hno).
    cbv zeta in E4, Hok, Hno |- *.
    pose proof (extends_trans _ _ _ _ _ _ _ _ _ E123 E4) as E. cbn [app] in E.
    destruct r4 as [a|e|]; cbn [fst snd] in *;
      (eexists _, (g1 ++ g2)%list, ws, ls;
       split; [exact E|]; split; [exact Fg|]; split; [exact Lg|];
       split; [|split; [exact Hok | split; [exact Hno | intros _ _ _; now eexists]]];
       destruct Hws as [-> | (req & -> & Hm & Hb)]; [now left|];
       right; exists req, wanIP;
       split; [reflexivity|]; split; [rewrite Hm; exact Hmethod|];
       split; [reflexivity | exact Hb]). }
  destruct rec as [rec|].
  - destruct (String.eqb (DNSRecord.Content rec) wanIP).
    + pose proof (extends_trans _ _ _ _ _ _ _ _ _ E123
                    (extends_print st3 ("No change: " ++ (name ++ "." ++ zone)
                                        ++ " already points to " ++ wanIP ++ main.nl)))
        as E.
      cbn [app] in E. rewrite app_nil_r in E. cbn [fst snd].
      eexists _, (g1 ++ g2)%list, [], _. rewrite app_nil_r.
      split; [exact E|]. split; [exact Fg|]. split; [exact Lg|]. split; [now left|].
      split; [intros _; now eexists|]. split; [intros H; now elim H|].
      intros _ _ _. now eexists.
    + apply (Hwrite (CallUpdateARecord zoneID (DNSRecord.ID rec)
                       (payloadOf name wanIP ttl proxied)) http.MethodPut);
        [now right|].
      destruct (cloudflare.UpdateARecord c zoneID (DNSRecord.ID rec) _ st3)
        as [st4 r4] eqn:Hu.
      exact (UpdateARecord_effects _ _ _ _ _ _ _ Hu).
  - apply (Hwrite (CallCreateARecord zoneID (payloadOf name wanIP ttl proxied))
             http.MethodPost); [now left|].
    destruct (cloudflare.CreateARecord c zoneID _ st3) as [st4 r4] eqn:Hu.
    exact (CreateARecord_effects _ _ _ _ _ _ Hu).
Qed.

Lemma filter_gets (gets : list (http.Request DNSRecord.t)) :
  Forall (fun req => http.Method req = http.MethodGet /\ http.Body req = None) gets ->
  filter isWriteRequest gets = [].
Proof.
  induction 1 as [|req gets [Hm _] _ IH]; [reflexivity|].
  cbn [filter]. unfold isWriteRequest at 1. rewrite Hm. exact IH.
Qed.

(** X16. Whatever the inputs, the answers of the echo service and of the
    provider: a run hands at most three requests to the provider, of which
    at most one is a POST or a PUT, and it prints exactly one line when it
    returns nil and none when it returns an error. *)
Theorem run_writes_at_most_once_and_prints_iff_it_succeeds {World TLSConfig}
    (cfClient : option TLSConfig -> Z -> cloudflare.HTTPClient World)
    (ipifyClient : Z -> netutil.IpifyClient World)
    zone name ttl proxied email globalKey apiToken timeout (st : State World) :
  let final :=
    main.run cfClient ipifyClient zone name ttl proxied email globalKey apiToken
             timeout st in
  (writeRequests (trace st) <= writeRequests (trace (fst final))
   <= S (writeRequests (trace st)))%nat
  /\ (List.length (requests (trace (fst final)))
      <= List.length (requests (trace st)) + 3)%nat
  /\ (snd final = Ok tt ->
      exists line, printed (trace (fst final)) = (printed (trace st) ++ [line])%list)
  /\ (snd final <> Ok tt -> printed (trace (fst final)) = printed (trace st)).
Proof.
  cbv zeta.
  destruct (run_effects cfClient ipifyClient zone name ttl proxied email globalKey
              apiToken timeout st)
    as (cs & gets & writes & ls & [_ Hr Hp] & Fg & Lg & Hw & Hok & Hno & _).
  assert (Lw : (List.length writes <= 1)%nat).
  { destruct Hw as [-> | (req & ip & -> & _)]; cbn; lia. }
  split; [|split; [|split]].
  - unfold writeRequests. rewrite Hr, !filter_app, !length_app, (filter_gets _ Fg).
    pose proof (filter_length_le isWriteRequest writes). cbn [List.length]. lia.
  - rewrite Hr, !length_app. lia.
  - intros H. destruct (Hok H) as [line ->]. exists line. exact Hp.
  - intros H. rewrite Hp, (Hno H). apply app_nil_r.
Qed.

(** X17. Whatever the inputs and the world, every request a run hands to the
    provider is a GET without body, or a POST or PUT whose body is the
    record of type A for the given label, TTL and proxy flag, without id,
    whose content is the address the discovery returned, a well-formed
    dotted-decimal IPv4 address. *)
Theorem run_writes_only_the_discovered_address {World TLSConfig}
    (cfClient : option TLSConfig -> Z -> cloudflare.HTTPClient World)
    (ipifyClient : Z -> netutil.IpifyClient World)
    zone name ttl proxied email globalKey apiToken timeout (st : State World) :
  let final :=
    main.run cfClient ipifyClient zone name ttl proxied email globalKey apiToken
             timeout st in
  exists sent,
    requests (trace (fst final)) = (requests (trace st) ++ sent)%list
    /\ Forall (fun req =>
                 (http.Method req = http.MethodGet /\ http.Body req = None)
                 \/ exists ip,
                      (http.Method req = http.MethodPost
                       \/ http.Method req = http.MethodPut)
                      /\ snd (netutil.DiscoverIPv4ViaIpify ipifyClient
                                (Some (ipifyClient (10 * cloudflare.second))) st) = Ok ip
                      /\ dottedQuad ip
                      /\ http.Body req
                         = Some {| DNSRecord.ID := ""; DNSRecord.Type_ := "A";
                                   DNSRecord.Name := name; DNSRecord.Content := ip;
                                   DNSRecord.TTL := ttl; DNSRecord.Proxied := proxied |})
              sent.
Proof.
  cbv zeta.
  destruct (run_effects cfClient ipifyClient zone name ttl proxied email globalKey
              apiToken timeout st)
    as (cs & gets & writes & ls & [_ Hr _] & Fg & _ & Hw & _).
  exists (gets ++ writes)%list. split; [exact Hr|].
  apply Forall_app. split.
  - eapply Forall_impl; [|exact Fg]. intros req H. left. exact H.
  - destruct Hw as [-> | (req & ip & -> & Hm & Hip & Hb)]; [constructor|].
    constructor; [|constructor]. right. exists ip.
    split; [exact Hm|]. split; [exact Hip|]. split; [|exact Hb].
    destruct (Discover_Ok _ _ _ _ Hip) as [body Hbody].
    exact (accepted_dottedQuad _ _ Hbody).
Qed.

(** *** The inputs of a run *)

Lemma New_one_credential {World TLSConfig}
    (cfClient : option TLSConfig -> Z -> cloudflare.HTTPClient World) opts :
  xorb (cloudflare.haveGlobal (cloudflare.applyOptions opts))
       (cloudflare.haveToken (cloudflare.applyOptions opts)) = true ->
  cloudflare.BaseURL (cloudflare.applyOptions opts) = "" ->
  exists c, cloudflare.New cfClient opts = inr c.
Proof.
  intros Hx Hb. unfold cloudflare.New. rewrite Hb. cbn [String.eqb].
  destruct (url.Parse cloudflare.defaultBaseURL) as [parsed|] eqn:Hp;
    [|vm_compute in Hp; discriminate Hp].
  destruct (cloudflare.haveGlobal _), (cloudflare.haveToken _);
    try discriminate Hx; cbn [andb]; eauto.
Qed.

Lemma usable_inputs_pass {World TLSConfig}
    (cfClient : option TLSConfig -> Z -> cloudflare.HTTPClient World)
    zone name ttl email globalKey apiToken :
  usableInputs zone name ttl email globalKey apiToken ->
  main.validateInputs zone name ttl email globalKey apiToken = None
  /\ exists c, main.construct cfClient email globalKey apiToken = inr c.
Proof.
  intros (Hz & Hn & Ht & Hcred). unfold main.validateInputs, main.construct.
  rewrite (eqb_neq_false _ _ Hz), (eqb_neq_false _ _ Hn).
  assert (Hlt : (ttl <? 0) = false) by (apply Z.ltb_ge; exact Ht). rewrite Hlt.
  destruct Hcred as [(Hk & -> & ->) | (-> & He & Hg)].
  - rewrite (eqb_neq_false _ _ Hk). cbn [String.eqb negb andb]. split; [reflexivity|].
    apply New_one_credential; [|reflexivity].
    unfold cloudflare.haveGlobal, cloudflare.haveToken. cbn.
    rewrite (eqb_neq_false _ _ Hk). reflexivity.
  - rewrite (eqb_neq_false _ _ He), (eqb_neq_false _ _ Hg). cbn [String.eqb negb andb].
    split; [reflexivity|].
    apply New_one_credential; [|reflexivity].
    unfold cloudflare.haveGlobal, cloudflare.haveToken. cbn.
    rewrite (eqb_neq_false _ _ He), (eqb_neq_false _ _ Hg). reflexivity.
Qed.

(** X18. A run gets to work, entering the discovery as its first call, exactly
    when the zone and the label are not blank, the TTL is not negative and
    one credential is given with nothing of the other.  On all other
    inputs it returns an error and leaves everything as it is: no call is
    entered, nothing is sent or printed. *)
Theorem run_starts_iff_the_inputs_are_usable {World TLSConfig}
    (cfClient : option TLSConfig -> Z -> cloudflare.HTTPClient World)
    (ipifyClient : Z -> netutil.IpifyClient World)
    zone name ttl proxied email globalKey apiToken timeout (st : State World) :
  let final :=
    main.run cfClient ipifyClient zone name ttl proxied email globalKey apiToken
             timeout st in
  (usableInputs zone name ttl email globalKey apiToken ->
   exists rest,
     calls (trace (fst final)) = (calls (trace st) ++ CallDiscoverIPv4ViaIpify :: rest)%list)
  /\ (~ usableInputs zone name ttl email globalKey apiToken ->
      exists msg, final = (st, Err (errorString msg))).
Proof.
  cbv zeta. split.
  - intros Hu. destruct (usable_inputs_pass cfClient _ _ _ _ _ _ Hu) as (Hv & c & Hc).
    destruct (run_effects cfClient ipifyClient zone name ttl proxied email globalKey
                apiToken timeout st)
      as (cs & gets & writes & ls & [Hcalls _ _] & _ & _ & _ & _ & _ & Hfirst).
    destruct (Hfirst Hv c Hc) as [rest ->]. exists rest. exact Hcalls.
  - intros Hno. unfold main.run, main.validateInputs.
    destruct (String.eqb (strings.TrimSpace zone) "") eqn:Hz; [now eexists|].
    destruct (String.eqb (strings.TrimSpace name) "") eqn:Hn; [now eexists|].
    destruct (ttl <? 0) eqn:Ht; [now eexists|].
    apply eqb_false_neq in Hz, Hn. apply Z.ltb_ge in Ht.
    unfold main.construct.
    destruct (String.eqb email "") eqn:He, (String.eqb globalKey "") eqn:Hg,
             (String.eqb apiToken "") eqn:Hk; cbn [negb andb];
      try (now eexists); exfalso; apply Hno;
      (split; [exact Hz | split; [exact Hn | split; [exact Ht|]]]).
    + left. apply String.eqb_eq in He, Hg. apply eqb_false_neq in Hk. auto.
    + right. apply String.eqb_eq in Hk. apply eqb_false_neq in He, Hg. auto.
Qed.

Lemma run_starts_iff_the_inputs_are_usable_witness :
  (exists rest,
     calls (trace (fst (stub.runStub stub.example_com "203.0.113.9")))
     = CallDiscoverIPv4ViaIpify :: rest)
  /\ (exists msg,
        main.run stub.cfClient stub.ipifyClient "  " "home" 1 false "" "" "tok"
                 (30 * cloudflare.second) (stub.start stub.example_com "203.0.113.9")
        = (stub.start stub.example_com "203.0.113.9", Err (errorString msg))).
Proof.
  split.
  - apply (proj1 (run_starts_iff_the_inputs_are_usable stub.cfClient stub.ipifyClient
                    "example.com" "home" 1 false "" "" "tok" (30 * cloudflare.second)
                    (stub.start stub.example_com "203.0.113.9"))).
    split; [vm_compute; discriminate|]. split; [vm_compute; discriminate|].
    split; [lia|]. left. split; [discriminate|]. split; reflexivity.
  - apply (proj2 (run_starts_iff_the_inputs_are_usable stub.cfClient stub.ipifyClient
                    "  " "home" 1 false "" "" "tok" (30 * cloudflare.second)
                    (stub.start stub.example_com "203.0.113.9"))).
    intros [Hz _]. apply Hz. vm_compute. reflexivity.
Defined.

(** X19. [validateInputs] accepts a token that comes with an email or a key
    alone (the pair is incomplete, so it does not count), but the next step
    of [run] does not: the run ends there with the error of the case of
    two credentials, before any call. *)
Theorem run_refuses_a_token_with_half_a_global_key {World TLSConfig}
    (cfClient : option TLSConfig -> Z -> cloudflare.HTTPClient World)
    (ipifyClient : Z -> netutil.IpifyClient World)
    zone name ttl proxied email globalKey apiToken timeout (st : State World) :
  strings.TrimSpace zone <> "" -> strings.TrimSpace name <> "" -> 0 <= ttl ->
  apiToken <> "" ->
  (email <> "" /\ globalKey = "") \/ (email = "" /\ globalKey <> "") ->
  main.validateInputs zone name ttl email globalKey apiToken = None
  /\ main.run cfClient ipifyClient zone name ttl proxied email globalKey apiToken
              timeout st
     = (st, Err (errorString "provide either api-token or email+global-key, not both")).
Proof.
  intros Hz Hn Ht Hk Hhalf.
  assert (Hv : main.validateInputs zone name ttl email globalKey apiToken = None).
  { unfold main.validateInputs.
    rewrite (eqb_neq_false _ _ Hz), (eqb_neq_false _ _ Hn), (eqb_neq_false _ _ Hk).
    assert (Hlt : (ttl <? 0) = false) by (apply Z.ltb_ge; exact Ht). rewrite Hlt.
    destruct Hhalf as [[He ->] | [-> Hg]].
    - rewrite (eqb_neq_false _ _ He). reflexivity.
    - rewrite (eqb_neq_false _ _ Hg). reflexivity. }
  split; [exact Hv|].
  unfold main.run. rewrite Hv. unfold main.construct.
  rewrite (eqb_neq_false _ _ Hk).
  destruct Hhalf as [[He ->] | [-> Hg]].
  - rewrite (eqb_neq_false _ _ He). reflexivity.
  - rewrite (eqb_neq_false _ _ Hg). reflexivity.
Qed.

Lemma run_refuses_a_token_with_half_a_global_key_witness :
  main.validateInputs "example.com" "home" 1 "me@example.com" "" "tok" = None
  /\ main.run stub.cfClient stub.ipifyClient "example.com" "home" 1 false
              "me@example.com" "" "tok" (30 * cloudflare.second)
              (stub.start stub.example_com "203.0.113.9")
     = (stub.start stub.example_com "203.0.113.9",
        Err (errorString "provide either api-token or email+global-key, not both")).
Proof.
  apply (run_refuses_a_token_with_half_a_global_key stub.cfClient stub.ipifyClient
           "example.com" "home" 1 false "me@example.com" "" "tok").
  - vm_compute. discriminate.
  - vm_compute. discriminate.
  - lia.
  - discriminate.
  - left. split; [discriminate | reflexivity].
Defined.

(** X20. The error of a run is the error of the step that failed: the error of
    the discovery is wrapped with the text "could not determine WAN IP: ",
    and the provider has not been contacted by then; the errors of the two
    lookups and of the write are returned as they are.  The run ends in the
    state in which the step ended. *)
Theorem run_returns_the_error_of_the_failing_step {World TLSConfig}
    (cfClient : option TLSConfig -> Z -> cloudflare.HTTPClient World)
    (ipifyClient : Z -> netutil.IpifyClient World)
    zone name ttl proxied email globalKey apiToken timeout (st : State World) c :
  main.validateInputs zone name ttl email globalKey apiToken = None ->
  main.construct cfClient email globalKey apiToken = inr c ->
  let discover :=
    netutil.DiscoverIPv4ViaIpify ipifyClient (Some (ipifyClient (10 * cloudflare.second))) in
  let fqdn := name ++ "." ++ zone in
  let run_ :=
    main.run cfClient ipifyClient zone name ttl proxied email globalKey apiToken
             timeout st in
  (forall st1 e,
     discover st = (st1, Err e) ->
     run_ = (st1, Err (wrapError "could not determine WAN IP: " e))
     /\ requests (trace st1) = requests (trace st))
  /\ (forall st1 ip st2 e,
     discover st = (st1, Ok ip) ->
     cloudflare.FindZoneID c zone st1 = (st2, Err e) ->
     run_ = (st2, Err e))
  /\ (forall st1 ip st2 zoneID st3 e,
     discover st = (st1, Ok ip) ->
     cloudflare.FindZoneID c zone st1 = (st2, Ok zoneID) ->
     cloudflare.GetARecord c zoneID fqdn st2 = (st3, Err e) ->
     run_ = (st3, Err e))
  /\ (forall st1 ip st2 zoneID st3 st4 e,
     discover st = (st1, Ok ip) ->
     cloudflare.FindZoneID c zone st1 = (st2, Ok zoneID) ->
     cloudflare.GetARecord c zoneID fqdn st2 = (st3, Ok None) ->
     cloudflare.CreateARecord c zoneID (payloadOf name ip ttl proxied) st3 = (st4, Err e) ->
     run_ = (st4, Err e))
  /\ (forall st1 ip st2 zoneID st3 rec st4 e,
     discover st = (st1, Ok ip) ->
     cloudflare.FindZoneID c zone st1 = (st2, Ok zoneID) ->
     cloudflare.GetARecord c zoneID fqdn st2 = (st3, Ok (Some rec)) ->
     DNSRecord.Content rec <> ip ->
     cloudflare.UpdateARecord c zoneID (DNSRecord.ID rec) (payloadOf name ip ttl proxied)
       st3 = (st4, Err e) ->
     run_ = (st4, Err e)).
Proof.
  intros Hv Hc discover fqdn run_. subst discover fqdn run_.
  rewrite (run_unfold _ _ _ _ _ _ _ _ _ _ _ _ Hv Hc).
  split; [|split; [|split; [|split]]].
  - intros st1 e Hd. rewrite Hd. split; [reflexivity|].
    apply (Discover_trace _ _ _ _ _ Hd).
  - intros st1 ip st2 e Hd Hf. rewrite Hd, Hf. reflexivity.
  - intros st1 ip st2 zoneID st3 e Hd Hf Hg. rewrite Hd, Hf, Hg. reflexivity.
  - intros st1 ip st2 zoneID st3 st4 e Hd Hf Hg Hw. rewrite Hd, Hf, Hg.
    rewrite decide_unfold. cbv zeta. rewrite Hw. reflexivity.
  - intros st1 ip st2 zoneID st3 rec st4 e Hd Hf Hg Hdiff Hw. rewrite Hd, Hf, Hg.
    rewrite decide_unfold. cbv zeta. rewrite (eqb_neq_false _ _ Hdiff), Hw. reflexivity.
Qed.

Lemma run_returns_the_error_of_the_failing_step_witness :
  snd (main.run stub.cfClient stub.ipifyRefusing "example.com" "home" 1 false "" "" "tok"
                (30 * cloudflare.second) (stub.start stub.example_com ""))
  = Err (wrapError "could not determine WAN IP: "
                   (errorString "context deadline exceeded"))
  /\ snd (stub.runStub stub.failing "203.0.113.9") = Err (notFound "example.com").
Proof.
  split.
  - destruct (run_returns_the_error_of_the_failing_step stub.cfClient stub.ipifyRefusing
                "example.com" "home" 1 false "" "" "tok" (30 * cloudflare.second)
                (stub.start stub.example_com "")
                (stub.mustClient [cloudflare.WithAPIToken "tok"])
                ltac:(vm_compute; reflexivity) ltac:(vm_compute; reflexivity))
      as (Hdiscover & _).
    edestruct Hdiscover as [Hrun _]; [vm_compute; reflexivity|].
    rewrite Hrun. reflexivity.
  - destruct (run_returns_the_error_of_the_failing_step stub.cfClient stub.ipifyClient
                "example.com" "home" 1 false "" "" "tok" (30 * cloudflare.second)
                (stub.start stub.failing "203.0.113.9")
                (stub.mustClient [cloudflare.WithAPIToken "tok"])
                ltac:(vm_compute; reflexivity) ltac:(vm_compute; reflexivity))
      as (_ & Hfind & _).
    unfold stub.runStub. erewrite Hfind; [reflexivity | vm_compute; reflexivity
                                          | vm_compute; reflexivity].
Defined.

(** ** Panics: the paths that parse *)

Lemma list_ascii_app a b :
  list_ascii_of_string (a ++ b)
  = (list_ascii_of_string a ++ list_ascii_of_string b)%list.
Proof. induction a as [|c a IH]; cbn; [reflexivity | now rewrite IH]. Qed.

Lemma escape_query_byte (c : ascii) :
  forallb queryByte
    (list_ascii_of_string (url.escape (String c "") url.encodeQueryComponent)) = true.
Proof. destruct c as [[] [] [] [] [] [] [] []]; vm_compute; reflexivity. Qed.

Lemma QueryEscape_bytes z :
  forallb queryByte (list_ascii_of_string (url.QueryEscape z)) = true.
Proof.
  unfold url.QueryEscape. induction z as [|c z IH]; [reflexivity|].
  change (String c z) with (String c "" ++ z).
  rewrite escape_app, list_ascii_app, forallb_app, escape_query_byte. exact IH.
Qed.

Lemma HasPrefix_question_cons c s :
  strings.HasPrefix (String c s) "?" = Ascii.eqb "?" c.
Proof.
  change (strings.HasPrefix (String c s) "?")
    with (Ascii.eqb "?" c && strings.HasPrefix s "").
  rewrite HasPrefix_empty. apply andb_true_r.
Qed.

Lemma Index_question_cons c s :
  strings.Index (String c s) "?"
  = if Ascii.eqb "?" c then Some 0%nat else option_map S (strings.Index s "?").
Proof.
  change (strings.Index (String c s) "?")
    with (if strings.HasPrefix (String c s) "?" then Some 0%nat
          else option_map S (strings.Index s "?")).
  rewrite HasPrefix_question_cons. reflexivity.
Qed.

Lemma queryByte_spec c :
  queryByte c = true ->
  ((byte_val c <? 32) || (byte_val c =? 127)) = false
  /\ Ascii.eqb "#" c = false /\ Ascii.eqb "?" c = false.
Proof.
  unfold queryByte. rewrite negb_true_iff, !orb_false_iff. tauto.
Qed.

Lemma queryBytes_no_hash s :
  forallb queryByte (list_ascii_of_string s) = true -> strings.Index s "#" = None.
Proof.
  induction s as [|c s IH]; [reflexivity|]. cbn [list_ascii_of_string forallb].
  rewrite andb_true_iff. intros [Hc Hs]. apply queryByte_spec in Hc.
  destruct Hc as (_ & Hh & _). rewrite Index_hash_cons, Hh, (IH Hs). reflexivity.
Qed.

Lemma queryBytes_no_control s :
  forallb queryByte (list_ascii_of_string s) = true ->
  url.stringContainsCTLByte s = false.
Proof.
  unfold url.stringContainsCTLByte.
  induction s as [|c s IH]; [reflexivity|]. cbn [list_ascii_of_string forallb existsb].
  rewrite andb_true_iff. intros [Hc Hs]. apply queryByte_spec in Hc.
  destruct Hc as (Hctl & _). rewrite Hctl, (IH Hs). reflexivity.
Qed.

(** The last byte of a text that is not empty. *)
Lemma drop_to_last c s :
  exists d, strings.drop (String.length s) (String c s) = String d ""
            /\ (d = c \/ In d (list_ascii_of_string s)).
Proof.
  revert c. induction s as [|c' s IH]; intros c.
  - exists c. split; [reflexivity | now left].
  - destruct (IH c') as (d & Hd & Hin). exists d. split; [exact Hd|].
    right. destruct Hin as [-> | Hin]; [now left | now right].
Qed.

Lemma queryBytes_not_question_last c s :
  Ascii.eqb "?" c = false ->
  forallb queryByte (list_ascii_of_string s) = true ->
  String.eqb (strings.drop (String.length s) (String c s)) "?" = false.
Proof.
  intros Hc Hs. destruct (drop_to_last c s) as (d & -> & Hd).
  assert (Hq : Ascii.eqb "?" d = false).
  { destruct Hd as [-> | Hin]; [exact Hc|].
    rewrite forallb_forall in Hs. apply Hs, queryByte_spec in Hin. tauto. }
  cbn [String.eqb]. rewrite Ascii.eqb_sym, Hq. reflexivity.
Qed.

(** The relative path of [FindZoneID] parses, whatever the name is. *)
Lemma Parse_pathFindZoneID zoneName :
  url.Parse (pathFindZoneID zoneName) = Some (zonesQuery zoneName).
Proof.
  unfold pathFindZoneID, zonesQuery.
  pose proof (QueryEscape_bytes zoneName) as Hq.
  set (esc := url.QueryEscape zoneName) in *.
  assert (Hhash : strings.Cut ("zones?name=" ++ esc) "#"
                  = ("zones?name=" ++ esc, "", false)).
  { unfold strings.Cut. cbn [append]. rewrite !Index_hash_cons. cbn [Ascii.eqb Bool.eqb].
    rewrite (queryBytes_no_hash _ Hq). reflexivity. }
  assert (Hquestion : strings.Cut ("zones?name=" ++ esc) "?"
                      = ("zones", "name=" ++ esc, true)).
  { unfold strings.Cut. cbn [append]. rewrite !Index_question_cons.
    cbn [Ascii.eqb Bool.eqb option_map]. reflexivity. }
  assert (Hsuffix : strings.HasSuffix ("zones?name=" ++ esc) "?" = false).
  { unfold strings.HasSuffix. cbn [append String.length Nat.sub].
    cbn [strings.drop].
    rewrite (queryBytes_not_question_last "=" esc eq_refl Hq). apply andb_false_r. }
  assert (Hctl : url.stringContainsCTLByte ("zones?name=" ++ esc) = false).
  { pose proof (queryBytes_no_control _ Hq) as H.
    unfold url.stringContainsCTLByte in *. rewrite list_ascii_app, existsb_app, H.
    reflexivity. }
  unfold url.Parse. rewrite Hhash. unfold url.parse. rewrite Hctl.
  change (String.eqb ("zones?name=" ++ esc) "*") with false. cbv iota.
  change (url.getScheme ("zones?name=" ++ esc)) with (Some ("", "zones?name=" ++ esc)).
  cbv iota beta. rewrite Hsuffix. cbn [andb]. rewrite Hquestion. reflexivity.
Qed.

(** The dispatch routine returns an error or a response. *)
Lemma do_no_panic {World} (c : cloudflare.Client World) req st :
  snd (cloudflare.do c req st) <> Panic.
Proof.
  unfold cloudflare.do, Do, fail.
  destruct (cloudflare.authMode c).
  - destruct (_ || _); [discriminate|].
    destruct (cloudflare.httpClient c _ _) as [w [e|resp]]; discriminate.
  - destruct (String.eqb _ _); [discriminate|].
    destruct (cloudflare.httpClient c _ _) as [w [e|resp]]; discriminate.
Qed.

(** Past [buildURL], an operation whose continuation does not panic ends
    without panic. *)
Lemma dispatch_panic {World A} (c : cloudflare.Client World) p method body
    (k : http.Response JSONBody -> M World A) st :
  (forall resp s, snd (k resp s) <> Panic) ->
  snd ((u <- cloudflare.buildURL_ c p ;;
        req <- liftE (http.NewRequest method u body) ;;
        resp <- cloudflare.do c req ;;
        k resp) st) = Panic
  <-> url.Parse p = None.
Proof.
  intros Hk. unfold cloudflare.buildURL_, cloudflare.buildURL, bind, liftE, ret, fail, panic.
  destruct (url.Parse p) as [rel|]; [|split; reflexivity].
  split; [|discriminate]. intros H. exfalso. revert H.
  destruct (http.NewRequest _ _ _) as [e|req]; [discriminate|].
  pose proof (do_no_panic c req st) as Hdo.
  destruct (cloudflare.do c req st) as [st1 [resp|e|]]; cbn [snd] in *;
    [apply Hk | discriminate | congruence].
Qed.

Ltac no_panic :=
  intros ? ?; unfold bind, liftE, ret, fail, panic;
  repeat first
    [ discriminate
    | match goal with
      | |- context [negb (wire.Success ?out) || (List.length (wire.Result ?out) =? 0)%nat] =>
          destruct (wire.Result out); [rewrite orb_true_r | rewrite orb_false_r]
      | |- context [if ?b then _ else _] => destruct b
      | |- context [match ?x with inl _ => _ | inr _ => _ end] => destruct x
      end ].

(** X21. An operation of the client panics exactly when the relative path it
    writes does not parse as a URL: [buildURL] drops the error of the
    parser and dereferences the nil result.  The path of [FindZoneID]
    always parses, the name being escaped: [FindZoneID] never panics.  The
    other three insert the zone id (and the record id) as they are. *)
Theorem operations_panic_iff_the_path_does_not_parse {World}
    (c : cloudflare.Client World) (st : State World) :
  (forall zoneName, snd (cloudflare.FindZoneID c zoneName st) <> Panic)
  /\ (forall zoneID fqdn,
        snd (cloudflare.GetARecord c zoneID fqdn st) = Panic
        <-> zoneID <> "" /\ fqdn <> ""
            /\ url.Parse (pathGetARecord zoneID fqdn) = None)
  /\ (forall zoneID payload,
        snd (cloudflare.CreateARecord c zoneID payload st) = Panic
        <-> url.Parse (pathCreateARecord zoneID) = None)
  /\ (forall zoneID recordID payload,
        snd (cloudflare.UpdateARecord c zoneID recordID payload st) = Panic
        <-> zoneID <> "" /\ recordID <> ""
            /\ url.Parse (pathUpdateARecord zoneID recordID) = None).
Proof.
  split; [|split; [|split]].
  - intros zoneName. unfold cloudflare.FindZoneID. unfold bind at 1, emit at 1.
    destruct (String.eqb zoneName ""); [discriminate|].
    intros H. apply dispatch_panic in H; [|no_panic].
    fold (pathFindZoneID zoneName) in H. rewrite Parse_pathFindZoneID in H. discriminate H.
  - intros zoneID fqdn. unfold cloudflare.GetARecord. unfold bind at 1, emit at 1.
    destruct (String.eqb zoneID "") eqn:Hz; cbn [orb].
    { apply String.eqb_eq in Hz. split; [discriminate | intros (H & _); now elim H]. }
    destruct (String.eqb fqdn "") eqn:Hf.
    { apply String.eqb_eq in Hf. split; [discriminate | intros (_ & H & _); now elim H]. }
    apply eqb_false_neq in Hz, Hf. cbv zeta.
    rewrite dispatch_panic by no_panic. fold (pathGetARecord zoneID fqdn). tauto.
  - intros zoneID payload. unfold cloudflare.CreateARecord. unfold bind at 1, emit at 1.
    rewrite dispatch_panic by no_panic. reflexivity.
  - intros zoneID recordID payload.
    unfold cloudflare.UpdateARecord. unfold bind at 1, emit at 1.
    destruct (String.eqb zoneID "") eqn:Hz; cbn [orb].
    { apply String.eqb_eq in Hz. split; [discriminate | intros (H & _); now elim H]. }
    destruct (String.eqb recordID "") eqn:Hr.
    { apply String.eqb_eq in Hr. split; [discriminate | intros (_ & H & _); now elim H]. }
    apply eqb_false_neq in Hz, Hr.
    rewrite dispatch_panic by no_panic. fold (pathUpdateARecord zoneID recordID). tauto.
Qed.

(** X22. With the default base URL, the lookup of a zone is sent, for every
    name, to the escaped name under /client/zones: the segment v4 of the
    base is lost for every name. *)
Theorem FindZoneID_URL_on_the_default_base {World} (c : cloudflare.Client World)
    zoneName :
  url.Parse cloudflare.defaultBaseURL = Some (cloudflare.baseURL c) ->
  cloudflare.buildURL c (pathFindZoneID zoneName)
  = Some ("https://api.cloudflare.com/client/zones?name=" ++ url.QueryEscape zoneName).
Proof.
  intros Hbase. unfold cloudflare.buildURL. rewrite Parse_pathFindZoneID.
  remember (cloudflare.baseURL c) as base eqn:Eb. clear Eb.
  vm_compute in Hbase. injection Hbase as <-. reflexivity.
Qed.

Lemma FindZoneID_URL_on_the_default_base_witness :
  cloudflare.buildURL (stub.mustClient [cloudflare.WithAPIToken "tok"])
                      (pathFindZoneID "my zone/a?b#c")
  = Some "https://api.cloudflare.com/client/zones?name=my+zone%2Fa%3Fb%23c".
Proof.
  apply (FindZoneID_URL_on_the_default_base
           (stub.mustClient [cloudflare.WithAPIToken "tok"]) "my zone/a?b#c").
  vm_compute. reflexivity.
Defined.

Lemma fqdn_nonempty name zone : name ++ "." ++ zone <> "".
Proof. destruct name; discriminate. Qed.

(** X23. The answer of [GetARecord] to [success] false, in the flow: when
    the provider answers the lookup of the record with a 2xx envelope whose
    [success] is false, the run enters [CreateARecord] with the discovered
    address and ends with its result, whatever the result list of the
    envelope holds (also a record that already points to that address); it
    does not enter [UpdateARecord]. *)
Theorem run_creates_when_the_lookup_reports_failure {World TLSConfig}
    (cfClient : option TLSConfig -> Z -> cloudflare.HTTPClient World)
    (ipifyClient : Z -> netutil.IpifyClient World)
    zone name ttl proxied email globalKey apiToken timeout (st : State World)
    c st1 wanIP st2 zoneID st3 resp out :
  main.validateInputs zone name ttl email globalKey apiToken = None ->
  main.construct cfClient email globalKey apiToken = inr c ->
  netutil.DiscoverIPv4ViaIpify ipifyClient
    (Some (ipifyClient (10 * cloudflare.second))) st = (st1, Ok wanIP) ->
  cloudflare.FindZoneID c zone st1 = (st2, Ok zoneID) ->
  zoneID <> "" ->
  answered c http.MethodGet (pathGetARecord zoneID (name ++ "." ++ zone)) None
           (called st2 (CallGetARecord zoneID (name ++ "." ++ zone))) st3 resp ->
  http.is2xx resp = true ->
  decodeRecords (http.RespBody resp) = inr out ->
  Success out = false ->
  let fqdn := name ++ "." ++ zone in
  let payload := payloadOf name wanIP ttl proxied in
  let final :=
    main.run cfClient ipifyClient zone name ttl proxied email globalKey apiToken
             timeout st in
  calls (trace (fst final))
  = (calls (trace st)
     ++ [CallDiscoverIPv4ViaIpify; CallFindZoneID zone; CallGetARecord zoneID fqdn;
         CallCreateARecord zoneID payload])%list
  /\ count isUpdate (trace (fst final)) = count isUpdate (trace st)
  /\ final = match cloudflare.CreateARecord c zoneID payload st3 with
             | (st4, Ok _) =>
                 ({| world := world st4;
                     trace := (trace st4 ++ [EvPrint ("Created A " ++ fqdn ++ " -> "
                                                      ++ wanIP ++ main.nl)])%list |},
                  Ok tt)
             | (st4, Err err) => (st4, Err err)
             | (st4, Panic) => (st4, Panic)
             end.
Proof.
  intros Hv Hc Hd Hf Hz Hans H2xx Hdec Hs fqdn payload final.
  assert (Hg : cloudflare.GetARecord c zoneID fqdn st2 = (st3, Ok None)).
  { rewrite (GetARecord_answered c zoneID fqdn st2 st3 resp Hz (fqdn_nonempty _ _) Hans).
    rewrite H2xx, Hdec, Hs. reflexivity. }
  assert (Hfinal : final = match cloudflare.CreateARecord c zoneID payload st3 with
             | (st4, Ok _) =>
                 ({| world := world st4;
                     trace := (trace st4 ++ [EvPrint ("Created A " ++ fqdn ++ " -> "
                                                      ++ wanIP ++ main.nl)])%list |},
                  Ok tt)
             | (st4, Err err) => (st4, Err err)
             | (st4, Panic) => (st4, Panic)
             end).
  { subst final. rewrite (run_unfold _ _ _ _ _ _ _ _ _ _ _ _ Hv Hc), Hd, Hf.
    fold fqdn. rewrite Hg, decide_unfold. reflexivity. }
  assert (Hcalls : calls (trace (fst final))
                   = (calls (trace st)
                      ++ [CallDiscoverIPv4ViaIpify; CallFindZoneID zone;
                          CallGetARecord zoneID fqdn;
                          CallCreateARecord zoneID payload])%list).
  { rewrite Hfinal.
    destruct (cloudflare.CreateARecord c zoneID payload st3) as [st4 r4] eqn:Hw.
    pose proof (Discover_effects _ _ _ _ _ Hd) as [E1 _ _].
    destruct (FindZoneID_effects _ _ _ _ _ Hf) as (g1 & [E2 _ _] & _).
    destruct (GetARecord_effects _ _ _ _ _ _ Hg) as (g2 & [E3 _ _] & _).
    destruct (CreateARecord_effects _ _ _ _ _ _ Hw) as (w & [E4 _ _] & _).
    assert (H4 : calls (trace st4)
                 = (calls (trace st)
                    ++ [CallDiscoverIPv4ViaIpify; CallFindZoneID zone;
                        CallGetARecord zoneID fqdn;
                        CallCreateARecord zoneID payload])%list).
    { rewrite E4, E3, E2, E1, <- !app_assoc. reflexivity. }
    destruct r4; cbn [fst trace]; try exact H4.
    rewrite calls_app, H4. cbn. apply app_nil_r. }
  split; [exact Hcalls|]. split; [|exact Hfinal].
  rewrite (count_calls _ _ _ _ Hcalls). cbn. lia.
Qed.

Lemma run_creates_when_the_lookup_reports_failure_witness :
  let final :=
    main.run stub.lookupFails stub.ipifyClient "example.com" "home" 1 false "" "" "tok"
             (30 * cloudflare.second) (stub.start stub.example_com "203.0.113.1") in
  stub.records stub.example_com = [stub.record "rid" "home.example.com" "203.0.113.1" 300 false]
  /\ calls (trace (fst final))
     = [CallDiscoverIPv4ViaIpify; CallFindZoneID "example.com";
        CallGetARecord "abc123" "home.example.com";
        CallCreateARecord "abc123" (payloadOf "home" "203.0.113.1" 1 false)].
Proof.
  cbv zeta. split; [reflexivity|].
  edestruct (run_creates_when_the_lookup_reports_failure stub.lookupFails stub.ipifyClient
               "example.com" "home" 1 false "" "" "tok" (30 * cloudflare.second)
               (stub.start stub.example_com "203.0.113.1"))
    as [Hcalls _];
    [ vm_compute; reflexivity | vm_compute; reflexivity | vm_compute; reflexivity
    | vm_compute; reflexivity | discriminate | answer
    | vm_compute; reflexivity | vm_compute; reflexivity | vm_compute; reflexivity | ].
  rewrite Hcalls. reflexivity.
Defined.
